(** * Vibot Mobile: the surprise engine and the memory classification step

    A shallow embedding of

    - the surprise engine ([SurpriseEngineClass]: [generateSurprises] and
      its eight generators, with [daysBetween] and [sameDay]),
    - [AIService] ([isConfigured], [chat], [analyzeMemory],
      [findConnections], [getThinkingPartnerPrompt]),
    - the talk screen's [saveAsMemory], [extractBasicTags] and
      [sendMessage],
    - the store's [appReducer],
    - the search screen's [filteredMemories],
    - [TranscriptionService] ([transcribe] and its retries),

    followed by the properties proved of them.

    Conventions.  Text is a [string] of 8-bit characters, so the embedding
    speaks of ASCII text.  A date is the time value of a JavaScript [Date],
    in milliseconds since the epoch, as a [Z]; [createdAt] fields hold the
    time value of the ISO string the store wrote.  What the JavaScript
    runtime decides (the clock, the local calendar, [Math.random], the order
    a random comparator leaves an array in, the network) is a field of
    [Runtime], and every property is proved for all runtimes that meet
    [RuntimeOK].  Which of two pending requests completes first is an
    argument of [sendMessage], and the wording of the errors the engine
    throws in [transcribe] is a field of the response. *)

From Stdlib Require Import ZArith QArith Qround List String Ascii Bool Lia.
From Stdlib Require Import Permutation DecimalString Sorted.
Import ListNotations.

Set Warnings "-register-all".

Local Open Scope string_scope.
Local Open Scope list_scope.
Local Open Scope Z_scope.

(** ** Exceptions *)

(** A computation that returns a value or throws. *)
Inductive Exc (A : Type) : Type :=
| Ok (a : A)
| Throw (message : string).
Arguments Ok {A} a.
Arguments Throw {A} message.

Definition bind {A B} (c : Exc A) (k : A -> Exc B) : Exc B :=
  match c with
  | Ok a => k a
  | Throw e => Throw e
  end.

(** [try { body } catch (e) { handler }] *)
Definition try_catch {A} (body : Exc A) (handler : string -> Exc A) : Exc A :=
  match body with
  | Ok a => Ok a
  | Throw e => handler e
  end.

Notation "x <- c ;; k" := (bind c (fun x => k))
  (at level 61, c at next level, right associativity).

(** ** JavaScript strings and arrays *)

Module Js.

(** The double quote and the line feed, for template strings. *)
Definition dq : string := String (ascii_of_nat 34) EmptyString.
Definition nl : string := String (ascii_of_nat 10) EmptyString.

Definition isUpper (c : ascii) : bool :=
  let n := nat_of_ascii c in (65 <=? n)%nat && (n <=? 90)%nat.

Definition isLower (c : ascii) : bool :=
  let n := nat_of_ascii c in (97 <=? n)%nat && (n <=? 122)%nat.

(** [\s] on ASCII: tab, line feed, vertical tab, form feed, carriage
    return, space. *)
Definition isSpace (c : ascii) : bool :=
  let n := nat_of_ascii c in ((9 <=? n)%nat && (n <=? 13)%nat) || (n =? 32)%nat.

Definition lowerChar (c : ascii) : ascii :=
  if isUpper c then ascii_of_nat (nat_of_ascii c + 32) else c.

Fixpoint toLowerCase (s : string) : string :=
  match s with
  | EmptyString => EmptyString
  | String c s' => String (lowerChar c) (toLowerCase s')
  end.

Fixpoint filterChars (keep : ascii -> bool) (s : string) : string :=
  match s with
  | EmptyString => EmptyString
  | String c s' =>
      if keep c then String c (filterChars keep s') else filterChars keep s'
  end.

Fixpoint allChars (p : ascii -> bool) (s : string) : bool :=
  match s with
  | EmptyString => true
  | String c s' => p c && allChars p s'
  end.

(** [s.split(/\s+/)]: [cur] is the piece being read, [inSep] tells that
    the previous character was white space. *)
Fixpoint splitSpaces (s : string) (cur : string) (inSep : bool) : list string :=
  match s with
  | EmptyString => [cur]
  | String c s' =>
      if isSpace c
      then if inSep then splitSpaces s' cur true
           else cur :: splitSpaces s' EmptyString true
      else splitSpaces s' (cur ++ String c EmptyString)%string false
  end.

Definition split_ws (s : string) : list string := splitSpaces s EmptyString false.

Fixpoint dropSpaces (s : string) : string :=
  match s with
  | EmptyString => EmptyString
  | String c s' => if isSpace c then dropSpaces s' else s
  end.

Fixpoint rev_string (s acc : string) : string :=
  match s with
  | EmptyString => acc
  | String c s' => rev_string s' (String c acc)
  end.

Definition trim (s : string) : string :=
  rev_string (dropSpaces (rev_string (dropSpaces s) EmptyString)) EmptyString.

(** [s.substring(0, n)] *)
Definition substring0 (n : nat) (s : string) : string := String.substring 0 n s.

(** [s.includes(sub)] *)
Fixpoint includes (s sub : string) : bool :=
  String.prefix sub s ||
  match s with
  | EmptyString => false
  | String _ s' => includes s' sub
  end.

(** A number in a template string. *)
Definition showZ (z : Z) : string := NilZero.string_of_int (Z.to_int z).

Definition inStrings (x : string) (l : list string) : bool :=
  existsb (String.eqb x) l.

(** [a.sort(cmp)] for a consistent comparator: a stable sort; [x] goes
    before [y] when [cmp x y <= 0]. *)
Section Sort.
Context {A : Type} (cmp : A -> A -> Z).

Fixpoint insert (x : A) (l : list A) : list A :=
  match l with
  | [] => [x]
  | y :: l' => if cmp x y <=? 0 then x :: l else y :: insert x l'
  end.

Fixpoint sort (l : list A) : list A :=
  match l with
  | [] => []
  | x :: l' => insert x (sort l')
  end.
End Sort.

(** [a.slice(0, n)] *)
Definition slice0 {A} (n : nat) (l : list A) : list A := firstn n l.

(** [Math.round(n / d)] for [n >= 0] and [d > 0]: halves go up. *)
Definition roundDiv (n d : Z) : Z := (2 * n + d) / (2 * d).

(** [Math.floor(r * n)] for a draw [r] of [Math.random()]. *)
Definition floorTimes (r : Q) (n : nat) : nat :=
  Z.to_nat (Qfloor (r * inject_Z (Z.of_nat n))).

(** [new Map()] used as a counter: the entries in insertion order. *)
Fixpoint countGet (m : list (string * Z)) (k : string) : option Z :=
  match m with
  | [] => None
  | (k', v) :: m' => if String.eqb k k' then Some v else countGet m' k
  end.

Fixpoint countSet (m : list (string * Z)) (k : string) (v : Z) : list (string * Z) :=
  match m with
  | [] => [(k, v)]
  | (k', v') :: m' =>
      if String.eqb k k' then (k', v) :: m' else (k', v') :: countSet m' k v
  end.

(** [m.set(k, (m.get(k) || 0) + 1)] *)
Definition countUp (m : list (string * Z)) (k : string) : list (string * Z) :=
  countSet m k (match countGet m k with Some v => v | None => 0 end + 1).

(** The distinct strings of [l], each at its first occurrence: what a
    [Set] filled in that order holds, and what
    [l.filter((v, i, a) => a.indexOf(v) === i)] keeps. *)
Fixpoint uniqFrom (seen l : list string) : list string :=
  match l with
  | [] => []
  | x :: l' =>
      if inStrings x seen then uniqFrom seen l' else x :: uniqFrom (x :: seen) l'
  end.

Definition uniq (l : list string) : list string := uniqFrom [] l.

(** [x || alt] for a string that may be [undefined]. *)
Definition orElse (x : option string) (alt : string) : string :=
  match x with
  | Some s => if String.eqb s "" then alt else s
  | None => alt
  end.

(** JSON values, and [undefined] for a property that is not there.  An
    object lists each of its keys once. *)
Inductive Value : Type :=
| Undefined
| Null
| Bool (b : bool)
| Num (z : Z)
| Str (s : string)
| Arr (items : list Value)
| Obj (fields : list (string * Value)).

Definition strings (l : list string) : Value := Arr (map Str l).

Fixpoint field (fields : list (string * Value)) (k : string) : Value :=
  match fields with
  | [] => Undefined
  | (k', v) :: rest => if String.eqb k k' then v else field rest k
  end.

(** [v.k]: a TypeError on [null] and [undefined], the own property of an
    object, [undefined] on the other values (no JSON value has one of
    the property names read here on its prototype). *)
Definition prop (v : Value) (k : string) : Exc Value :=
  match v with
  | Undefined => Throw "TypeError: Cannot read properties of undefined"
  | Null => Throw "TypeError: Cannot read properties of null"
  | Obj fields => Ok (field fields k)
  | _ => Ok Undefined
  end.

Definition truthy (v : Value) : bool :=
  match v with
  | Undefined | Null => false
  | Bool b => b
  | Num z => negb (z =? 0)
  | Str s => negb (String.eqb s "")
  | Arr _ | Obj _ => true
  end.

(** [v.toLowerCase()] *)
Definition valueToLowerCase (v : Value) : Exc string :=
  match v with
  | Str s => Ok (toLowerCase s)
  | Undefined | Null => Throw "TypeError: Cannot read properties"
  | _ => Throw "TypeError: toLowerCase is not a function"
  end.

End Js.


(** ** The data model ([types/index.ts]) *)

Module Memory.
Inductive Kind := voice | text | conversation.

Record t := mk {
  id : string;
  content : string;
  summary : option string;
  type : Kind;
  tags : list string;
  connections : list string;
  roomId : option string;
  createdAt : Z;
  updatedAt : Z;
  userId : string
}.

(** [m.summary || alt]: an absent or empty summary gives [alt]. *)
Definition summaryOr (m : t) (alt : string) : string :=
  match summary m with
  | Some s => if String.eqb s "" then alt else s
  | None => alt
  end.
End Memory.

Module Room.
Record t := mk {
  id : string;
  name : string;
  icon : string;
  color : string;
  memoryCount : Z;
  lastVisited : option Z;
  userId : string;
  createdAt : Z
}.
End Room.

Module Message.
Inductive Role := user | assistant.

Record t := mk {
  id : string;
  role : Role;
  content : string;
  timestamp : Z
}.
End Message.

(** A message as the conversations hold it: with the [isVoice] mark the
    talk screen adds. *)
Module Posted.
Record t := mk {
  message : Message.t;
  isVoice : option bool
}.
End Posted.

Module Conversation.
Record t := mk {
  id : string;
  title : option string;
  messages : list Posted.t;
  memoryIds : list string;
  createdAt : Z;
  userId : string
}.
End Conversation.

(** ** The surprise ([Surprise], [SurpriseType], [SURPRISE_STYLES]) *)

Inductive SurpriseType :=
| on_this_day
| connection
| idea_spark
| forgotten_gem
| pattern
| nudge
| mashup
| question.

Module Surprise.
Record t := mk {
  id : string;
  type : SurpriseType;
  title : string;
  content : string;
  relatedMemoryIds : list string;
  icon : string;
  gradient : string * string;
  createdAt : Z
}.
End Surprise.

Definition SURPRISE_STYLES (type : SurpriseType) : string * (string * string) :=
  match type with
  | on_this_day => ("calendar", ("#6C3CE1", "#8B5CF6"))
  | connection => ("git-merge", ("#3B82F6", "#06B6D4"))
  | idea_spark => ("flash", ("#F59E0B", "#EF4444"))
  | forgotten_gem => ("diamond", ("#EC4899", "#8B5CF6"))
  | pattern => ("analytics", ("#10B981", "#3B82F6"))
  | nudge => ("hand-left", ("#F59E0B", "#10B981"))
  | mashup => ("shuffle", ("#EF4444", "#6C3CE1"))
  | question => ("help-circle", ("#06B6D4", "#3B82F6"))
  end.

(** ** The runtime *)

(** The entries of the [generators] array of [generateSurprises], one per
    closure. *)
Inductive Generator :=
| FindOnThisDay
| FindForgottenGem
| FindPattern
| GenerateNudge
| GenerateMashup
| GenerateQuestion
| GenerateAIConnection
| GenerateAIIdeaSpark.

(** Where a surprise or a memory is made, for [generateId()]. *)
Inductive Maker :=
| ByGenerator (g : Generator)
| ByEncouragement
| ByWelcome
| BySaveAsMemory.

(** The calls of [Math.random()] whose value is used as a number. *)
Inductive Draw :=
| OnThisDayPick
| ForgottenGemPick
| QuestionTag1
| QuestionTag2
| QuestionTag3
| QuestionPick
| EncouragementPick.

(** The body [chat] posts to the completion endpoint. *)
Record Body := {
  model : string;
  max_tokens : Z;
  messages : list (Message.Role * string);
  system : option string
}.

(** A reply of the completion endpoint: [text] is
    [result.content?.[0]?.text || ''], and [json] is what [JSON.parse]
    makes of that text, [None] when it throws a SyntaxError. *)
Record Reply := {
  text : string;
  json : option Js.Value
}.

Record Runtime := {
  (** [new Date()] and [Date.now()], one instant for the call *)
  now : Z;
  (** [Date.prototype.getDate] and [getMonth], of a time value *)
  getDate : Z -> Z;
  getMonth : Z -> Z;
  (** [Math.random()], a draw for each place that reads one *)
  random : Draw -> Q;
  (** [generators.sort(() => Math.random() - 0.5)] *)
  shuffleGenerators : list Generator -> list Generator;
  (** [[...memories].sort(() => Math.random() - 0.5)], in the generator
      that asks *)
  shuffleMemories : Generator -> list Memory.t -> list Memory.t;
  (** [generateId()] *)
  generateId : Maker -> string;
  (** [process.env.EXPO_PUBLIC_ANTHROPIC_API_KEY || ''] *)
  apiKey : string;
  (** [fetch(ANTHROPIC_API_URL, ...)] up to the text of the reply; it
      throws when the network fails or [response.ok] is false *)
  fetchCompletion : Body -> Exc Reply
}.

(** What is known of every runtime: [Math.random()] is in [0, 1), and a
    sort leaves a permutation of the array whatever the comparator (the
    order is the engine's choice when the comparator is random, the
    elements are not). *)
Record RuntimeOK (rt : Runtime) : Prop := {
  random_range : forall d, (0 <= random rt d)%Q /\ (random rt d < 1)%Q;
  shuffleGenerators_perm : forall l, Permutation l (shuffleGenerators rt l);
  shuffleMemories_perm : forall g l, Permutation l (shuffleMemories rt g l)
}.

(** ** [AIService] ([services/ai.ts]) *)

Module AIService.

(** [!!(this.apiKey && this.apiKey.trim() !== '')] *)
Definition isConfigured (rt : Runtime) : bool :=
  negb (String.eqb (apiKey rt) "") && negb (String.eqb (Js.trim (apiKey rt)) "").

Definition chat (rt : Runtime) (msgs : list Message.t)
    (systemPrompt : option string) : Exc Reply :=
  if negb (isConfigured rt)
  then Throw "Anthropic API key not configured. Please add EXPO_PUBLIC_ANTHROPIC_API_KEY to your .env file."
  else
    let formattedMessages :=
      map (fun msg => (Message.role msg, Message.content msg)) msgs in
    fetchCompletion rt
      {| model := "claude-sonnet-4-5-20250929";
         max_tokens := 1024;
         messages := formattedMessages;
         system := match systemPrompt with
                   | Some p => if String.eqb p "" then None else Some p
                   | None => None
                   end |}.

Definition analysisPrompt : string :=
  ("You are a memory analysis assistant. Given a piece of text (a transcribed voice note, written note, or conversation excerpt), extract:" ++ Js.nl
   ++ "1. tags: 3-5 relevant topic tags (lowercase, single words or short phrases)" ++ Js.nl
   ++ "2. summary: A concise 1-2 sentence summary" ++ Js.nl
   ++ "3. suggestedRoom: A suggested category room name (e.g., " ++ Js.dq ++ "Work & Projects" ++ Js.dq
   ++ ", " ++ Js.dq ++ "Ideas Lab" ++ Js.dq ++ ", " ++ Js.dq ++ "Learning" ++ Js.dq
   ++ ", " ++ Js.dq ++ "Personal" ++ Js.dq ++ ")" ++ Js.nl ++ Js.nl
   ++ "Respond in JSON format only: {" ++ Js.dq ++ "tags" ++ Js.dq ++ ": [...], "
   ++ Js.dq ++ "summary" ++ Js.dq ++ ": " ++ Js.dq ++ "..." ++ Js.dq ++ ", "
   ++ Js.dq ++ "suggestedRoom" ++ Js.dq ++ ": " ++ Js.dq ++ "..." ++ Js.dq ++ "}")%string.

(** [content.substring(0, 100) + (content.length > 100 ? '...' : '')] *)
Definition truncated (content : string) : string :=
  (Js.substring0 100 content
   ++ (if (100 <? String.length content)%nat then "..." else ""))%string.

(** The object of the [catch] branch of [analyzeMemory]. *)
Definition unparsed (content : string) : Js.Value :=
  Js.Obj [("tags", Js.Arr []); ("summary", Js.Str (truncated content))].

Definition analyzeMemory (rt : Runtime) (content : string) : Exc Js.Value :=
  let msgs :=
    [ {| Message.id := "analysis";
         Message.role := Message.user;
         Message.content := ("Analyze this memory:" ++ Js.nl ++ Js.nl ++ content)%string;
         Message.timestamp := now rt |} ] in
  response <- chat rt msgs (Some analysisPrompt) ;;
  try_catch
    (match json response with
     | Some v => Ok v
     | None => Throw "SyntaxError"
     end)
    (fun _ => Ok (unparsed content)).

Definition connectionsPrompt : string :=
  ("You find connections between memories. Given a new memory and a list of existing memories, identify which existing memories are related and how." ++ Js.nl ++ Js.nl
   ++ "Respond in JSON format only: [{" ++ Js.dq ++ "memoryId" ++ Js.dq ++ ": "
   ++ Js.dq ++ "..." ++ Js.dq ++ ", " ++ Js.dq ++ "relationship" ++ Js.dq ++ ": "
   ++ Js.dq ++ "..." ++ Js.dq ++ ", " ++ Js.dq ++ "strength" ++ Js.dq ++ ": 0.0-1.0}]" ++ Js.nl
   ++ "Only include memories with strength > 0.3. Maximum 5 connections.")%string.

(** A line of the [memoryList] of [findConnections]. *)
Definition memoryLine (m : Memory.t) : string :=
  ("[" ++ Memory.id m ++ "] "
   ++ Memory.summaryOr m (Js.substring0 100 (Memory.content m)))%string.

(** Find connections between a new memory and existing ones *)
Definition findConnections (rt : Runtime) (newMemory : string)
    (existingMemories : list Memory.t) : Exc Js.Value :=
  if (List.length existingMemories =? 0)%nat then Ok (Js.Arr [])
  else
    let memoryList :=
      String.concat Js.nl
        (map memoryLine (Js.slice0 20 existingMemories (* Limit to most recent 20 *))) in
    let msgs :=
      [ {| Message.id := "connections";
           Message.role := Message.user;
           Message.content :=
             ("New memory: " ++ newMemory ++ Js.nl ++ Js.nl
              ++ "Existing memories:" ++ Js.nl ++ memoryList)%string;
           Message.timestamp := now rt |} ] in
    response <- chat rt msgs (Some connectionsPrompt) ;;
    try_catch
      (match json response with
       | Some v => Ok v
       | None => Throw "SyntaxError"
       end)
      (fun _ => Ok (Js.Arr [])).

Definition thinkingPartnerBase : string :=
  ("You are Vibot, an AI thinking partner inside a Memory Palace app. Your role is to:" ++ Js.nl ++ Js.nl
   ++ "1. Help users think through ideas by asking thoughtful follow-up questions" ++ Js.nl
   ++ "2. Make connections between their current thoughts and previous memories" ++ Js.nl
   ++ "3. Offer new perspectives and gentle challenges to deepen thinking" ++ Js.nl
   ++ "4. Summarize and organize thoughts when asked" ++ Js.nl
   ++ "5. Be warm, encouraging, and intellectually curious" ++ Js.nl
   ++ "6. Sometimes surprise the user by referencing something they mentioned before that connects to what they're saying now" ++ Js.nl ++ Js.nl
   ++ "Keep responses concise (2-4 sentences typically). Ask one good question at a time rather than overwhelming with multiple questions. Be conversational, not formal." ++ Js.nl ++ Js.nl
   ++ "When you notice a connection between what the user is saying and something from their memory history, point it out! This is one of the most delightful parts of the experience.")%string.

(** A line of the [summaries] of [getThinkingPartnerPrompt], of a memory
    given by its content and its tags. *)
Definition summaryLine (m : string * list string) : string :=
  ("- " ++ Js.substring0 80 (fst m) ++ " [" ++ String.concat ", " (snd m) ++ "]")%string.

(** Get the thinking partner system prompt, optionally with memory
    context *)
Definition getThinkingPartnerPrompt
    (recentMemories : option (list (string * list string))) : string :=
  let memoryContext :=
    match recentMemories with
    | Some (m :: ms) =>
        let summaries :=
          String.concat Js.nl (map summaryLine (Js.slice0 8 (m :: ms))) in
        (Js.nl ++ Js.nl
         ++ "Here are some of the user's recent memories for context (use them to make connections and surprises):"
         ++ Js.nl ++ summaries)%string
    | _ => ""
    end in
  (thinkingPartnerBase ++ memoryContext)%string.

End AIService.

(** ** The store ([appReducer]) *)

Module Store.

Inductive AiModel := claude | gpt.

Record AppSettings := {
  voiceEnabled : bool;
  autoTranscribe : bool;
  darkMode : bool;
  hapticFeedback : bool;
  aiModel : AiModel;
  language : string
}.

Record RecordingState := {
  isRecording : bool;
  duration : Z;
  uri : option string
}.

Record AppState := {
  memories : list Memory.t;
  rooms : list Room.t;
  conversations : list Conversation.t;
  currentConversation : option Conversation.t;
  recordingState : RecordingState;
  settings : AppSettings;
  userId : option string;
  isLoading : bool;
  error : option string
}.

Definition initialState : AppState :=
  {| memories := [];
     rooms := [];
     conversations := [];
     currentConversation := None;
     recordingState := {| isRecording := false; duration := 0; uri := None |};
     settings := {| voiceEnabled := true; autoTranscribe := true; darkMode := true;
                    hapticFeedback := true; aiModel := claude; language := "en" |};
     userId := None;
     isLoading := false;
     error := None |}.

(** [Partial<Memory>], over the fields [Memory.t] has: [None] for a key
    that is not there; for the optional fields, [Some None] is the key set
    to [undefined]. *)
Record MemoryUpdates := {
  memoryId : option string;
  memoryContent : option string;
  memorySummary : option (option string);
  memoryType : option Memory.Kind;
  memoryTags : option (list string);
  memoryConnections : option (list string);
  memoryRoomId : option (option string);
  memoryCreatedAt : option Z;
  memoryUpdatedAt : option Z;
  memoryUserId : option string
}.

(** [Partial<Room>] *)
Record RoomUpdates := {
  roomId : option string;
  roomName : option string;
  roomIcon : option string;
  roomColor : option string;
  roomMemoryCount : option Z;
  roomLastVisited : option (option Z);
  roomUserId : option string;
  roomCreatedAt : option Z
}.

(** [Partial<RecordingState>] *)
Record RecordingUpdates := {
  recordingIsRecording : option bool;
  recordingDuration : option Z;
  recordingUri : option (option string)
}.

(** [Partial<AppSettings>] *)
Record SettingsUpdates := {
  setVoiceEnabled : option bool;
  setAutoTranscribe : option bool;
  setDarkMode : option bool;
  setHapticFeedback : option bool;
  setAiModel : option AiModel;
  setLanguage : option string
}.

Inductive AppAction :=
| SET_USER_ID (payload : option string)
| SET_LOADING (payload : bool)
| SET_ERROR (payload : option string)
| ADD_MEMORY (payload : Memory.t)
| UPDATE_MEMORY (id : string) (updates : MemoryUpdates)
| DELETE_MEMORY (payload : string)
| SET_MEMORIES (payload : list Memory.t)
| ADD_ROOM (payload : Room.t)
| UPDATE_ROOM (id : string) (updates : RoomUpdates)
| DELETE_ROOM (payload : string)
| SET_ROOMS (payload : list Room.t)
| ADD_CONVERSATION (payload : Conversation.t)
| SET_CONVERSATIONS (payload : list Conversation.t)
| SET_CURRENT_CONVERSATION (payload : option Conversation.t)
| ADD_MESSAGE (conversationId : string) (message : Posted.t)
| SET_RECORDING (payload : bool)
| UPDATE_RECORDING_STATE (payload : RecordingUpdates)
| UPDATE_SETTINGS (payload : SettingsUpdates)
| RESET_STATE.

(** [x ?? old] for a key of a partial object. *)
Definition over {A} (old : A) (new : option A) : A :=
  match new with
  | Some x => x
  | None => old
  end.

(** [{ ...memory, ...updates, updatedAt: now }] *)
Definition updateMemory (now : Z) (m : Memory.t) (u : MemoryUpdates) : Memory.t :=
  {| Memory.id := over (Memory.id m) (memoryId u);
     Memory.content := over (Memory.content m) (memoryContent u);
     Memory.summary := over (Memory.summary m) (memorySummary u);
     Memory.type := over (Memory.type m) (memoryType u);
     Memory.tags := over (Memory.tags m) (memoryTags u);
     Memory.connections := over (Memory.connections m) (memoryConnections u);
     Memory.roomId := over (Memory.roomId m) (memoryRoomId u);
     Memory.createdAt := over (Memory.createdAt m) (memoryCreatedAt u);
     Memory.updatedAt := now;
     Memory.userId := over (Memory.userId m) (memoryUserId u) |}.

(** [{ ...room, ...updates }] *)
Definition updateRoom (r : Room.t) (u : RoomUpdates) : Room.t :=
  {| Room.id := over (Room.id r) (roomId u);
     Room.name := over (Room.name r) (roomName u);
     Room.icon := over (Room.icon r) (roomIcon u);
     Room.color := over (Room.color r) (roomColor u);
     Room.memoryCount := over (Room.memoryCount r) (roomMemoryCount u);
     Room.lastVisited := over (Room.lastVisited r) (roomLastVisited u);
     Room.userId := over (Room.userId r) (roomUserId u);
     Room.createdAt := over (Room.createdAt r) (roomCreatedAt u) |}.

(** [{ ...room, memoryCount: count }] *)
Definition withMemoryCount (r : Room.t) (count : Z) : Room.t :=
  {| Room.id := Room.id r; Room.name := Room.name r; Room.icon := Room.icon r;
     Room.color := Room.color r; Room.memoryCount := count;
     Room.lastVisited := Room.lastVisited r; Room.userId := Room.userId r;
     Room.createdAt := Room.createdAt r |}.

(** [{ ...conv, messages: [...conv.messages, message] }] *)
Definition withMessage (c : Conversation.t) (message : Posted.t) : Conversation.t :=
  {| Conversation.id := Conversation.id c;
     Conversation.title := Conversation.title c;
     Conversation.messages := Conversation.messages c ++ [message];
     Conversation.memoryIds := Conversation.memoryIds c;
     Conversation.createdAt := Conversation.createdAt c;
     Conversation.userId := Conversation.userId c |}.

(** The room id is there and not the empty string. *)
Definition truthyId (i : option string) : bool :=
  match i with
  | Some x => negb (String.eqb x "")
  | None => false
  end.

(** [room.id === roomId] *)
Definition isRoom (i : option string) (r : Room.t) : bool :=
  match i with
  | Some x => String.eqb (Room.id r) x
  | None => false
  end.

(** [{ ...state, memories, rooms }] *)
Definition withMemoriesAndRooms (state : AppState) (ms : list Memory.t)
    (rs : list Room.t) : AppState :=
  {| memories := ms; rooms := rs;
     conversations := conversations state;
     currentConversation := currentConversation state;
     recordingState := recordingState state; settings := settings state;
     userId := userId state; isLoading := isLoading state; error := error state |}.

(** [{ ...state, conversations, currentConversation }] *)
Definition withConversations (state : AppState) (cs : list Conversation.t)
    (current : option Conversation.t) : AppState :=
  {| memories := memories state; rooms := rooms state;
     conversations := cs;
     currentConversation := current;
     recordingState := recordingState state; settings := settings state;
     userId := userId state; isLoading := isLoading state; error := error state |}.

(** [{ ...state, recordingState }] *)
Definition withRecordingState (state : AppState) (r : RecordingState) : AppState :=
  {| memories := memories state; rooms := rooms state;
     conversations := conversations state;
     currentConversation := currentConversation state;
     recordingState := r; settings := settings state;
     userId := userId state; isLoading := isLoading state; error := error state |}.

(** The reducer; [now] is the [new Date()] of [UPDATE_MEMORY]. *)
Definition appReducer (now : Z) (state : AppState) (action : AppAction) : AppState :=
  match action with
  | SET_USER_ID payload =>
      {| memories := memories state; rooms := rooms state;
         conversations := conversations state;
         currentConversation := currentConversation state;
         recordingState := recordingState state; settings := settings state;
         userId := payload; isLoading := isLoading state; error := error state |}
  | SET_LOADING payload =>
      {| memories := memories state; rooms := rooms state;
         conversations := conversations state;
         currentConversation := currentConversation state;
         recordingState := recordingState state; settings := settings state;
         userId := userId state; isLoading := payload; error := error state |}
  | SET_ERROR payload =>
      {| memories := memories state; rooms := rooms state;
         conversations := conversations state;
         currentConversation := currentConversation state;
         recordingState := recordingState state; settings := settings state;
         userId := userId state; isLoading := isLoading state; error := payload |}
  | ADD_MEMORY newMemory =>
      withMemoriesAndRooms state
        (newMemory :: memories state)
        (if truthyId (Memory.roomId newMemory)
         then map (fun room =>
                     if isRoom (Memory.roomId newMemory) room
                     then withMemoryCount room (Room.memoryCount room + 1)
                     else room) (rooms state)
         else rooms state)
  | UPDATE_MEMORY id updates =>
      withMemoriesAndRooms state
        (map (fun memory =>
                if String.eqb (Memory.id memory) id
                then updateMemory now memory updates
                else memory) (memories state))
        (rooms state)
  | DELETE_MEMORY payload =>
      let deleted := find (fun m => String.eqb (Memory.id m) payload) (memories state) in
      let deletedRoomId := match deleted with
                           | Some m => Memory.roomId m
                           | None => None
                           end in
      withMemoriesAndRooms state
        (filter (fun memory => negb (String.eqb (Memory.id memory) payload))
           (memories state))
        (if truthyId deletedRoomId
         then map (fun room =>
                     if isRoom deletedRoomId room
                     then withMemoryCount room (Z.max 0 (Room.memoryCount room - 1))
                     else room) (rooms state)
         else rooms state)
  | SET_MEMORIES payload => withMemoriesAndRooms state payload (rooms state)
  | ADD_ROOM payload =>
      withMemoriesAndRooms state (memories state) (rooms state ++ [payload])
  | UPDATE_ROOM id updates =>
      withMemoriesAndRooms state (memories state)
        (map (fun room =>
                if String.eqb (Room.id room) id then updateRoom room updates else room)
           (rooms state))
  | DELETE_ROOM payload =>
      withMemoriesAndRooms state (memories state)
        (filter (fun room => negb (String.eqb (Room.id room) payload)) (rooms state))
  | SET_ROOMS payload => withMemoriesAndRooms state (memories state) payload
  | ADD_CONVERSATION payload =>
      withConversations state (payload :: conversations state)
        (currentConversation state)
  | SET_CONVERSATIONS payload =>
      withConversations state payload (currentConversation state)
  | SET_CURRENT_CONVERSATION payload =>
      withConversations state (conversations state) payload
  | ADD_MESSAGE conversationId message =>
      withConversations state
        (map (fun conv =>
                if String.eqb (Conversation.id conv) conversationId
                then withMessage conv message
                else conv) (conversations state))
        (match currentConversation state with
         | Some current =>
             if String.eqb (Conversation.id current) conversationId
             then Some (withMessage current message)
             else Some current
         | None => None
         end)
  | SET_RECORDING payload =>
      withRecordingState state
        {| isRecording := payload;
           duration := duration (recordingState state);
           uri := uri (recordingState state) |}
  | UPDATE_RECORDING_STATE payload =>
      withRecordingState state
        {| isRecording := over (isRecording (recordingState state))
                            (recordingIsRecording payload);
           duration := over (duration (recordingState state)) (recordingDuration payload);
           uri := over (uri (recordingState state)) (recordingUri payload) |}
  | UPDATE_SETTINGS payload =>
      {| memories := memories state; rooms := rooms state;
         conversations := conversations state;
         currentConversation := currentConversation state;
         recordingState := recordingState state;
         settings :=
           {| voiceEnabled := over (voiceEnabled (settings state)) (setVoiceEnabled payload);
              autoTranscribe := over (autoTranscribe (settings state))
                                  (setAutoTranscribe payload);
              darkMode := over (darkMode (settings state)) (setDarkMode payload);
              hapticFeedback := over (hapticFeedback (settings state))
                                  (setHapticFeedback payload);
              aiModel := over (aiModel (settings state)) (setAiModel payload);
              language := over (language (settings state)) (setLanguage payload) |};
         userId := userId state; isLoading := isLoading state; error := error state |}
  | RESET_STATE => initialState
  end.

End Store.

(** ** The talk screen: [extractBasicTags] and [saveAsMemory] *)

Module TalkScreen.

Definition stopWords : list string :=
  ["the"; "a"; "an"; "is"; "are"; "was"; "were"; "be"; "been"; "being";
   "have"; "has"; "had"; "do"; "does"; "did"; "will"; "would"; "could";
   "should"; "may"; "might"; "can"; "shall"; "to"; "of"; "in"; "for"; "on";
   "with"; "at"; "by"; "from"; "it"; "this"; "that"; "i"; "me"; "my"; "we";
   "our"; "you"; "your"; "he"; "she"; "they"; "them"; "and"; "or"; "but";
   "not"; "so"; "if"; "about"; "just"; "also"; "then"; "than"; "very";
   "really"; "think"; "like"; "want"; "know"].

(** [w.replace(/[^a-z]/g, '')] *)
Definition clean (w : string) : string := Js.filterChars Js.isLower w.

(** The body of [words.forEach]. *)
Definition countWord (wordCounts : list (string * Z)) (w : string)
    : list (string * Z) :=
  let clean := clean w in
  if (3 <? String.length clean)%nat && negb (Js.inStrings clean stopWords)
  then Js.countUp wordCounts clean
  else wordCounts.

Definition wordCounts (text : string) : list (string * Z) :=
  let words := Js.split_ws (Js.toLowerCase text) in
  fold_left countWord words [].

(** Basic tag extraction without AI *)
Definition extractBasicTags (text : string) : list string :=
  map fst
    (Js.slice0 4
       (Js.sort (fun a b => snd b - snd a) (wordCounts text))).

(** The three local variables of [saveAsMemory] that the analysis
    fills. *)
Record Analysis := {
  tags : Js.Value;
  summary : Js.Value;
  suggestedRoom : Js.Value
}.

(** The body of the inner [try]: the three assignments, in order; the
    second component tells whether it threw, the first holds the
    variables as they were then. *)
Definition tryAnalysis (rt : Runtime) (content : string) (vars : Analysis)
    : Analysis * Exc unit :=
  match AIService.analyzeMemory rt content with
  | Throw e => (vars, Throw e)
  | Ok analysis =>
      match Js.prop analysis "tags" with
      | Throw e => (vars, Throw e)
      | Ok t =>
          let vars := {| tags := t; summary := summary vars;
                         suggestedRoom := suggestedRoom vars |} in
          match Js.prop analysis "summary" with
          | Throw e => (vars, Throw e)
          | Ok s =>
              let vars := {| tags := tags vars; summary := s;
                             suggestedRoom := suggestedRoom vars |} in
              match Js.prop analysis "suggestedRoom" with
              | Throw e => (vars, Throw e)
              | Ok r =>
                  ({| tags := tags vars; summary := summary vars;
                      suggestedRoom := r |}, Ok tt)
              end
          end
      end
  end.

Definition withBasicTags (content : string) (vars : Analysis) : Analysis :=
  {| tags := Js.strings (extractBasicTags content);
     summary := summary vars;
     suggestedRoom := suggestedRoom vars |}.

(** The classification step of [saveAsMemory]: the declarations of
    [tags], [summary] and [suggestedRoom] and the [if] that fills
    them. *)
Definition classify (rt : Runtime) (content : string) : Exc Analysis :=
  let vars := {| tags := Js.Arr []; summary := Js.Undefined;
                 suggestedRoom := Js.Undefined |} in
  if AIService.isConfigured rt
  then
    match tryAnalysis rt content vars with
    | (vars, Ok _) => Ok vars
    | (vars, Throw _) =>
        (* Fall back to basic tag extraction *)
        Ok (withBasicTags content vars)
    end
  else Ok (withBasicTags content vars).

(** [rooms.find((r) => r.name.toLowerCase().includes(suggestedRoom!.toLowerCase()))] *)
Fixpoint findRoom (rooms : list Room.t) (suggestedRoom : Js.Value)
    : Exc (option Room.t) :=
  match rooms with
  | [] => Ok None
  | r :: rest =>
      wanted <- Js.valueToLowerCase suggestedRoom ;;
      if Js.includes (Js.toLowerCase (Room.name r)) wanted
      then Ok (Some r)
      else findRoom rest suggestedRoom
  end.

(** The memory handed to [dispatch(actions.addMemory(memory))]; [tags]
    and [summary] are whatever the analysis left there. *)
Record NewMemory := {
  id : string;
  content : string;
  newSummary : Js.Value;
  type : Memory.Kind;
  newTags : Js.Value;
  connections : list string;
  roomId : option string;
  createdAt : Z;
  updatedAt : Z;
  userId : string
}.

(** The body of the outer [try]. *)
Definition buildMemory (rt : Runtime) (rooms : list Room.t)
    (stateUserId : option string) (text : string) (isVoice : bool)
    : Exc NewMemory :=
  vars <- classify rt text ;;
  roomId <-
    (if Js.truthy (suggestedRoom vars)
     then matchingRoom <- findRoom rooms (suggestedRoom vars) ;;
          Ok (option_map Room.id matchingRoom)
     else Ok None) ;;
  Ok {| id := generateId rt BySaveAsMemory;
        content := text;
        newSummary := summary vars;
        type := if isVoice then Memory.voice else Memory.conversation;
        newTags := tags vars;
        connections := [];
        roomId := roomId;
        createdAt := now rt;
        updatedAt := now rt;
        userId := match stateUserId with
                  | Some u => if String.eqb u "" then "local" else u
                  | None => "local"
                  end |}.

(** [saveAsMemory]: [Some memory] is the memory dispatched to the store,
    [None] is the [catch] that logs the failure and dispatches
    nothing. *)
Definition saveAsMemory (rt : Runtime) (rooms : list Room.t)
    (stateUserId : option string) (text : string) (isVoice : bool)
    : Exc (option NewMemory) :=
  try_catch
    (memory <- buildMemory rt rooms stateUserId text isVoice ;; Ok (Some memory))
    (fun _ => Ok None).

(** What the talk screen hands to [dispatch]. *)
Inductive Dispatched :=
| AddMessage (conversationId : string) (message : Posted.t)
| AddMemory (memory : NewMemory).

(** [sendMessage]: the actions it dispatches, in the order they reach the
    store.  [input] is its [text], [userMessageId] and [aiMessageId] are
    the ids [generateId()] gives the two messages.
    [saveAsMemory] is started and not awaited.  Without a configured
    gateway it has nothing to await and runs to its end before
    [sendMessage] goes on, so its memory reaches the store before the
    answer.  With one it awaits the analysis while [sendMessage] awaits
    the chat, and the action of the request that completes first comes
    first: [analysisFirst] tells whether that is the analysis, which the
    network decides. *)
Definition sendMessage (rt : Runtime) (state : Store.AppState)
    (userMessageId aiMessageId : string) (input : string) (isVoice : bool)
    (analysisFirst : bool) : Exc (list Dispatched) :=
  match Store.currentConversation state with
  | None => Ok []
  | Some conversation =>
      if String.eqb (Js.trim input) "" then Ok []
      else
        let userMessage :=
          {| Posted.message := {| Message.id := userMessageId;
                                  Message.role := Message.user;
                                  Message.content := Js.trim input;
                                  Message.timestamp := now rt |};
             Posted.isVoice := Some isVoice |} in
        (* Auto-save as memory in the background *)
        let saved :=
          match saveAsMemory rt (Store.rooms state) (Store.userId state)
                  (Js.trim input) isVoice with
          | Ok (Some memory) => Some memory
          | _ => None
          end in
        (* Get AI response *)
        answer <-
          try_catch
            (let allMessages := Conversation.messages conversation ++ [userMessage] in
             let recentMemoryContext :=
               map (fun m => (Memory.content m, Memory.tags m))
                 (Js.slice0 8 (Store.memories state)) in
             let systemPrompt :=
               AIService.getThinkingPartnerPrompt (Some recentMemoryContext) in
             response <- AIService.chat rt (map Posted.message allMessages)
                           (Some systemPrompt) ;;
             Ok {| Posted.message := {| Message.id := aiMessageId;
                                        Message.role := Message.assistant;
                                        Message.content := text response;
                                        Message.timestamp := now rt |};
                   Posted.isVoice := None |})
            (fun error =>
               Ok {| Posted.message :=
                       {| Message.id := aiMessageId;
                          Message.role := Message.assistant;
                          Message.content :=
                            ("I'm having trouble connecting right now. " ++ error)%string;
                          Message.timestamp := now rt |};
                     Posted.isVoice := None |}) ;;
        let memory := match saved with
                      | Some memory => [AddMemory memory]
                      | None => []
                      end in
        let reply := [AddMessage (Conversation.id conversation) answer] in
        Ok ([AddMessage (Conversation.id conversation) userMessage]
            ++ (if negb (AIService.isConfigured rt) || analysisFirst
                then memory ++ reply
                else reply ++ memory))
  end.

End TalkScreen.


(** ** The surprise engine *)

Module SurpriseEngine.

Definition daysBetween (d1 d2 : Z) : Z :=
  Z.abs (d1 - d2) / (1000 * 60 * 60 * 24).

Definition sameDay (rt : Runtime) (d1 d2 : Z) : bool :=
  (getDate rt d1 =? getDate rt d2) && (getMonth rt d1 =? getMonth rt d2).

(** [arr[Math.floor(Math.random() * arr.length)]], [None] for
    [undefined]. *)
Definition randomItem {A} (rt : Runtime) (d : Draw) (arr : list A) : option A :=
  nth_error arr (Js.floorTimes (random rt d) (List.length arr)).

Definition pickRandom (rt : Runtime) (d : Draw) (arr : list string) : option string :=
  if (List.length arr =? 0)%nat then None else randomItem rt d arr.

(** Helper to construct a Surprise object *)
Definition makeSurprise (rt : Runtime) (by_ : Maker) (type : SurpriseType)
    (title content : string) (relatedMemoryIds : list string) : Surprise.t :=
  let style := SURPRISE_STYLES type in
  {| Surprise.id := generateId rt by_;
     Surprise.type := type;
     Surprise.title := title;
     Surprise.content := content;
     Surprise.relatedMemoryIds := relatedMemoryIds;
     Surprise.icon := fst style;
     Surprise.gradient := snd style;
     Surprise.createdAt := now rt |}.

(** The filter of [findOnThisDay]. *)
Definition onThisDayMatch (rt : Runtime) (m : Memory.t) : bool :=
  let created := Memory.createdAt m in
  sameDay rt created (now rt) && (7 <=? daysBetween created (now rt)).

Definition plural (n : Z) : string := if 1 <? n then "s" else "".

(** "On This Day" - Find memories from the same calendar day *)
Definition findOnThisDay (rt : Runtime) (memories : list Memory.t)
    : Exc (option Surprise.t) :=
  let matches := filter (onThisDayMatch rt) memories in
  if (List.length matches =? 0)%nat then Ok None
  else
    match randomItem rt OnThisDayPick matches with
    | None => Throw "TypeError: Cannot read properties of undefined"
    | Some memory =>
        let created := Memory.createdAt memory in
        let weeksAgo := Js.roundDiv (daysBetween created (now rt)) 7 in
        let timeLabel :=
          (if (4 <=? weeksAgo)%Z
           then Js.showZ (Js.roundDiv weeksAgo 4) ++ " month"
                ++ plural (Js.roundDiv weeksAgo 4) ++ " ago"
           else Js.showZ weeksAgo ++ " week" ++ plural weeksAgo ++ " ago")%string in
        Ok (Some (makeSurprise rt (ByGenerator FindOnThisDay) on_this_day
                    ("On This Day (" ++ timeLabel ++ ")")%string
                    (Memory.summaryOr memory
                       (Js.substring0 120 (Memory.content memory) ++ "...")%string)
                    [Memory.id memory]))
    end.

(** "Forgotten Gem" - Surface a memory not visited in a long time *)
Definition findForgottenGem (rt : Runtime) (memories : list Memory.t)
    : Exc (option Surprise.t) :=
  if (List.length memories <? 5)%nat then Ok None
  else
    let oldMemories :=
      Js.sort (fun a b => Memory.createdAt a - Memory.createdAt b)
        (filter (fun m => 14 <? daysBetween (Memory.createdAt m) (now rt)) memories) in
    if (List.length oldMemories =? 0)%nat then Ok None
    else
      (* Pick from the oldest third *)
      let pool := Js.slice0 (Nat.max 1 (List.length oldMemories / 3)) oldMemories in
      match randomItem rt ForgottenGemPick pool with
      | None => Throw "TypeError: Cannot read properties of undefined"
      | Some memory =>
          Ok (Some (makeSurprise rt (ByGenerator FindForgottenGem) forgotten_gem
                      "Forgotten Gem"
                      ("You thought about this a while back: " ++ Js.dq
                       ++ Js.substring0 100
                            (Memory.summaryOr memory (Memory.content memory))
                       ++ "..." ++ Js.dq ++ " - still relevant?")%string
                      [Memory.id memory]))
      end.

(** The [tagCounts] map of [findPattern]. *)
Definition tagCounts (recentMemories : list Memory.t) : list (string * Z) :=
  fold_left (fun counts m => fold_left Js.countUp (Memory.tags m) counts)
    recentMemories [].

(** "Pattern" - Find recurring tags/themes *)
Definition findPattern (rt : Runtime) (memories : list Memory.t)
    : Exc (option Surprise.t) :=
  if (List.length memories <? 3)%nat then Ok None
  else
    let recentMemories := Js.slice0 20 memories in
    let topTags :=
      Js.sort (fun a b => snd b - snd a)
        (filter (fun e => 3 <=? snd e) (tagCounts recentMemories)) in
    match topTags with
    | [] => Ok None
    | (tag, count) :: _ =>
        let relatedIds :=
          map Memory.id
            (Js.slice0 3
               (filter (fun m => Js.inStrings tag (Memory.tags m)) recentMemories)) in
        Ok (Some (makeSurprise rt (ByGenerator FindPattern) pattern
                    "Thinking Pattern"
                    (Js.dq ++ tag ++ Js.dq ++ " keeps coming up in your thoughts ("
                     ++ Js.showZ count
                     ++ " times recently). Seems like something important to you.")%string
                    relatedIds))
    end.

(** An entry of [roomActivity]. *)
Record Activity := {
  room : Room.t;
  memoryCount : nat;
  lastActivity : Z
}.

Definition roomActivity (memories : list Memory.t) (r : Room.t) : Activity :=
  let roomMemories :=
    filter (fun m => match Memory.roomId m with
                     | Some i => String.eqb i (Room.id r)
                     | None => false
                     end) memories in
  {| room := r;
     memoryCount := List.length roomMemories;
     lastActivity :=
       match map Memory.createdAt roomMemories with
       | [] => 0
       | t :: ts => fold_left Z.max ts t
       end |}.

(** "Nudge" - Notice a room/topic that's been neglected *)
Definition generateNudge (rt : Runtime) (memories : list Memory.t)
    (rooms : list Room.t) : Exc (option Surprise.t) :=
  if (List.length rooms =? 0)%nat then Ok None
  else
    (* Find rooms with memories but no recent activity *)
    let neglected :=
      Js.sort (fun a b => lastActivity a - lastActivity b)
        (filter (fun r => (0 <? memoryCount r)%nat
                          && (7 <? daysBetween (lastActivity r) (now rt)))
           (map (roomActivity memories) rooms)) in
    match neglected with
    | [] => Ok None
    | first :: _ =>
        let daysAgo := daysBetween (lastActivity first) (now rt) in
        Ok (Some (makeSurprise rt (ByGenerator GenerateNudge) nudge
                    "Missing You"
                    ("Your " ++ Js.dq ++ Room.name (room first) ++ Js.dq ++ " room has "
                     ++ Js.showZ (Z.of_nat (memoryCount first))
                     ++ " memories but hasn't seen you in " ++ Js.showZ daysAgo
                     ++ " days. Any new thoughts?")%string
                    []))
    end.

(** [m.tags.some((t) => m1.tags.includes(t))] *)
Definition sharesTag (m m1 : Memory.t) : bool :=
  existsb (fun t => Js.inStrings t (Memory.tags m1)) (Memory.tags m).

Definition sameRoomId (a b : option string) : bool :=
  match a, b with
  | Some x, Some y => String.eqb x y
  | None, None => true
  | _, _ => false
  end.

(** "Mashup" - Combine two random memories into a creative prompt *)
Definition generateMashup (rt : Runtime) (memories : list Memory.t)
    : Exc (option Surprise.t) :=
  if (List.length memories <? 4)%nat then Ok None
  else
    (* Pick two memories from different rooms/tags *)
    let shuffled := shuffleMemories rt GenerateMashup memories in
    match shuffled with
    | [] => Throw "TypeError: Cannot read properties of undefined"
    | m1 :: _ =>
        let found :=
          find (fun m => negb (String.eqb (Memory.id m) (Memory.id m1))
                         && negb (sameRoomId (Memory.roomId m) (Memory.roomId m1))
                         && negb (sharesTag m m1)) shuffled in
        let m2 := match found with
                  | Some m => Some m
                  | None => nth_error shuffled 1 (* Fallback *)
                  end in
        match m2 with
        | None => Throw "TypeError: Cannot read properties of undefined"
        | Some m2 =>
            let topic1 := Js.orElse (hd_error (Memory.tags m1)) "idea" in
            let topic2 := Js.orElse (hd_error (Memory.tags m2)) "thought" in
            Ok (Some (makeSurprise rt (ByGenerator GenerateMashup) mashup
                        "Idea Mashup"
                        ("What if you combined " ++ Js.dq ++ topic1 ++ Js.dq ++ " with "
                         ++ Js.dq ++ topic2 ++ Js.dq
                         ++ "? Sometimes the best ideas come from unexpected connections.")%string
                        [Memory.id m1; Memory.id m2]))
        end
    end.

(** The [recentTags] set of [generateQuestion], in insertion order. *)
Definition recentTags (memories : list Memory.t) : list string :=
  Js.uniq (flat_map Memory.tags (Js.slice0 10 memories)).

Definition questions (rt : Runtime) (memories : list Memory.t) : list string :=
  let tag d alt := Js.orElse (pickRandom rt d (recentTags memories)) alt in
  [ ("What's one thing about " ++ tag QuestionTag1 "your recent thinking"
     ++ " that you haven't explored yet?")%string;
    "If you could only keep 3 of your recent ideas, which would they be?";
    "What would your past self from a month ago think about your current focus?";
    ("Is there someone you should share your " ++ Js.dq ++ tag QuestionTag2 "latest"
     ++ Js.dq ++ " thoughts with?")%string;
    "What's the boldest next step you could take on your recent ideas?";
    ("What assumption are you making about " ++ Js.dq ++ tag QuestionTag3 "things"
     ++ Js.dq ++ " that might be wrong?")%string;
    "If you had unlimited resources, how would you act on your recent thoughts?" ].

(** "Question" - Generate a thought-provoking question based on recent
    topics.  The index of the question is in range for every draw in
    [0, 1); the default of [nth] stands for [undefined]. *)
Definition generateQuestion (rt : Runtime) (memories : list Memory.t)
    : Exc (option Surprise.t) :=
  if (List.length memories =? 0)%nat then Ok None
  else
    let questions := questions rt memories in
    let chosen :=
      nth (Js.floorTimes (random rt QuestionPick) (List.length questions))
        questions "" in
    Ok (Some (makeSurprise rt (ByGenerator GenerateQuestion) question
                "Think About This"
                chosen
                (map Memory.id (Js.slice0 2 memories)))).

Definition connectionPrompt : string :=
  "You find surprising, insightful connections between ideas. Given two memories, find one unexpected but meaningful connection in 1-2 sentences. Be specific and creative. Don't be generic.".

(** AI-powered connection discovery between memories *)
Definition generateAIConnection (rt : Runtime) (memories : list Memory.t)
    : Exc (option Surprise.t) :=
  if (List.length memories <? 3)%nat then Ok None
  else
    (* Pick two seemingly unrelated memories *)
    let shuffled := shuffleMemories rt GenerateAIConnection memories in
    match shuffled with
    | [] => Throw "TypeError: Cannot read properties of undefined"
    | m1 :: _ =>
        let found :=
          find (fun m => negb (String.eqb (Memory.id m) (Memory.id m1))
                         && negb (sharesTag m m1)) shuffled in
        let m2 := match found with
                  | Some m => Some m
                  | None => nth_error shuffled 1
                  end in
        match m2 with
        | None => Throw "TypeError: Cannot read properties of undefined"
        | Some m2 =>
            let msgs :=
              [ {| Message.id := "conn";
                   Message.role := Message.user;
                   Message.content :=
                     ("Memory 1: " ++ Js.substring0 200 (Memory.content m1)
                      ++ Js.nl ++ Js.nl
                      ++ "Memory 2: " ++ Js.substring0 200 (Memory.content m2)
                      ++ Js.nl ++ Js.nl
                      ++ "What's a surprising connection between these?")%string;
                   Message.timestamp := now rt |} ] in
            response <- AIService.chat rt msgs (Some connectionPrompt) ;;
            Ok (Some (makeSurprise rt (ByGenerator GenerateAIConnection) connection
                        "Hidden Connection"
                        (Js.substring0 200 (text response))
                        [Memory.id m1; Memory.id m2]))
        end
    end.

Definition ideaSparkPrompt : string :=
  "You're a creative thinking partner. Given a person's recent interests, suggest ONE fun, actionable idea they could explore. Be specific and exciting. 1-2 sentences max.".

(** AI-powered idea spark based on your memory themes *)
Definition generateAIIdeaSpark (rt : Runtime) (memories : list Memory.t)
    : Exc (option Surprise.t) :=
  if (List.length memories <? 2)%nat then Ok None
  else
    let recentTopics :=
      Js.slice0 5 (Js.uniq (flat_map Memory.tags (Js.slice0 10 memories))) in
    if (List.length recentTopics =? 0)%nat then Ok None
    else
      let msgs :=
        [ {| Message.id := "spark";
             Message.role := Message.user;
             Message.content :=
               ("My recent interests: " ++ String.concat ", " recentTopics
                ++ ". Give me one exciting idea to explore.")%string;
             Message.timestamp := now rt |} ] in
      response <- AIService.chat rt msgs (Some ideaSparkPrompt) ;;
      Ok (Some (makeSurprise rt (ByGenerator GenerateAIIdeaSpark) idea_spark
                  "Idea Spark"
                  (Js.substring0 200 (text response))
                  (map Memory.id (Js.slice0 2 memories)))).

Definition encouragements (memories : list Memory.t) : list string :=
  let count := Z.of_nat (List.length memories) in
  [ ("You've captured " ++ Js.showZ count
     ++ " memories so far. Each one is a piece of your thinking. Keep going!")%string;
    "Your memory palace is growing. The more you add, the more surprising connections I can find.";
    "Talk to me about what's on your mind - I'll remember it and surprise you with insights later." ].

(** Fallback: encouraging message.  As in [generateQuestion], the index
    is in range for every draw in [0, 1). *)
Definition generateRandomEncouragement (rt : Runtime) (memories : list Memory.t)
    : Surprise.t :=
  let messages := encouragements memories in
  makeSurprise rt ByEncouragement idea_spark
    "Keep Talking"
    (nth (Js.floorTimes (random rt EncouragementPick) (List.length messages))
       messages "")
    [].

(** Welcome surprise for new users *)
Definition generateWelcomeSurprise (rt : Runtime) : Surprise.t :=
  makeSurprise rt ByWelcome idea_spark
    "Welcome to Your Memory Palace"
    "Start by talking to me about anything - an idea, a thought, a dream. I'll remember everything and surprise you with connections you never expected."
    [].

(** What calling an entry of [generators] does. *)
Definition runGenerator (rt : Runtime) (memories : list Memory.t)
    (rooms : list Room.t) (gen : Generator) : Exc (option Surprise.t) :=
  match gen with
  | FindOnThisDay => findOnThisDay rt memories
  | FindForgottenGem => findForgottenGem rt memories
  | FindPattern => findPattern rt memories
  | GenerateNudge => generateNudge rt memories rooms
  | GenerateMashup => generateMashup rt memories
  | GenerateQuestion => generateQuestion rt memories
  | GenerateAIConnection => generateAIConnection rt memories
  | GenerateAIIdeaSpark => generateAIIdeaSpark rt memories
  end.

(** The [generators] array before the shuffle. *)
Definition generators (rt : Runtime) : list Generator :=
  [FindOnThisDay; FindForgottenGem; FindPattern; GenerateNudge;
   GenerateMashup; GenerateQuestion]
  ++ (* If AI is configured, add AI-powered generators *)
     (if AIService.isConfigured rt
      then [GenerateAIConnection; GenerateAIIdeaSpark]
      else []).

(** The orchestrator, for any behaviour [invoke] of the generators. *)
Section Orchestrator.
Variable invoke : Generator -> Exc (option Surprise.t).
Variable count : Z.

(** One turn of the [for] loop past the [break] test: the [try] and
    its [catch]. *)
Definition tryGenerator (gen : Generator) (surprises : list Surprise.t)
    : Exc (list Surprise.t) :=
  try_catch
    (surprise <- invoke gen ;;
     Ok (match surprise with
         | Some s => surprises ++ [s]
         | None => surprises
         end))
    (fun _ => (* console.error *) Ok surprises).

(** [for (const gen of shuffled) { ... }] *)
Fixpoint forOf (shuffled : list Generator) (surprises : list Surprise.t)
    : Exc (list Surprise.t) :=
  match shuffled with
  | [] => Ok surprises
  | gen :: rest =>
      if count <=? Z.of_nat (List.length surprises) then Ok surprises
      else
        surprises <- tryGenerator gen surprises ;;
        forOf rest surprises
  end.

Definition generateSurprisesWith (rt : Runtime) (memories : list Memory.t)
    : Exc (list Surprise.t) :=
  if (List.length memories =? 0)%nat
  then Ok [generateWelcomeSurprise rt]
  else
    (* Shuffle generators for variety *)
    let shuffled := shuffleGenerators rt (generators rt) in
    surprises <- forOf shuffled [] ;;
    (* Always return at least one surprise *)
    if (List.length surprises =? 0)%nat
    then Ok (surprises ++ [generateRandomEncouragement rt memories])
    else Ok surprises.
End Orchestrator.

(** Generate a batch of surprises for the user's home screen. *)
Definition generateSurprises (rt : Runtime) (memories : list Memory.t)
    (rooms : list Room.t) (count : Z) : Exc (list Surprise.t) :=
  generateSurprisesWith (runGenerator rt memories rooms) count rt memories.

End SurpriseEngine.

(** ** The search screen ([filteredMemories]) *)

Module SearchScreen.

(** The test of the search query on a memory. *)
Definition matchesQuery (lowerQuery : string) (m : Memory.t) : bool :=
  Js.includes (Js.toLowerCase (Memory.content m)) lowerQuery
  || match Memory.summary m with
     | Some summary =>
         negb (String.eqb summary "")
         && Js.includes (Js.toLowerCase summary) lowerQuery
     | None => false
     end
  || existsb (fun tag => Js.includes (Js.toLowerCase tag) lowerQuery) (Memory.tags m).

(** [filteredMemories]; [selectedType] is [None] for ['all']. *)
Definition filteredMemories (memories : list Memory.t) (query : string)
    (selectedType : option Memory.Kind) : list Memory.t :=
  let results := memories in
  (* Filter by type *)
  let results :=
    match selectedType with
    | Some type =>
        filter (fun m => match Memory.type m, type with
                         | Memory.voice, Memory.voice
                         | Memory.text, Memory.text
                         | Memory.conversation, Memory.conversation => true
                         | _, _ => false
                         end) results
    | None => results
    end in
  (* Filter by search query *)
  if negb (String.eqb (Js.trim query) "")
  then
    let lowerQuery := Js.toLowerCase query in
    filter (matchesQuery lowerQuery) results
  else results.

End SearchScreen.

(** ** The transcription service ([services/transcription.ts]) *)

Module TranscriptionService.

(** The response of the transcription endpoint: [bodyJson] is what
    parsing [bodyText] as JSON gives, or the message of the error it
    throws; [typeError] is the message of the TypeError the engine throws
    when the [text] of the parsed body cannot be read, or is no string to
    take a [substring] of.  The wording of both is the engine's. *)
Record Response := {
  ok : bool;
  status : Z;
  bodyText : string;
  bodyJson : Exc Js.Value;
  typeError : string
}.

Inductive Fetched :=
| NetworkError (message : string)
| Responded (response : Response).

(** What an attempt meets: whether the audio file is there, and what the
    endpoint does. *)
Record Attempt := {
  fileExists : bool;
  fetched : Fetched
}.

(** The key of the service, and what each attempt meets, by its number
    (from 1). *)
Record Env := {
  apiKey : string;
  attempts : nat -> Attempt
}.

(** What the service does that shows: an attempt, a sleep. *)
Inductive Event :=
| Tried (attempt : nat)
| Slept (ms : Z).

Definition maxRetries : nat := 3.
Definition retryDelayMs : Z := 1000.

(** Validate API key is configured *)
Definition validateApiKey (env : Env) : Exc unit :=
  if String.eqb (apiKey env) "" || String.eqb (Js.trim (apiKey env)) ""
  then Throw "OpenAI API key not configured. Please add EXPO_PUBLIC_OPENAI_API_KEY to your .env file."
  else Ok tt.

(** A value in a template string. *)
Fixpoint toString (v : Js.Value) : string :=
  match v with
  | Js.Undefined => "undefined"
  | Js.Null => "null"
  | Js.Bool b => if b then "true" else "false"
  | Js.Num z => Js.showZ z
  | Js.Str s => s
  | Js.Arr items =>
      String.concat ","
        (map (fun item => match item with
                          | Js.Undefined | Js.Null => ""
                          | _ => toString item
                          end) items)
  | Js.Obj _ => "[object Object]"
  end.

(** [errorJson.error?.message || errorText], and [errorText] when reading
    it throws. *)
Definition errorMessageOf (r : Response) : string :=
  let errorText := bodyText r in
  match bodyJson r with
  | Throw _ => errorText
  | Ok errorJson =>
      match Js.prop errorJson "error" with
      | Throw _ => errorText
      | Ok err =>
          let message :=
            match err with
            | Js.Undefined | Js.Null => Js.Undefined
            | _ => match Js.prop err "message" with
                   | Ok m => m
                   | Throw _ => Js.Undefined
                   end
            end in
          if Js.truthy message then toString message else errorText
      end
  end.

(** The body of the [try] of an attempt. *)
Definition attemptOnce (audioUri : string) (a : Attempt) : Exc string :=
  if negb (fileExists a)
  then Throw ("Audio file not found at " ++ audioUri)%string
  else
    match fetched a with
    | NetworkError message => Throw message
    | Responded response =>
        if negb (ok response)
        then Throw ("OpenAI API error (" ++ Js.showZ (status response) ++ "): "
                    ++ errorMessageOf response)%string
        else
          match bodyJson response with
          | Throw message => Throw message
          | Ok result =>
              match Js.prop result "text" with
              | Throw _ => Throw (typeError response)
              | Ok t =>
                  if negb (Js.truthy t)
                  then Throw "No transcription text in response"
                  else
                    match t with
                    | Js.Str s => Ok (Js.trim s)
                    | _ => Throw (typeError response)
                    end
              end
          end
    end.

Definition isDigit (c : ascii) : bool :=
  let n := nat_of_ascii c in (48 <=? n)%nat && (n <=? 57)%nat.

Fixpoint dropChars (n : nat) (s : string) : string :=
  match n, s with
  | S n', String _ s' => dropChars n' s'
  | _, _ => s
  end.

(** [/API error \(4\d{2}\)/.test(s)] *)
Fixpoint isClientError (s : string) : bool :=
  (String.prefix "API error (4" s
   && match dropChars 12 s with
      | String d1 (String d2 (String c _)) =>
          isDigit d1 && isDigit d2 && Ascii.eqb c ")"
      | _ => false
      end)
  || match s with
     | EmptyString => false
     | String _ s' => isClientError s'
     end.

(** The errors that end the loop at once. *)
Definition isFinal (message : string) : bool :=
  Js.includes message "not configured"
  || Js.includes message "not found"
  || isClientError message.

(** The [for] loop from [attempt] on, with [remaining] attempts left. *)
Fixpoint retry (env : Env) (audioUri : string) (attempt remaining : nat)
    (lastError : option string) (log : list Event) : Exc string * list Event :=
  match remaining with
  | O =>
      (* All retries failed *)
      (Throw ("Transcription failed after " ++ Js.showZ (Z.of_nat maxRetries)
              ++ " attempts: " ++ Js.orElse lastError "Unknown error")%string,
       log)
  | S remaining' =>
      let log := log ++ [Tried attempt] in
      match attemptOnce audioUri (attempts env attempt) with
      | Ok text => (Ok text, log)
      | Throw message =>
          (* Don't retry on validation errors or client errors (4xx) *)
          if isFinal message then (Throw message, log)
          else
            (* Wait before retrying (exponential backoff) *)
            let log := if (attempt <? maxRetries)%nat
                       then log ++ [Slept (retryDelayMs * 2 ^ Z.of_nat (attempt - 1))]
                       else log in
            retry env audioUri (S attempt) remaining' (Some message) log
      end
  end.

(** Transcribe audio file to text using OpenAI Whisper API: the result,
    and what was tried and slept on the way. *)
Definition transcribe (env : Env) (audioUri : string) : Exc string * list Event :=
  match validateApiKey env with
  | Throw e => (Throw e, [])
  | Ok _ => retry env audioUri 1 maxRetries None []
  end.

End TranscriptionService.

(** ** A concrete runtime *)

(** The calendar of a runtime whose local time is UTC (the proleptic
    Gregorian calendar, by the usual era arithmetic). *)
Module Utc.

Definition msPerDay : Z := 1000 * 60 * 60 * 24.

(** Year, month (1 to 12) and day of the month of a day number (days
    since 1970-01-01). *)
Definition civil (days : Z) : Z * Z * Z :=
  let z := days + 719468 in
  let era := z / 146097 in
  let doe := z mod 146097 in
  let yoe := (doe - doe / 1460 + doe / 36524 - doe / 146096) / 365 in
  let doy := doe - (365 * yoe + yoe / 4 - yoe / 100) in
  let mp := (5 * doy + 2) / 153 in
  let d := doy - (153 * mp + 2) / 5 + 1 in
  let m := if mp <? 10 then mp + 3 else mp - 9 in
  let y := yoe + era * 400 + (if m <=? 2 then 1 else 0) in
  (y, m, d).

Definition getDate (t : Z) : Z := snd (civil (t / msPerDay)).
Definition getMonth (t : Z) : Z := snd (fst (civil (t / msPerDay))) - 1.

(** The time value of midnight of a date. *)
Definition midnight (y m d : Z) : Z :=
  let y' := if m <=? 2 then y - 1 else y in
  let era := y' / 400 in
  let yoe := y' mod 400 in
  let mp := if 2 <? m then m - 3 else m + 9 in
  let doy := (153 * mp + 2) / 5 + d - 1 in
  let doe := yoe * 365 + yoe / 4 - yoe / 100 + doy in
  (era * 146097 + doe - 719468) * msPerDay.

End Utc.

Module Sample.

(** A runtime at noon of 2026-02-10, UTC, whose draws are all [1/2] and
    whose shuffles reverse the array. *)
Definition runtime (key : string) (net : Body -> Exc Reply) : Runtime :=
  {| now := Utc.midnight 2026 2 10 + 12 * 3600 * 1000;
     getDate := Utc.getDate;
     getMonth := Utc.getMonth;
     random := fun _ => (1 # 2)%Q;
     shuffleGenerators := @rev Generator;
     shuffleMemories := fun _ => @rev Memory.t;
     generateId := fun by_ =>
       match by_ with
       | ByGenerator _ => "mlgz1k00a"
       | ByEncouragement => "mlgz1k00b"
       | ByWelcome => "mlgz1k00c"
       | BySaveAsMemory => "mlgz1k00d"
       end;
     apiKey := key;
     fetchCompletion := net |}.

Definition offline : Body -> Exc Reply :=
  fun _ => Throw "TypeError: Network request failed".

Definition replying (r : Reply) : Body -> Exc Reply := fun _ => Ok r.

Definition memory (id : string) (tags : list string) (roomId : option string)
    (createdAt : Z) : Memory.t :=
  {| Memory.id := id;
     Memory.content := "Thinking about the " ++ String.concat " and " tags;
     Memory.summary := None;
     Memory.type := Memory.text;
     Memory.tags := tags;
     Memory.connections := [];
     Memory.roomId := roomId;
     Memory.createdAt := createdAt;
     Memory.updatedAt := createdAt;
     Memory.userId := "local" |}.

Definition room (id name : string) : Room.t :=
  {| Room.id := id; Room.name := name; Room.icon := "bulb";
     Room.color := "#6C3CE1"; Room.memoryCount := 0;
     Room.lastVisited := None; Room.userId := "local";
     Room.createdAt := Utc.midnight 2025 1 1 |}.

Definition rooms : list Room.t := [room "r1" "Work & Projects"; room "r2" "Ideas Lab"].

(** Five memories with distinct ids; [m2] is a year old to the day,
    [m5] is three days old. *)
Definition memories : list Memory.t :=
  [ memory "m1" ["startup"; "funding"] (Some "r1") (Utc.midnight 2026 1 2);
    memory "m2" ["startup"; "hiring"] (Some "r1") (Utc.midnight 2025 2 10);
    memory "m3" ["garden"] (Some "r2") (Utc.midnight 2025 12 24);
    memory "m4" ["startup"] None (Utc.midnight 2026 1 20);
    memory "m5" ["piano"] (Some "r2") (Utc.midnight 2026 2 7 + 12 * 3600 * 1000) ].

Definition hiking : string := "I love hiking on weekends near the lake".

(** A reply whose text is the JSON object
    [{ tags: [Work, work], summary: Notes on work. }]. *)
Definition twiceWork : Reply :=
  {| text := ("{" ++ Js.dq ++ "tags" ++ Js.dq ++ ": [" ++ Js.dq ++ "Work" ++ Js.dq
              ++ ", " ++ Js.dq ++ "work" ++ Js.dq ++ "], " ++ Js.dq ++ "summary"
              ++ Js.dq ++ ": " ++ Js.dq ++ "Notes on work." ++ Js.dq ++ "}")%string;
     json := Some (Js.Obj [("tags", Js.strings ["Work"; "work"]);
                           ("summary", Js.Str "Notes on work.")]) |}.

(** A reply whose text is the JSON object
    [{ tags: [tea], summary: On tea., suggestedRoom: ideas }]. *)
Definition suggestsIdeas : Reply :=
  {| text := ("{" ++ Js.dq ++ "tags" ++ Js.dq ++ ": [" ++ Js.dq ++ "tea" ++ Js.dq
              ++ "], " ++ Js.dq ++ "summary" ++ Js.dq ++ ": " ++ Js.dq ++ "On tea."
              ++ Js.dq ++ ", " ++ Js.dq ++ "suggestedRoom" ++ Js.dq ++ ": " ++ Js.dq
              ++ "ideas" ++ Js.dq ++ "}")%string;
     json := Some (Js.Obj [("tags", Js.strings ["tea"]);
                           ("summary", Js.Str "On tea.");
                           ("suggestedRoom", Js.Str "ideas")]) |}.

(** A transcription service that meets a network failure, then a 503,
    then the text. *)
Definition flaky : TranscriptionService.Env :=
  {| TranscriptionService.apiKey := "sk-openai";
     TranscriptionService.attempts := fun attempt =>
       {| TranscriptionService.fileExists := true;
          TranscriptionService.fetched :=
            match attempt with
            | 1%nat => TranscriptionService.NetworkError "Network request failed"
            | 2%nat =>
                TranscriptionService.Responded
                  {| TranscriptionService.ok := false;
                     TranscriptionService.status := 503;
                     TranscriptionService.bodyText := "Service Unavailable";
                     TranscriptionService.bodyJson :=
                       Throw ("Unexpected token 'S', " ++ Js.dq ++ "Service Unavailable"
                              ++ Js.dq ++ " is not valid JSON");
                     TranscriptionService.typeError :=
                       "result.text.substring is not a function" |}
            | _ =>
                TranscriptionService.Responded
                  {| TranscriptionService.ok := true;
                     TranscriptionService.status := 200;
                     TranscriptionService.bodyText := "";
                     TranscriptionService.bodyJson :=
                       Ok (Js.Obj [("text", Js.Str " Buy oat milk. ")]);
                     TranscriptionService.typeError :=
                       "result.text.substring is not a function" |}
            end |} |}.

(** A 401 response, and a transcription service whose key was revoked,
    that gets it at once. *)
Definition unauthorized : TranscriptionService.Response :=
  {| TranscriptionService.ok := false;
     TranscriptionService.status := 401;
     TranscriptionService.bodyText := "Unauthorized";
     TranscriptionService.bodyJson :=
       Ok (Js.Obj [("error", Js.Obj [("message", Js.Str "Incorrect API key")])]);
     TranscriptionService.typeError := "result.text.substring is not a function" |}.

Definition revoked : TranscriptionService.Env :=
  {| TranscriptionService.apiKey := "sk-openai";
     TranscriptionService.attempts := fun _ =>
       {| TranscriptionService.fileExists := true;
          TranscriptionService.fetched := TranscriptionService.Responded unauthorized |} |}.

(** The rooms with their counters, and a state of the store holding the
    five memories. *)
Definition countedRooms : list Room.t :=
  map (fun r => Store.withMemoryCount r 2) rooms.

Definition conversation (id : string) : Conversation.t :=
  {| Conversation.id := id;
     Conversation.title := Some "New Conversation";
     Conversation.messages := [];
     Conversation.memoryIds := [];
     Conversation.createdAt := Utc.midnight 2026 2 10;
     Conversation.userId := "local" |}.

Definition state : Store.AppState :=
  {| Store.memories := memories;
     Store.rooms := countedRooms;
     Store.conversations := [conversation "c1"];
     Store.currentConversation := Some (conversation "c1");
     Store.recordingState := Store.recordingState Store.initialState;
     Store.settings := Store.settings Store.initialState;
     Store.userId := None;
     Store.isLoading := false;
     Store.error := None |}.

End Sample.


(** ** Vocabulary of the properties *)

(** The string each member of [SurpriseType] is. *)
Definition typeName (type : SurpriseType) : string :=
  match type with
  | on_this_day => "on_this_day"
  | connection => "connection"
  | idea_spark => "idea_spark"
  | forgotten_gem => "forgotten_gem"
  | pattern => "pattern"
  | nudge => "nudge"
  | mashup => "mashup"
  | question => "question"
  end.

(** The kind of surprise each generator makes. *)
Definition kindOf (gen : Generator) : SurpriseType :=
  match gen with
  | FindOnThisDay => on_this_day
  | FindForgottenGem => forgotten_gem
  | FindPattern => pattern
  | GenerateNudge => nudge
  | GenerateMashup => mashup
  | GenerateQuestion => question
  | GenerateAIConnection => connection
  | GenerateAIIdeaSpark => idea_spark
  end.

(** The ids of the memories handed to the engine. *)
Definition idsOf (memories : list Memory.t) : list string := map Memory.id memories.

(** The surprise is one of the two fallbacks of the orchestrator. *)
Definition isFallback (rt : Runtime) (memories : list Memory.t) (s : Surprise.t) : Prop :=
  s = SurpriseEngine.generateWelcomeSurprise rt
  \/ s = SurpriseEngine.generateRandomEncouragement rt memories.

(** The body [analyzeMemory] has [chat] post. *)
Definition analysisRequest (content : string) : Body :=
  {| model := "claude-sonnet-4-5-20250929";
     max_tokens := 1024;
     messages := [(Message.user,
                   ("Analyze this memory:" ++ Js.nl ++ Js.nl ++ content)%string)];
     system := Some AIService.analysisPrompt |}.

(** What the heuristic path leaves in the three variables. *)
Definition basicAnalysis (content : string) : TalkScreen.Analysis :=
  {| TalkScreen.tags := Js.strings (TalkScreen.extractBasicTags content);
     TalkScreen.summary := Js.Undefined;
     TalkScreen.suggestedRoom := Js.Undefined |}.

(** The surprises the generators of a list return, in the order of the
    list. *)
Definition made (invoke : Generator -> Exc (option Surprise.t))
    (gens : list Generator) : list Surprise.t :=
  flat_map (fun gen => match invoke gen with
                       | Ok (Some s) => [s]
                       | _ => []
                       end) gens.

(** The surprise carries the style of its kind. *)
Definition styled (s : Surprise.t) : Prop :=
  Surprise.icon s = fst (SURPRISE_STYLES (Surprise.type s))
  /\ Surprise.gradient s = snd (SURPRISE_STYLES (Surprise.type s)).




(** The memories older than 14 days, as [findForgottenGem] filters
    them. *)
Definition oldMemories (rt : Runtime) (memories : list Memory.t) : list Memory.t :=
  filter (fun m => 14 <? SurpriseEngine.daysBetween (Memory.createdAt m) (now rt))
    memories.

(** The memories of a room, as [generateNudge] filters them. *)
Definition roomMemories (memories : list Memory.t) (r : Room.t) : list Memory.t :=
  filter (fun m => match Memory.roomId m with
                   | Some i => String.eqb i (Room.id r)
                   | None => false
                   end) memories.

(** The room has memories in the collection, and the latest of them was
    created at [t]. *)
Definition latest (memories : list Memory.t) (r : Room.t) (t : Z) : Prop :=
  (exists m, In m memories /\ Memory.roomId m = Some (Room.id r)
             /\ Memory.createdAt m = t)
  /\ forall m, In m memories -> Memory.roomId m = Some (Room.id r) ->
               Memory.createdAt m <= t.

(** A room with memories, the latest of them created at [t], 8 times 24
    hours or more from now: more than 7 whole days. *)
Definition neglected (rt : Runtime) (memories : list Memory.t) (r : Room.t) (t : Z)
    : Prop :=
  latest memories r t /\ 8 * Utc.msPerDay <= Z.abs (now rt - t).

(** How many times a tag is written on the memories. *)
Definition occurrences (tag : string) (memories : list Memory.t) : Z :=
  Z.of_nat (count_occ string_dec (flat_map Memory.tags memories) tag).

(** [m.get(k) || 0] *)
Definition countOr0 (m : list (string * Z)) (k : string) : Z :=
  match Js.countGet m k with
  | Some v => v
  | None => 0
  end.

(** The counter of every room is the number of its memories. *)
Definition counted (state : Store.AppState) : Prop :=
  forall r, In r (Store.rooms state) ->
            Room.memoryCount r
            = Z.of_nat (List.length (roomMemories (Store.memories state) r)).

(** The memories have distinct ids, none has the empty string for room
    id, and the rooms are counted. *)
Definition tidy (state : Store.AppState) : Prop :=
  NoDup (idsOf (Store.memories state))
  /\ (forall m, In m (Store.memories state) -> Memory.roomId m <> Some "")
  /\ counted state.

(** The actions that keep the counters, and what they need for it. *)
Definition keepsCount (state : Store.AppState) (action : Store.AppAction) : Prop :=
  match action with
  | Store.ADD_MEMORY m =>
      ~ In (Memory.id m) (idsOf (Store.memories state)) /\ Memory.roomId m <> Some ""
  | Store.ADD_ROOM r =>
      Room.memoryCount r
      = Z.of_nat (List.length (roomMemories (Store.memories state) r))
  | Store.UPDATE_MEMORY _ _ | Store.SET_MEMORIES _
  | Store.UPDATE_ROOM _ _ | Store.SET_ROOMS _ => False
  | _ => True
  end.

(** The current conversation is the one the list holds under its id. *)
Definition synced (state : Store.AppState) : Prop :=
  match Store.currentConversation state with
  | Some current =>
      forall c, In c (Store.conversations state) ->
                Conversation.id c = Conversation.id current -> c = current
  | None => True
  end.

(** The words [extractBasicTags] counts: the words of the lower-cased
    text, stripped to their letters, that are longer than 3 letters and no
    stop-words. *)
Definition keptWords (text : string) : list string :=
  filter (fun w => (3 <? String.length w)%nat
                   && negb (Js.inStrings w TalkScreen.stopWords))
    (map TalkScreen.clean (Js.split_ws (Js.toLowerCase text))).

(** How many times a word is counted. *)
Definition frequency (word text : string) : Z :=
  Z.of_nat (count_occ string_dec (keptWords text) word).

(** All that [transcribe] can try and sleep, in order. *)
Definition schedule : list TranscriptionService.Event :=
  [TranscriptionService.Tried 1; TranscriptionService.Slept 1000;
   TranscriptionService.Tried 2; TranscriptionService.Slept 2000;
   TranscriptionService.Tried 3].

(** No tag of [m] is a tag of [m1]. *)
Definition noCommonTag (m1 m : Memory.t) : Prop :=
  forall t, In t (Memory.tags m) -> ~ In t (Memory.tags m1).

(** What [generateMashup] asks of the partner of the anchor [m1]: another
    id, another room and no common tag. *)
Definition mashupDiffers (m1 m : Memory.t) : Prop :=
  Memory.id m <> Memory.id m1
  /\ Memory.roomId m <> Memory.roomId m1
  /\ noCommonTag m1 m.

(** What [generateAIConnection] asks of it: another id and no common
    tag. *)
Definition connectionDiffers (m1 m : Memory.t) : Prop :=
  Memory.id m <> Memory.id m1 /\ noCommonTag m1 m.

(** The pair [[m1; m2]] is the anchor, first of the shuffled memories,
    with the first of the shuffled memories that differs from it, or with
    the second of the shuffled memories when none differs. *)
Definition pairedFrom (differs : Memory.t -> Memory.t -> Prop)
    (shuffled : list Memory.t) (m1 m2 : Memory.t) : Prop :=
  hd_error shuffled = Some m1
  /\ ((exists before after,
          shuffled = before ++ m2 :: after
          /\ (forall m, In m before -> ~ differs m1 m)
          /\ differs m1 m2)
      \/ ((forall m, In m shuffled -> ~ differs m1 m)
          /\ nth_error shuffled 1 = Some m2)).

(** * Properties *)

Arguments Js.slice0 : simpl never.
Arguments Js.sort : simpl never.
Arguments Js.showZ : simpl never.
Arguments Js.substring0 : simpl never.

(** ** Arrays: slices, sorts, random picks *)

Section ArrayFacts.
Context {A : Type}.

Lemma slice0_incl (n : nat) (l : list A) (x : A) :
  In x (Js.slice0 n l) -> In x l.
Proof.
  unfold Js.slice0. intro H.
  rewrite <- (firstn_skipn n l). apply in_or_app. now left.
Qed.

Lemma slice0_NoDup (n : nat) (l : list A) :
  NoDup l -> NoDup (Js.slice0 n l).
Proof.
  unfold Js.slice0. intro H.
  rewrite <- (firstn_skipn n l) in H.
  now apply NoDup_app_remove_r in H.
Qed.

Variable cmp : A -> A -> Z.

Lemma insert_perm (x : A) (l : list A) :
  Permutation (x :: l) (Js.insert cmp x l).
Proof.
  induction l as [|y l IH]; simpl.
  - apply Permutation_refl.
  - destruct (cmp x y <=? 0).
    + apply Permutation_refl.
    + eapply perm_trans; [apply perm_swap|].
      now apply perm_skip.
Qed.

Lemma sort_perm (l : list A) : Permutation l (Js.sort cmp l).
Proof.
  induction l as [|x l IH]; simpl.
  - apply perm_nil.
  - eapply perm_trans; [|apply insert_perm].
    now apply perm_skip.
Qed.

Lemma sort_In (l : list A) (x : A) : In x (Js.sort cmp l) -> In x l.
Proof.
  intro H. eapply Permutation_in; [|exact H].
  apply Permutation_sym, sort_perm.
Qed.
End ArrayFacts.

(** [Math.floor(Math.random() * n)] is an index of an array of length
    [n > 0]. *)
Lemma floorTimes_lt (r : Q) (n : nat) :
  (0 <= r)%Q -> (r < 1)%Q -> (0 < n)%nat -> (Js.floorTimes r n < n)%nat.
Proof.
  intros H0 H1 Hn. unfold Js.floorTimes.
  set (z := Z.of_nat n).
  assert (Hz : 0 < z) by (unfold z; lia).
  assert (Hlt : (r * inject_Z z < inject_Z z)%Q).
  { setoid_replace (inject_Z z) with (1 * inject_Z z)%Q at 2 by ring.
    apply Qmult_lt_compat_r; [|exact H1].
    change 0%Q with (inject_Z 0). now rewrite <- Zlt_Qlt. }
  assert (Hge : (0 <= r * inject_Z z)%Q).
  { apply Qmult_le_0_compat; [exact H0|].
    change 0%Q with (inject_Z 0). rewrite <- Zle_Qle. lia. }
  assert (Hf1 : Qfloor (r * inject_Z z) < z).
  { rewrite Zlt_Qlt. eapply Qle_lt_trans; [apply Qfloor_le | exact Hlt]. }
  assert (Hf0 : 0 <= Qfloor (r * inject_Z z)).
  { rewrite <- (Qfloor_Z 0). now apply Qfloor_resp_le. }
  unfold z in *. lia.
Qed.

Lemma randomItem_In {A} (rt : Runtime) (d : Draw) (arr : list A) (x : A) :
  SurpriseEngine.randomItem rt d arr = Some x -> In x arr.
Proof. unfold SurpriseEngine.randomItem. apply nth_error_In. Qed.


(** ** The loop of the orchestrator *)

Section LoopFacts.
Import SurpriseEngine.
Variable invoke : Generator -> Exc (option Surprise.t).
Variable count : Z.

(** A turn of the loop returns: with the batch as it was, or with the
    surprise of the generator at its end. *)
Lemma tryGenerator_cases (gen : Generator) (acc : list Surprise.t) :
  tryGenerator invoke gen acc = Ok acc
  \/ exists s, invoke gen = Ok (Some s) /\ tryGenerator invoke gen acc = Ok (acc ++ [s]).
Proof.
  unfold tryGenerator.
  destruct (invoke gen) as [[s|]|e]; simpl; eauto.
Qed.


(** The loop returns the batch it started with, followed by surprises
    that generators of the list returned; it never grows the batch past
    [count]. *)
Lemma forOf_spec (shuffled : list Generator) :
  forall acc, exists ext,
    forOf invoke count shuffled acc = Ok (acc ++ ext)
    /\ (forall s, In s ext -> exists g, In g shuffled /\ invoke g = Ok (Some s))
    /\ Z.of_nat (List.length (acc ++ ext)) <= Z.max (Z.of_nat (List.length acc)) count.
Proof.
  induction shuffled as [|gen rest IH]; intro acc; simpl.
  - exists []. rewrite app_nil_r. repeat split; [intros s []| lia].
  - destruct (count <=? Z.of_nat (List.length acc)) eqn:Hbreak.
    + exists []. rewrite app_nil_r. repeat split; [intros s []| lia].
    + apply Z.leb_gt in Hbreak.
      destruct (tryGenerator_cases gen acc) as [E | [s [Hs E]]]; rewrite E; simpl.
      * destruct (IH acc) as [ext [H1 [H2 H3]]].
        exists ext. repeat split; auto.
        intros s Hs. destruct (H2 s Hs) as [g [Hg Hi]]. exists g. auto.
      * destruct (IH (acc ++ [s])) as [ext [H1 [H2 H3]]].
        exists (s :: ext).
        replace (acc ++ s :: ext) with ((acc ++ [s]) ++ ext)
          by (rewrite <- app_assoc; reflexivity).
        repeat split; auto.
        -- intros s' [<- | Hs'].
           ++ exists gen. auto.
           ++ destruct (H2 s' Hs') as [g [Hg Hi]]. exists g. auto.
        -- rewrite !length_app in *. simpl in *. lia.
Qed.

(** With room for one surprise, a generator of the list that returns a
    surprise leaves the batch non-empty. *)
Lemma forOf_nonempty (shuffled : list Generator) :
  forall acc g s l,
    1 <= count -> In g shuffled -> invoke g = Ok (Some s) ->
    forOf invoke count shuffled acc = Ok l -> l <> [].
Proof.
  induction shuffled as [|gen rest IH]; intros acc g s l Hc Hg Hi Hl.
  - destruct Hg.
  - simpl in Hl.
    destruct (count <=? Z.of_nat (List.length acc)) eqn:Hbreak.
    + apply Z.leb_le in Hbreak. inversion Hl; subst.
      destruct l; [simpl in Hbreak; lia | discriminate].
    + destruct (tryGenerator_cases gen acc) as [E | [s' [Hs' E]]];
        rewrite E in Hl; simpl in Hl.
      * destruct Hg as [-> | Hg].
        -- unfold tryGenerator in E. rewrite Hi in E. simpl in E.
           inversion E as [E']. exfalso.
           apply (f_equal (@List.length _)) in E'.
           rewrite length_app in E'. simpl in E'. lia.
        -- eapply IH; eauto.
      * destruct (forOf_spec rest (acc ++ [s'])) as [ext [H1 _]].
        rewrite H1 in Hl. inversion Hl; subst.
        destruct acc; discriminate.
Qed.


(** What [generateSurprisesWith] returns. *)
Lemma generateSurprisesWith_spec (rt : Runtime) (memories : list Memory.t) :
  (memories = [] /\ generateSurprisesWith invoke count rt memories
                    = Ok [generateWelcomeSurprise rt])
  \/ (memories <> []
      /\ exists batch,
           forOf invoke count (shuffleGenerators rt (generators rt)) [] = Ok batch
           /\ generateSurprisesWith invoke count rt memories
              = Ok (match batch with
                    | [] => [generateRandomEncouragement rt memories]
                    | _ => batch
                    end)).
Proof.
  unfold generateSurprisesWith.
  destruct memories as [|m ms]; simpl; [left; auto|right].
  split; [discriminate|].
  destruct (forOf_spec (shuffleGenerators rt (generators rt)) []) as [ext [H _]].
  simpl in H. exists ext. split; [exact H|]. rewrite H. simpl.
  now destruct ext.
Qed.
End LoopFacts.

(** ** The generators, one by one *)

Ltac produced H :=
  repeat match type of H with
    | (if ?c then _ else _) = _ => destruct c eqn:?
    | match ?c with _ => _ end = _ => destruct c eqn:?
    | bind ?c _ = _ => destruct c eqn:?; simpl in H
    end;
  try discriminate H;
  inversion H; subst; clear H; simpl.

Section GeneratorFacts.
Import SurpriseEngine.
Variable rt : Runtime.
Variable memories : list Memory.t.

Lemma id_known (m : Memory.t) : In m memories -> In (Memory.id m) (idsOf memories).
Proof. apply in_map. Qed.

Lemma ids_of_slice (n : nat) (i : string) :
  In i (map Memory.id (Js.slice0 n memories)) -> In i (idsOf memories).
Proof.
  intro H. apply in_map_iff in H. destruct H as [m [<- H]].
  apply id_known. eapply slice0_incl; eauto.
Qed.

(** The memory [findOnThisDay] shows passed its filter. *)
Lemma findOnThisDay_spec (s : Surprise.t) :
  findOnThisDay rt memories = Ok (Some s) ->
  Surprise.type s = on_this_day
  /\ exists m, In m memories /\ onThisDayMatch rt m = true
               /\ Surprise.relatedMemoryIds s = [Memory.id m].
Proof.
  unfold findOnThisDay. intro H. produced H.
  split; [reflexivity|].
  match goal with E : randomItem _ _ _ = Some ?m |- _ =>
    apply randomItem_In in E; apply filter_In in E; destruct E; exists m
  end.
  auto.
Qed.

Lemma findForgottenGem_spec (s : Surprise.t) :
  findForgottenGem rt memories = Ok (Some s) ->
  Surprise.type s = forgotten_gem
  /\ exists m, In m memories /\ Surprise.relatedMemoryIds s = [Memory.id m].
Proof.
  unfold findForgottenGem. intro H. produced H.
  split; [reflexivity|].
  match goal with E : randomItem _ _ _ = Some ?m |- _ =>
    apply randomItem_In in E; apply slice0_incl in E; apply sort_In in E;
    apply filter_In in E; destruct E; exists m
  end.
  auto.
Qed.

Lemma findPattern_spec (s : Surprise.t) :
  findPattern rt memories = Ok (Some s) ->
  Surprise.type s = pattern
  /\ (List.length (Surprise.relatedMemoryIds s) <= 3)%nat
  /\ incl (Surprise.relatedMemoryIds s) (idsOf memories).
Proof.
  unfold findPattern. intro H. produced H.
  split; [reflexivity|]. split.
  - rewrite length_map. apply firstn_le_length.
  - intros i Hi. apply in_map_iff in Hi. destruct Hi as [m [<- Hm]].
    apply slice0_incl in Hm. apply filter_In in Hm. destruct Hm as [Hm _].
    apply slice0_incl in Hm. now apply id_known.
Qed.

Lemma generateNudge_spec (rooms : list Room.t) (s : Surprise.t) :
  generateNudge rt memories rooms = Ok (Some s) ->
  Surprise.type s = nudge /\ Surprise.relatedMemoryIds s = [].
Proof. unfold generateNudge. intro H. produced H. auto. Qed.

Lemma generateQuestion_spec (s : Surprise.t) :
  generateQuestion rt memories = Ok (Some s) ->
  Surprise.type s = question
  /\ Surprise.relatedMemoryIds s = map Memory.id (Js.slice0 2 memories).
Proof. unfold generateQuestion. intro H. produced H. auto. Qed.

(** [generateQuestion] finds something to ask of any memory. *)
Lemma generateQuestion_some :
  memories <> [] -> exists s, generateQuestion rt memories = Ok (Some s).
Proof.
  intro H. unfold generateQuestion.
  destruct memories; [congruence|]. simpl. eauto.
Qed.

Lemma generateAIIdeaSpark_spec (s : Surprise.t) :
  generateAIIdeaSpark rt memories = Ok (Some s) ->
  Surprise.type s = idea_spark
  /\ Surprise.relatedMemoryIds s = map Memory.id (Js.slice0 2 memories).
Proof. unfold generateAIIdeaSpark. intro H. produced H. auto. Qed.
End GeneratorFacts.

(** ** The two generators that pair memories *)

Section Pairing.
Import SurpriseEngine.

(** The partner of the anchor [m1]: the first memory that [differs]
    from it, else the second of the shuffled array.  With distinct ids
    it is never the anchor. *)
Lemma partner_distinct (differs : Memory.t -> bool) (m1 m2 : Memory.t)
    (rest : list Memory.t) :
  NoDup (idsOf (m1 :: rest)) ->
  (forall m, differs m = true -> Memory.id m <> Memory.id m1) ->
  match find differs (m1 :: rest) with
  | Some m => Some m
  | None => nth_error (m1 :: rest) 1
  end = Some m2 ->
  In m2 (m1 :: rest) /\ Memory.id m1 <> Memory.id m2.
Proof.
  intros Hnd Hdiff H.
  destruct (find differs (m1 :: rest)) as [m|] eqn:Hfind.
  - inversion H; subst m. apply find_some in Hfind. destruct Hfind as [Hin Hp].
    split; [exact Hin|]. intro E. now apply (Hdiff m2 Hp).
  - simpl in H. destruct rest as [|x rest']; [discriminate|].
    simpl in H. inversion H; subst x.
    split; [right; left; reflexivity|].
    unfold idsOf in Hnd. simpl in Hnd. inversion Hnd as [|? ? Hnotin _]; subst.
    intro E. apply Hnotin. left. now symmetry.
Qed.

(** The partner exists as soon as the shuffled array has two entries. *)
Lemma partner_exists (differs : Memory.t -> bool) (m1 x : Memory.t)
    (rest : list Memory.t) :
  exists m2,
    match find differs (m1 :: x :: rest) with
    | Some m => Some m
    | None => nth_error (m1 :: x :: rest) 1
    end = Some m2.
Proof.
  destruct (find differs (m1 :: x :: rest)) as [m|]; simpl; eauto.
Qed.

Variable rt : Runtime.
Variable memories : list Memory.t.
Hypothesis OK : RuntimeOK rt.

Lemma shuffled_ids (g : Generator) :
  NoDup (idsOf memories) -> NoDup (idsOf (shuffleMemories rt g memories)).
Proof.
  intro H. eapply Permutation_NoDup; [|exact H].
  apply Permutation_map, (shuffleMemories_perm rt OK).
Qed.

Lemma shuffled_In (g : Generator) (m : Memory.t) :
  In m (shuffleMemories rt g memories) -> In m memories.
Proof.
  apply Permutation_in, Permutation_sym, (shuffleMemories_perm rt OK).
Qed.

Lemma shuffled_length (g : Generator) :
  List.length (shuffleMemories rt g memories) = List.length memories.
Proof. symmetry. apply Permutation_length, (shuffleMemories_perm rt OK). Qed.

Lemma generateMashup_spec (s : Surprise.t) :
  generateMashup rt memories = Ok (Some s) ->
  Surprise.type s = mashup
  /\ (4 <= List.length memories)%nat
  /\ exists m1 m2,
       In m1 memories /\ In m2 memories
       /\ Surprise.relatedMemoryIds s = [Memory.id m1; Memory.id m2]
       /\ (NoDup (idsOf memories) -> Memory.id m1 <> Memory.id m2).
Proof.
  unfold generateMashup. intro H.
  destruct (List.length memories <? 4)%nat eqn:Hlen; [discriminate|].
  apply Nat.ltb_ge in Hlen.
  destruct (shuffleMemories rt GenerateMashup memories) as [|m1 rest] eqn:Hsh;
    [discriminate|].
  match type of H with match ?c with _ => _ end = _ => destruct c as [m2|] eqn:Hm2 end;
    [|discriminate].
  inversion H; subst; clear H; simpl.
  split; [reflexivity|]. split; [exact Hlen|].
  exists m1, m2.
  assert (Hin1 : In m1 memories)
    by (apply (shuffled_In GenerateMashup); rewrite Hsh; now left).
  split; [exact Hin1|].
  assert (Hpair : NoDup (idsOf memories) ->
                  In m2 (m1 :: rest) /\ Memory.id m1 <> Memory.id m2).
  { intro Hnd. eapply partner_distinct; [| |exact Hm2].
    - rewrite <- Hsh. now apply shuffled_ids.
    - intros m Hp. apply andb_prop in Hp. destruct Hp as [Hp _].
      apply andb_prop in Hp. destruct Hp as [Hp _].
      apply negb_true_iff in Hp. now apply String.eqb_neq in Hp. }
  assert (Hin2 : In m2 (m1 :: rest)).
  { destruct (find _ (m1 :: rest)) as [m|] eqn:Hfind.
    - inversion Hm2; subst. apply find_some in Hfind. tauto.
    - now apply nth_error_In in Hm2. }
  split; [apply (shuffled_In GenerateMashup); now rewrite Hsh|].
  split; [reflexivity|]. intro Hnd. now apply Hpair.
Qed.

(** With four memories [generateMashup] does make a surprise. *)
Lemma generateMashup_some :
  (4 <= List.length memories)%nat ->
  exists s, generateMashup rt memories = Ok (Some s).
Proof.
  intro Hlen. unfold generateMashup.
  apply Nat.ltb_ge in Hlen. rewrite Hlen. apply Nat.ltb_ge in Hlen.
  pose proof (shuffled_length GenerateMashup) as Hl.
  destruct (shuffleMemories rt GenerateMashup memories) as [|m1 [|x rest]];
    simpl in Hl; try lia.
  destruct (partner_exists
              (fun m => negb (String.eqb (Memory.id m) (Memory.id m1))
                        && negb (sameRoomId (Memory.roomId m) (Memory.roomId m1))
                        && negb (sharesTag m m1)) m1 x rest) as [m2 Hm2].
  rewrite Hm2. eauto.
Qed.

Lemma generateAIConnection_spec (s : Surprise.t) :
  generateAIConnection rt memories = Ok (Some s) ->
  Surprise.type s = connection
  /\ (3 <= List.length memories)%nat
  /\ exists m1 m2,
       In m1 memories /\ In m2 memories
       /\ Surprise.relatedMemoryIds s = [Memory.id m1; Memory.id m2]
       /\ (NoDup (idsOf memories) -> Memory.id m1 <> Memory.id m2).
Proof.
  unfold generateAIConnection. intro H.
  destruct (List.length memories <? 3)%nat eqn:Hlen; [discriminate|].
  apply Nat.ltb_ge in Hlen.
  destruct (shuffleMemories rt GenerateAIConnection memories) as [|m1 rest] eqn:Hsh;
    [discriminate|].
  match type of H with match ?c with _ => _ end = _ => destruct c as [m2|] eqn:Hm2 end;
    [|discriminate].
  match type of H with bind ?c _ = _ => destruct c as [response|e] end;
    [|discriminate].
  simpl in H. inversion H; subst; clear H; simpl.
  split; [reflexivity|]. split; [exact Hlen|].
  exists m1, m2.
  assert (Hin1 : In m1 memories)
    by (apply (shuffled_In GenerateAIConnection); rewrite Hsh; now left).
  split; [exact Hin1|].
  assert (Hpair : NoDup (idsOf memories) ->
                  In m2 (m1 :: rest) /\ Memory.id m1 <> Memory.id m2).
  { intro Hnd. eapply partner_distinct; [| |exact Hm2].
    - rewrite <- Hsh. now apply shuffled_ids.
    - intros m Hp. apply andb_prop in Hp. destruct Hp as [Hp _].
      apply negb_true_iff in Hp. now apply String.eqb_neq in Hp. }
  assert (Hin2 : In m2 (m1 :: rest)).
  { destruct (find _ (m1 :: rest)) as [m|] eqn:Hfind.
    - inversion Hm2; subst. apply find_some in Hfind. tauto.
    - now apply nth_error_In in Hm2. }
  split; [apply (shuffled_In GenerateAIConnection); now rewrite Hsh|].
  split; [reflexivity|]. intro Hnd. now apply Hpair.
Qed.

(** With three memories and a gateway that answers,
    [generateAIConnection] does make a surprise. *)
Lemma generateAIConnection_some (reply : Reply) :
  (3 <= List.length memories)%nat ->
  AIService.isConfigured rt = true ->
  (forall body, fetchCompletion rt body = Ok reply) ->
  exists s, generateAIConnection rt memories = Ok (Some s).
Proof.
  intros Hlen Hconf Hnet. unfold generateAIConnection.
  apply Nat.ltb_ge in Hlen. rewrite Hlen. apply Nat.ltb_ge in Hlen.
  pose proof (shuffled_length GenerateAIConnection) as Hl.
  destruct (shuffleMemories rt GenerateAIConnection memories) as [|m1 [|x rest]];
    simpl in Hl; try lia.
  destruct (partner_exists
              (fun m => negb (String.eqb (Memory.id m) (Memory.id m1))
                        && negb (sharesTag m m1)) m1 x rest) as [m2 Hm2].
  rewrite Hm2. unfold AIService.chat. rewrite Hconf. simpl.
  rewrite Hnet. simpl. eauto.
Qed.
End Pairing.

(** ** Every generator at once *)

Section AnyGenerator.
Import SurpriseEngine.
Variable rt : Runtime.
Variable memories : list Memory.t.
Variable rooms : list Room.t.

Lemma runGenerator_kind (gen : Generator) (s : Surprise.t) :
  runGenerator rt memories rooms gen = Ok (Some s) -> Surprise.type s = kindOf gen.
Proof.
  destruct gen; simpl; intro H.
  - now apply findOnThisDay_spec in H.
  - now apply findForgottenGem_spec in H.
  - now apply findPattern_spec in H.
  - now apply generateNudge_spec in H.
  - unfold generateMashup in H. produced H. reflexivity.
  - now apply generateQuestion_spec in H.
  - unfold generateAIConnection in H. produced H. reflexivity.
  - now apply generateAIIdeaSpark_spec in H.
Qed.

Lemma runGenerator_related (gen : Generator) (s : Surprise.t) :
  RuntimeOK rt ->
  runGenerator rt memories rooms gen = Ok (Some s) ->
  incl (Surprise.relatedMemoryIds s) (idsOf memories).
Proof.
  intros OK H. destruct gen; simpl in H.
  - apply findOnThisDay_spec in H. destruct H as [_ [m [Hin [_ ->]]]].
    intros i [<-|[]]. now apply id_known.
  - apply findForgottenGem_spec in H. destruct H as [_ [m [Hin ->]]].
    intros i [<-|[]]. now apply id_known.
  - now apply findPattern_spec in H.
  - apply generateNudge_spec in H. destruct H as [_ ->]. intros i [].
  - apply (generateMashup_spec rt memories OK) in H.
    destruct H as [_ [_ [m1 [m2 [H1 [H2 [-> _]]]]]]].
    intros i [<-|[<-|[]]]; now apply id_known.
  - apply generateQuestion_spec in H. destruct H as [_ ->].
    intros i. apply ids_of_slice.
  - apply (generateAIConnection_spec rt memories OK) in H.
    destruct H as [_ [_ [m1 [m2 [H1 [H2 [-> _]]]]]]].
    intros i [<-|[<-|[]]]; now apply id_known.
  - apply generateAIIdeaSpark_spec in H. destruct H as [_ ->].
    intros i. apply ids_of_slice.
Qed.

(** Without a key the [generators] array holds the six rule-based
    entries, and so does any permutation of it. *)
Lemma unconfigured_generators (gen : Generator) :
  RuntimeOK rt ->
  AIService.isConfigured rt = false ->
  In gen (shuffleGenerators rt (generators rt)) ->
  gen <> GenerateAIConnection /\ gen <> GenerateAIIdeaSpark.
Proof.
  intros OK Hconf Hin.
  apply (Permutation_in _ (Permutation_sym (shuffleGenerators_perm rt OK _))) in Hin.
  unfold generators in Hin. rewrite Hconf in Hin. simpl in Hin.
  intuition (subst; discriminate).
Qed.

Lemma question_is_shuffled :
  RuntimeOK rt -> In GenerateQuestion (shuffleGenerators rt (generators rt)).
Proof.
  intro OK. apply (Permutation_in _ (shuffleGenerators_perm rt OK _)).
  unfold generators. apply in_or_app. left. simpl. tauto.
Qed.
End AnyGenerator.

(** The sample runtime is a runtime. *)
Lemma sample_runtime_ok (key : string) (net : Body -> Exc Reply) :
  RuntimeOK (Sample.runtime key net).
Proof.
  constructor; simpl.
  - intro d. split; [discriminate | reflexivity].
  - intro l. apply Permutation_rev.
  - intros g l. apply Permutation_rev.
Qed.

(** ** The orchestrator *)

(** C1, as the code has it.  For an empty memory collection
    [generateSurprises] returns exactly one surprise, the fixed welcome
    surprise (of kind [idea_spark], titled "Welcome to Your Memory Palace",
    relating no memory), whatever the count and the rooms; and it does so
    whatever the generators would do, so none is invoked. *)
Theorem generateSurprises_empty :
  forall (rt : Runtime) (rooms : list Room.t) (count : Z)
         (invoke : Generator -> Exc (option Surprise.t)),
    SurpriseEngine.generateSurprises rt [] rooms count
    = Ok [SurpriseEngine.generateWelcomeSurprise rt]
    /\ SurpriseEngine.generateSurprisesWith invoke count rt []
       = Ok [SurpriseEngine.generateWelcomeSurprise rt]
    /\ Surprise.type (SurpriseEngine.generateWelcomeSurprise rt) = idea_spark
    /\ Surprise.title (SurpriseEngine.generateWelcomeSurprise rt)
       = "Welcome to Your Memory Palace"
    /\ Surprise.relatedMemoryIds (SurpriseEngine.generateWelcomeSurprise rt) = [].
Proof. intros. repeat split. Qed.

(** C1 as stated fails: the kind of the welcome surprise is [idea_spark];
    no kind is called welcome. *)
Lemma welcome_kind_is_idea_spark :
  (exists s,
      SurpriseEngine.generateSurprises (Sample.runtime "" Sample.offline) [] [] 3
      = Ok [s]
      /\ typeName (Surprise.type s) = "idea_spark")
  /\ forall type, typeName type <> "welcome".
Proof.
  split.
  - eexists. split; reflexivity.
  - intros []; discriminate.
Qed.

(** C2, as the code has it.  For every non-empty memory collection, any
    rooms and any behaviour of the generators and of the random source,
    [generateSurprises] returns a batch of at least one surprise and of at
    most [count] surprises when [count >= 1], of exactly one otherwise:
    the length is between 1 and [max 1 count]. *)
Theorem generateSurprises_size :
  forall (invoke : Generator -> Exc (option Surprise.t)) (rt : Runtime)
         (memories : list Memory.t) (rooms : list Room.t) (count : Z),
    memories <> [] ->
    (exists batch,
        SurpriseEngine.generateSurprisesWith invoke count rt memories = Ok batch
        /\ 1 <= Z.of_nat (List.length batch) <= Z.max 1 count)
    /\ (exists batch,
           SurpriseEngine.generateSurprises rt memories rooms count = Ok batch
           /\ 1 <= Z.of_nat (List.length batch) <= Z.max 1 count).
Proof.
  assert (G : forall invoke rt memories count, memories <> [] ->
            exists batch,
              SurpriseEngine.generateSurprisesWith invoke count rt memories = Ok batch
              /\ 1 <= Z.of_nat (List.length batch) <= Z.max 1 count).
  { intros invoke rt memories count Hne.
    destruct (generateSurprisesWith_spec invoke count rt memories)
      as [[He _] | [_ [batch [Hloop Hres]]]]; [congruence|].
    destruct (forOf_spec invoke count (shuffleGenerators rt (SurpriseEngine.generators rt)) [])
      as [ext [H1 [_ H3]]].
    simpl in H1, H3. rewrite H1 in Hloop. inversion Hloop; subst batch.
    rewrite Hres. destruct ext as [|s ext].
    - eexists. split; [reflexivity|]. simpl. lia.
    - eexists. split; [reflexivity|]. simpl List.length in *. lia. }
  intros. split; [now apply G|].
  unfold SurpriseEngine.generateSurprises. now apply G.
Qed.

Lemma generateSurprises_size_witness :
  Sample.memories <> []
  /\ exists batch,
       SurpriseEngine.generateSurprises (Sample.runtime "" Sample.offline)
         Sample.memories Sample.rooms 3 = Ok batch
       /\ 1 <= Z.of_nat (List.length batch) <= Z.max 1 3.
Proof.
  split; [discriminate|].
  apply (generateSurprises_size
           (fun _ => Ok None) (Sample.runtime "" Sample.offline)
           Sample.memories Sample.rooms 3).
  discriminate.
Defined.

(** C2 as stated fails: asked for no surprise, the engine still returns
    the encouragement, one more than [count]. *)
Lemma generateSurprises_count_zero :
  Sample.memories <> []
  /\ exists s,
       SurpriseEngine.generateSurprises (Sample.runtime "" Sample.offline)
         Sample.memories Sample.rooms 0 = Ok [s]
       /\ ~ (Z.of_nat (List.length [s]) <= 0).
Proof.
  split; [discriminate|].
  eexists. split; [vm_compute; reflexivity|]. simpl. lia.
Qed.

(** C3, as the code has it.  When the gateway is not configured, no AI
    generator is among the shuffled generators, no returned surprise has
    kind [connection], and a returned surprise of kind [idea_spark] is the
    whole batch and is the welcome surprise (empty collection) or the
    encouragement, which needs [count < 1] on a non-empty collection; so
    for a non-empty collection and [count >= 1] no returned surprise has
    kind [connection] or [idea_spark]. *)
Theorem unconfigured_kinds :
  forall (rt : Runtime) (memories : list Memory.t) (rooms : list Room.t)
         (count : Z) (batch : list Surprise.t),
    RuntimeOK rt ->
    AIService.isConfigured rt = false ->
    SurpriseEngine.generateSurprises rt memories rooms count = Ok batch ->
    (forall gen, In gen (shuffleGenerators rt (SurpriseEngine.generators rt)) ->
                 gen <> GenerateAIConnection /\ gen <> GenerateAIIdeaSpark)
    /\ (forall s, In s batch -> Surprise.type s <> connection)
    /\ (forall s, In s batch -> Surprise.type s = idea_spark ->
                  batch = [s] /\ isFallback rt memories s
                  /\ (memories = [] \/ count < 1))
    /\ (memories <> [] -> 1 <= count ->
        forall s, In s batch ->
                  Surprise.type s <> connection /\ Surprise.type s <> idea_spark).
Proof.
  intros rt memories rooms count batch OK Hconf Hrun.
  assert (Hgens := fun gen => unconfigured_generators rt gen OK Hconf).
  assert (Hmade : forall ext s,
             (forall s, In s ext -> exists g,
                 In g (shuffleGenerators rt (SurpriseEngine.generators rt))
                 /\ SurpriseEngine.runGenerator rt memories rooms g = Ok (Some s)) ->
             In s ext ->
             Surprise.type s <> connection /\ Surprise.type s <> idea_spark).
  { intros ext s Hext Hs. destruct (Hext s Hs) as [g [Hg Hrung]].
    apply runGenerator_kind in Hrung. rewrite Hrung.
    destruct (Hgens g Hg) as [Hc Hi].
    destruct g; simpl; split; congruence. }
  unfold SurpriseEngine.generateSurprises in Hrun.
  destruct (generateSurprisesWith_spec
              (SurpriseEngine.runGenerator rt memories rooms) count rt memories)
    as [[He Hres] | [Hne [made [Hloop Hres]]]];
    rewrite Hres in Hrun; inversion Hrun; subst batch; clear Hrun Hres.
  - (* the welcome surprise *)
    split; [exact Hgens|]. split; [|split].
    + intros s [<-|[]]. discriminate.
    + intros s [<-|[]] _. split; [reflexivity|]. split; [now left | now left].
    + congruence.
  - destruct (forOf_spec (SurpriseEngine.runGenerator rt memories rooms) count
                (shuffleGenerators rt (SurpriseEngine.generators rt)) [])
      as [ext [H1 [H2 _]]].
    simpl in H1. rewrite H1 in Hloop. inversion Hloop; subst made; clear Hloop.
    split; [exact Hgens|].
    destruct ext as [|s0 ext].
    + (* the encouragement *)
      split; [|split].
      * intros s [<-|[]]. discriminate.
      * intros s [<-|[]] _. split; [reflexivity|]. split; [now right|].
        right. destruct (Z_lt_ge_dec count 1) as [Hlt|Hge]; [exact Hlt|exfalso].
        destruct (generateQuestion_some rt memories Hne) as [q Hq].
        eapply (forOf_nonempty (SurpriseEngine.runGenerator rt memories rooms) count);
          [| apply (question_is_shuffled rt OK) | exact Hq | exact H1 | reflexivity].
        lia.
      * intros _ Hc s _. exfalso.
        destruct (generateQuestion_some rt memories Hne) as [q Hq].
        eapply (forOf_nonempty (SurpriseEngine.runGenerator rt memories rooms) count);
          [exact Hc | apply (question_is_shuffled rt OK) | exact Hq | exact H1 | reflexivity].
    + split; [|split].
      * intros s Hs. now apply (Hmade (s0 :: ext) s H2 Hs).
      * intros s Hs Hk. exfalso. now apply (Hmade (s0 :: ext) s H2 Hs).
      * intros _ _ s Hs. now apply (Hmade (s0 :: ext) s H2 Hs).
Qed.

Lemma unconfigured_kinds_witness :
  exists batch,
    SurpriseEngine.generateSurprises (Sample.runtime "" Sample.offline)
      Sample.memories Sample.rooms 3 = Ok batch
    /\ forall s, In s batch ->
                 Surprise.type s <> connection /\ Surprise.type s <> idea_spark.
Proof.
  eexists. split; [vm_compute; reflexivity|].
  refine (proj2 (proj2 (proj2
    (unconfigured_kinds (Sample.runtime "" Sample.offline)
       Sample.memories Sample.rooms 3 _
       (sample_runtime_ok "" Sample.offline) eq_refl eq_refl))) _ _).
  - discriminate.
  - lia.
Defined.

(** C3 as stated fails: without a key and without memories, the surprise
    returned is the welcome surprise, whose kind is [idea_spark]. *)
Lemma unconfigured_welcome_is_idea_spark :
  AIService.isConfigured (Sample.runtime "" Sample.offline) = false
  /\ exists s,
       SurpriseEngine.generateSurprises (Sample.runtime "" Sample.offline) [] [] 3
       = Ok [s]
       /\ Surprise.type s = idea_spark.
Proof.
  split; [reflexivity|]. eexists. split; reflexivity.
Qed.

(** C4. [generateSurprises] returns, and every id in the
    [relatedMemoryIds] of a surprise it returns is the id of a memory of
    the collection it was given, for every input, every outcome of the
    random source and every answer of the gateway. *)
Theorem related_ids_are_known :
  forall (rt : Runtime) (memories : list Memory.t) (rooms : list Room.t) (count : Z),
    RuntimeOK rt ->
    exists batch,
      SurpriseEngine.generateSurprises rt memories rooms count = Ok batch
      /\ forall s i, In s batch -> In i (Surprise.relatedMemoryIds s) ->
                     exists m, In m memories /\ Memory.id m = i.
Proof.
  intros rt memories rooms count OK.
  unfold SurpriseEngine.generateSurprises.
  destruct (generateSurprisesWith_spec
              (SurpriseEngine.runGenerator rt memories rooms) count rt memories)
    as [[He Hres] | [Hne [made [Hloop Hres]]]]; rewrite Hres; eexists;
    (split; [reflexivity|]).
  - intros s i [<-|[]] [].
  - destruct (forOf_spec (SurpriseEngine.runGenerator rt memories rooms) count
                (shuffleGenerators rt (SurpriseEngine.generators rt)) [])
      as [ext [H1 [H2 _]]].
    simpl in H1. rewrite H1 in Hloop. inversion Hloop; subst made; clear Hloop.
    destruct ext as [|s0 ext].
    + intros s i [<-|[]] [].
    + intros s i Hs Hi. destruct (H2 s Hs) as [g [_ Hg]].
      apply (runGenerator_related rt memories rooms g s OK Hg) in Hi.
      unfold idsOf in Hi. apply in_map_iff in Hi.
      destruct Hi as [m [Hid Hin]]. now exists m.
Qed.

Lemma related_ids_are_known_witness :
  exists batch,
    SurpriseEngine.generateSurprises
      (Sample.runtime "sk-ant" (Sample.replying {| text := "Both grow."; json := None |}))
      Sample.memories Sample.rooms 8 = Ok batch
    /\ forall s i, In s batch -> In i (Surprise.relatedMemoryIds s) ->
                   exists m, In m Sample.memories /\ Memory.id m = i.
Proof.
  apply (related_ids_are_known
           (Sample.runtime "sk-ant" (Sample.replying {| text := "Both grow."; json := None |}))
           Sample.memories Sample.rooms 8).
  apply sample_runtime_ok.
Defined.



(** ** On this day *)

(** [daysBetween] counts the whole days of 24 hours between two instants,
    whichever comes first. *)
Lemma daysBetween_le (a b d : Z) :
  d <= SurpriseEngine.daysBetween a b <-> d * Utc.msPerDay <= Z.abs (b - a).
Proof.
  unfold SurpriseEngine.daysBetween, Utc.msPerDay.
  change (1000 * 60 * 60 * 24) with 86400000.
  replace (Z.abs (a - b)) with (Z.abs (b - a)) by lia.
  set (x := Z.abs (b - a)). split; intro H.
  - pose proof (Z.mul_div_le x 86400000 ltac:(lia)). nia.
  - apply Z.div_le_lower_bound; lia.
Qed.






(** A memory a year old to the day is shown. *)
Example on_this_day_last_year :
  exists s,
    SurpriseEngine.findOnThisDay (Sample.runtime "" Sample.offline) Sample.memories
    = Ok (Some s)
    /\ Surprise.relatedMemoryIds s = ["m2"]
    /\ Surprise.title s = "On This Day (13 months ago)".
Proof. eexists. split; [vm_compute; reflexivity|]. split; reflexivity. Qed.

(** ** Mashups and connections *)

(** C10. On a collection whose ids are pairwise distinct, a surprise made
    by [generateMashup] (which needs 4 memories) or by
    [generateAIConnection] (which needs 3) relates exactly two memories of
    the collection, and their ids differ: the fallback to the second
    shuffled memory never pairs the anchor with itself.  With 4 memories
    the mashup is made; with 3 and a gateway that answers, so is the
    connection. *)
Theorem paired_memories_differ :
  forall (rt : Runtime) (memories : list Memory.t),
    RuntimeOK rt ->
    NoDup (idsOf memories) ->
    (forall s,
        SurpriseEngine.generateMashup rt memories = Ok (Some s)
        \/ SurpriseEngine.generateAIConnection rt memories = Ok (Some s) ->
        exists a b,
          Surprise.relatedMemoryIds s = [a; b] /\ a <> b
          /\ In a (idsOf memories) /\ In b (idsOf memories))
    /\ ((4 <= List.length memories)%nat ->
        exists s, SurpriseEngine.generateMashup rt memories = Ok (Some s))
    /\ (forall s, SurpriseEngine.generateMashup rt memories = Ok (Some s) ->
                  (4 <= List.length memories)%nat)
    /\ (forall s, SurpriseEngine.generateAIConnection rt memories = Ok (Some s) ->
                  (3 <= List.length memories)%nat)
    /\ (forall reply,
          (3 <= List.length memories)%nat ->
          AIService.isConfigured rt = true ->
          (forall body, fetchCompletion rt body = Ok reply) ->
          exists s, SurpriseEngine.generateAIConnection rt memories = Ok (Some s)).
Proof.
  intros rt memories OK Hnd. repeat split.
  - intros s [H|H].
    + apply (generateMashup_spec rt memories OK) in H.
      destruct H as [_ [_ [m1 [m2 [H1 [H2 [Hrel Hne]]]]]]].
      exists (Memory.id m1), (Memory.id m2).
      repeat split; auto using id_known.
    + apply (generateAIConnection_spec rt memories OK) in H.
      destruct H as [_ [_ [m1 [m2 [H1 [H2 [Hrel Hne]]]]]]].
      exists (Memory.id m1), (Memory.id m2).
      repeat split; auto using id_known.
  - now apply generateMashup_some.
  - intros s H. now apply (generateMashup_spec rt memories OK) in H.
  - intros s H. now apply (generateAIConnection_spec rt memories OK) in H.
  - intros reply. now apply generateAIConnection_some.
Qed.

Lemma sample_ids_distinct : NoDup (idsOf Sample.memories).
Proof.
  unfold idsOf. simpl.
  repeat (constructor; [simpl; intuition discriminate|]). constructor.
Qed.

Lemma paired_memories_differ_witness :
  exists s a b,
    SurpriseEngine.generateMashup (Sample.runtime "" Sample.offline) Sample.memories
    = Ok (Some s)
    /\ Surprise.relatedMemoryIds s = [a; b] /\ a <> b.
Proof.
  pose proof (paired_memories_differ (Sample.runtime "" Sample.offline)
                Sample.memories (sample_runtime_ok "" Sample.offline)
                sample_ids_distinct) as [Hpair [Hsome _]].
  destruct Hsome as [s Hs]; [simpl; lia|].
  destruct (Hpair s (or_introl Hs)) as [a [b [Hrel [Hne _]]]].
  exists s, a, b. auto.
Defined.

(** ** The basic tags *)

Section CounterFacts.

(** The keys of a counter after [set]. *)
Lemma countSet_keys (m : list (string * Z)) (k : string) (v : Z) :
  map fst (Js.countSet m k v)
  = if Js.inStrings k (map fst m) then map fst m else map fst m ++ [k].
Proof.
  induction m as [|[k' v'] m IH]; simpl; [reflexivity|].
  destruct (String.eqb k k') eqn:E; simpl; [reflexivity|].
  rewrite IH. now destruct (Js.inStrings k (map fst m)).
Qed.

Lemma inStrings_false (x : string) (l : list string) :
  Js.inStrings x l = false -> ~ In x l.
Proof.
  unfold Js.inStrings. intros H Hin.
  assert (existsb (String.eqb x) l = true); [|congruence].
  apply existsb_exists. exists x. split; [exact Hin | apply String.eqb_refl].
Qed.

(** Counting a key keeps the keys distinct, and keeps any property the
    key has. *)
Lemma countUp_keys (P : string -> Prop) (m : list (string * Z)) (k : string) :
  NoDup (map fst m) -> Forall P (map fst m) -> P k ->
  NoDup (map fst (Js.countUp m k)) /\ Forall P (map fst (Js.countUp m k)).
Proof.
  intros Hnd Hall Hk. unfold Js.countUp. rewrite countSet_keys.
  destruct (Js.inStrings k (map fst m)) eqn:E; [auto|].
  split.
  - apply NoDup_app; [exact Hnd | repeat constructor; intros [] |].
    intros x Hx [<-|[]]. now apply (inStrings_false _ _ E).
  - apply Forall_app. auto.
Qed.
End CounterFacts.

Lemma clean_is_lower (w : string) :
  Js.allChars Js.isLower (TalkScreen.clean w) = true.
Proof.
  unfold TalkScreen.clean. induction w as [|c w IH]; simpl; [reflexivity|].
  destruct (Js.isLower c) eqn:E; simpl; [now rewrite E | exact IH].
Qed.

Lemma lowerChar_lower (c : ascii) : Js.isLower c = true -> Js.lowerChar c = c.
Proof.
  unfold Js.isLower, Js.lowerChar, Js.isUpper. intro H.
  apply andb_prop in H. destruct H as [H _]. apply Nat.leb_le in H.
  destruct (65 <=? nat_of_ascii c)%nat; simpl; [|reflexivity].
  destruct (nat_of_ascii c <=? 90)%nat eqn:E; [|reflexivity].
  apply Nat.leb_le in E. lia.
Qed.

(** Lower-case text is its own [toLowerCase]. *)
Lemma toLowerCase_lower (s : string) :
  Js.allChars Js.isLower s = true -> Js.toLowerCase s = s.
Proof.
  induction s as [|c s IH]; simpl; [reflexivity|].
  intro H. apply andb_prop in H. destruct H as [Hc Hs].
  now rewrite (lowerChar_lower c Hc), (IH Hs).
Qed.

(** The words counted by [extractBasicTags] are distinct and made of the
    letters a to z. *)
Lemma wordCounts_keys (text : string) :
  NoDup (map fst (TalkScreen.wordCounts text))
  /\ Forall (fun t => Js.allChars Js.isLower t = true)
       (map fst (TalkScreen.wordCounts text)).
Proof.
  unfold TalkScreen.wordCounts.
  generalize (Js.split_ws (Js.toLowerCase text)). intro words.
  assert (G : forall counts : list (string * Z),
             NoDup (map fst counts)
             /\ Forall (fun t => Js.allChars Js.isLower t = true) (map fst counts) ->
             NoDup (map fst (fold_left TalkScreen.countWord words counts))
             /\ Forall (fun t => Js.allChars Js.isLower t = true)
                  (map fst (fold_left TalkScreen.countWord words counts))).
  { induction words as [|w words IH]; intros counts [Hnd Hall]; simpl; [auto|].
    apply IH. unfold TalkScreen.countWord.
    destruct ((3 <? String.length (TalkScreen.clean w))%nat
              && negb (Js.inStrings (TalkScreen.clean w) TalkScreen.stopWords));
      [|auto].
    apply countUp_keys; auto using clean_is_lower. }
  apply G. simpl. split; constructor.
Qed.

Lemma extractBasicTags_spec (text : string) :
  let tags := TalkScreen.extractBasicTags text in
  NoDup tags
  /\ Forall (fun t => Js.allChars Js.isLower t = true) tags
  /\ (List.length tags <= 4)%nat.
Proof.
  destruct (wordCounts_keys text) as [Hnd Hall].
  set (sorted := Js.sort (fun a b : string * Z => snd b - snd a)
                   (TalkScreen.wordCounts text)).
  assert (Hperm : Permutation (map fst (TalkScreen.wordCounts text)) (map fst sorted))
    by apply Permutation_map, sort_perm.
  assert (Hslice : map fst (Js.slice0 4 sorted) = Js.slice0 4 (map fst sorted))
    by (unfold Js.slice0; symmetry; apply firstn_map).
  unfold TalkScreen.extractBasicTags. fold sorted. rewrite Hslice.
  split; [|split].
  - apply slice0_NoDup. eapply Permutation_NoDup; eauto.
  - apply Forall_forall. intros t Ht. apply slice0_incl in Ht.
    eapply Permutation_in in Ht; [|apply Permutation_sym, Hperm].
    revert t Ht. now apply Forall_forall.
  - apply firstn_le_length.
Qed.

(** ** The classification step *)

Section ClassifyFacts.
Variable rt : Runtime.
Variable content : string.

Lemma analyzeMemory_configured :
  AIService.isConfigured rt = true ->
  AIService.analyzeMemory rt content
  = match fetchCompletion rt (analysisRequest content) with
    | Throw e => Throw e
    | Ok response =>
        Ok (match json response with
            | Some v => v
            | None => AIService.unparsed content
            end)
    end.
Proof.
  intro Hconf. unfold AIService.analyzeMemory, AIService.chat.
  rewrite Hconf. simpl.
  change (fetchCompletion rt _) with (fetchCompletion rt (analysisRequest content)).
  destruct (fetchCompletion rt (analysisRequest content)) as [response|e];
    simpl; [|reflexivity].
  now destruct (json response).
Qed.

Lemma classify_unconfigured :
  AIService.isConfigured rt = false ->
  TalkScreen.classify rt content = Ok (basicAnalysis content).
Proof. intro H. unfold TalkScreen.classify. now rewrite H. Qed.

Lemma classify_throws (e : string) :
  AIService.isConfigured rt = true ->
  fetchCompletion rt (analysisRequest content) = Throw e ->
  TalkScreen.classify rt content = Ok (basicAnalysis content).
Proof.
  intros Hconf Hnet. unfold TalkScreen.classify, TalkScreen.tryAnalysis.
  rewrite Hconf, (analyzeMemory_configured Hconf), Hnet. reflexivity.
Qed.

Lemma classify_unparsed (reply : Reply) :
  AIService.isConfigured rt = true ->
  fetchCompletion rt (analysisRequest content) = Ok reply ->
  json reply = None ->
  TalkScreen.classify rt content
  = Ok {| TalkScreen.tags := Js.Arr [];
          TalkScreen.summary := Js.Str (AIService.truncated content);
          TalkScreen.suggestedRoom := Js.Undefined |}.
Proof.
  intros Hconf Hnet Hjson. unfold TalkScreen.classify, TalkScreen.tryAnalysis.
  rewrite Hconf, (analyzeMemory_configured Hconf), Hnet, Hjson. reflexivity.
Qed.

Lemma classify_object (reply : Reply) (fields : list (string * Js.Value)) :
  AIService.isConfigured rt = true ->
  fetchCompletion rt (analysisRequest content) = Ok reply ->
  json reply = Some (Js.Obj fields) ->
  TalkScreen.classify rt content
  = Ok {| TalkScreen.tags := Js.field fields "tags";
          TalkScreen.summary := Js.field fields "summary";
          TalkScreen.suggestedRoom := Js.field fields "suggestedRoom" |}.
Proof.
  intros Hconf Hnet Hjson. unfold TalkScreen.classify, TalkScreen.tryAnalysis.
  rewrite Hconf, (analyzeMemory_configured Hconf), Hnet, Hjson. reflexivity.
Qed.

Lemma classify_returns : exists vars, TalkScreen.classify rt content = Ok vars.
Proof.
  unfold TalkScreen.classify.
  destruct (AIService.isConfigured rt); [|eauto].
  destruct (TalkScreen.tryAnalysis rt content _) as [vars [u|e]]; eauto.
Qed.

Lemma saveAsMemory_returns (rooms : list Room.t) (uid : option string) (isVoice : bool) :
  exists saved, TalkScreen.saveAsMemory rt rooms uid content isVoice = Ok saved.
Proof.
  unfold TalkScreen.saveAsMemory.
  destruct (bind (TalkScreen.buildMemory rt rooms uid content isVoice) _); simpl; eauto.
Qed.
End ClassifyFacts.

(** C6, as the code has it.  The classification step returns for every
    text, and so does [saveAsMemory]: nothing is raised to the caller.
    When the gateway is not configured, when its completion call throws
    and when its reply parses to [null], the tags are the basic tags and
    summary and suggested room are left undefined; when the reply is not
    JSON, the tags are the empty array, the summary is the first 100
    characters of the text (followed by "..." when it is longer) and the
    suggested room is left undefined. *)
Theorem classify_never_raises :
  forall (rt : Runtime) (rooms : list Room.t) (stateUserId : option string)
         (content : string) (isVoice : bool),
    (exists vars, TalkScreen.classify rt content = Ok vars)
    /\ (exists saved,
           TalkScreen.saveAsMemory rt rooms stateUserId content isVoice = Ok saved)
    /\ (AIService.isConfigured rt = false ->
        TalkScreen.classify rt content = Ok (basicAnalysis content))
    /\ (forall e,
          AIService.isConfigured rt = true ->
          fetchCompletion rt (analysisRequest content) = Throw e ->
          TalkScreen.classify rt content = Ok (basicAnalysis content))
    /\ (forall reply,
          AIService.isConfigured rt = true ->
          fetchCompletion rt (analysisRequest content) = Ok reply ->
          json reply = Some Js.Null ->
          TalkScreen.classify rt content = Ok (basicAnalysis content))
    /\ (forall reply,
          AIService.isConfigured rt = true ->
          fetchCompletion rt (analysisRequest content) = Ok reply ->
          json reply = None ->
          TalkScreen.classify rt content
          = Ok {| TalkScreen.tags := Js.Arr [];
                  TalkScreen.summary := Js.Str (AIService.truncated content);
                  TalkScreen.suggestedRoom := Js.Undefined |}).
Proof.
  intros rt rooms uid content isVoice.
  split; [apply classify_returns|].
  split; [apply saveAsMemory_returns|].
  split; [apply classify_unconfigured|].
  split; [apply classify_throws|].
  split; [|apply classify_unparsed].
  intros reply Hconf Hnet Hjson.
  unfold TalkScreen.classify, TalkScreen.tryAnalysis.
  rewrite Hconf, (analyzeMemory_configured rt content Hconf), Hnet, Hjson.
  reflexivity.
Qed.

Lemma classify_never_raises_witness :
  let rt := Sample.runtime "sk-ant" Sample.offline in
  let content := "Call the plumber about the kitchen sink" in
  AIService.isConfigured rt = true
  /\ fetchCompletion rt (analysisRequest content)
     = Throw "TypeError: Network request failed"
  /\ TalkScreen.classify rt content = Ok (basicAnalysis content).
Proof.
  intros rt content. split; [reflexivity|]. split; [reflexivity|].
  refine (proj1 (proj2 (proj2 (proj2
    (classify_never_raises rt [] None content false)))) _ eq_refl eq_refl).
Defined.

(** C6 as stated fails: when the completion call throws, the step leaves
    the summary undefined, not a string. *)
Lemma classify_offline_has_no_summary :
  let rt := Sample.runtime "sk-ant" Sample.offline in
  AIService.isConfigured rt = true
  /\ exists vars,
       TalkScreen.classify rt "Call the plumber about the kitchen sink" = Ok vars
       /\ TalkScreen.summary vars = Js.Undefined
       /\ forall s, TalkScreen.summary vars <> Js.Str s.
Proof.
  split; [reflexivity|]. eexists. split; [vm_compute; reflexivity|].
  split; [reflexivity|]. discriminate.
Qed.

(** C7, as the code has it.  With the gateway not configured, the text
    "I love hiking on weekends near the lake" gets exactly the tags love,
    hiking, weekends, near (its first four words longer than 3 letters
    that are not stop-words: "love" is not one), no summary and no
    suggested room, and the memory saved has no room id. *)
Theorem classify_hiking :
  forall (rt : Runtime) (rooms : list Room.t) (stateUserId : option string)
         (isVoice : bool),
    AIService.isConfigured rt = false ->
    TalkScreen.classify rt Sample.hiking
    = Ok {| TalkScreen.tags := Js.strings ["love"; "hiking"; "weekends"; "near"];
            TalkScreen.summary := Js.Undefined;
            TalkScreen.suggestedRoom := Js.Undefined |}
    /\ exists memory,
         TalkScreen.saveAsMemory rt rooms stateUserId Sample.hiking isVoice
         = Ok (Some memory)
         /\ TalkScreen.newTags memory = Js.strings ["love"; "hiking"; "weekends"; "near"]
         /\ TalkScreen.newSummary memory = Js.Undefined
         /\ TalkScreen.roomId memory = None.
Proof.
  intros rt rooms uid isVoice Hconf.
  assert (Hc := classify_unconfigured rt Sample.hiking Hconf).
  assert (Ht : TalkScreen.extractBasicTags Sample.hiking
               = ["love"; "hiking"; "weekends"; "near"]) by (vm_compute; reflexivity).
  unfold basicAnalysis in Hc. rewrite Ht in Hc.
  split; [exact Hc|].
  unfold TalkScreen.saveAsMemory, TalkScreen.buildMemory. rewrite Hc. simpl.
  eexists. split; [reflexivity|]. simpl. auto.
Qed.

Lemma classify_hiking_witness :
  AIService.isConfigured (Sample.runtime "" Sample.offline) = false
  /\ TalkScreen.classify (Sample.runtime "" Sample.offline) Sample.hiking
     = Ok {| TalkScreen.tags := Js.strings ["love"; "hiking"; "weekends"; "near"];
             TalkScreen.summary := Js.Undefined;
             TalkScreen.suggestedRoom := Js.Undefined |}.
Proof.
  split; [reflexivity|].
  apply (classify_hiking (Sample.runtime "" Sample.offline) Sample.rooms None false).
  reflexivity.
Defined.

(** C7 as stated fails: the tags hold "love", which is not one of hiking,
    weekends, near, lake, and the summary is undefined, not the truncated
    text. *)
Lemma hiking_tags_hold_love :
  let rt := Sample.runtime "" Sample.offline in
  AIService.isConfigured rt = false
  /\ exists vars,
       TalkScreen.classify rt Sample.hiking = Ok vars
       /\ TalkScreen.tags vars = Js.strings ["love"; "hiking"; "weekends"; "near"]
       /\ ~ In "love" ["hiking"; "weekends"; "near"; "lake"]
       /\ TalkScreen.summary vars <> Js.Str (AIService.truncated Sample.hiking).
Proof.
  split; [reflexivity|]. eexists. split; [vm_compute; reflexivity|].
  split; [reflexivity|]. split; [|discriminate].
  simpl. intuition discriminate.
Qed.

(** C8, as the code has it.  The basic tags of any text are at most four
    words of the letters a to z, each its own lower case, pairwise
    distinct also when compared without case; they are the tags of the
    classification whenever the gateway is not configured or its
    completion call throws.  (Tags that the gateway returns are taken as
    they come.) *)
Theorem basic_tags_are_distinct :
  forall (content : string),
    let tags := TalkScreen.extractBasicTags content in
    NoDup tags
    /\ NoDup (map Js.toLowerCase tags)
    /\ Forall (fun t => Js.toLowerCase t = t /\ Js.allChars Js.isLower t = true) tags
    /\ (List.length tags <= 4)%nat
    /\ forall rt,
         AIService.isConfigured rt = false
         \/ (exists e, fetchCompletion rt (analysisRequest content) = Throw e) ->
         exists vars,
           TalkScreen.classify rt content = Ok vars
           /\ TalkScreen.tags vars = Js.strings tags.
Proof.
  intros content tags.
  destruct (extractBasicTags_spec content) as [Hnd [Hlow Hlen]]. fold tags in Hnd, Hlow, Hlen.
  assert (Hfix : Forall (fun t => Js.toLowerCase t = t /\ Js.allChars Js.isLower t = true) tags).
  { eapply Forall_impl; [|exact Hlow]. intros t Ht. split; [|exact Ht].
    now apply toLowerCase_lower. }
  assert (Hmap : map Js.toLowerCase tags = tags).
  { clear -Hfix. induction Hfix as [|t l [Ht _] _ IH]; simpl; [reflexivity|].
    now rewrite Ht, IH. }
  split; [exact Hnd|]. split; [now rewrite Hmap|]. split; [exact Hfix|].
  split; [exact Hlen|].
  intros rt H. exists (basicAnalysis content). split; [|reflexivity].
  destruct (AIService.isConfigured rt) eqn:Hconf.
  - destruct H as [H|[e He]]; [discriminate|]. now apply classify_throws with e.
  - now apply classify_unconfigured.
Qed.

Lemma basic_tags_are_distinct_witness :
  exists vars,
    TalkScreen.classify (Sample.runtime "sk-ant" Sample.offline)
      "Lake lake LAKE! Hiking near the lake" = Ok vars
    /\ TalkScreen.tags vars = Js.strings ["lake"; "hiking"; "near"].
Proof.
  refine (proj2 (proj2 (proj2 (proj2
    (basic_tags_are_distinct "Lake lake LAKE! Hiking near the lake"))))
    (Sample.runtime "sk-ant" Sample.offline) _).
  right. eexists. reflexivity.
Defined.

(** C8 as stated fails: tags that the gateway returns reach the memory as
    they come, here "Work" and "work". *)
Lemma gateway_tags_pass_through :
  let rt := Sample.runtime "sk-ant" (Sample.replying Sample.twiceWork) in
  exists vars,
    TalkScreen.classify rt "Notes from the work meeting" = Ok vars
    /\ TalkScreen.tags vars = Js.strings ["Work"; "work"]
    /\ Js.toLowerCase "Work" = Js.toLowerCase "work"
    /\ Js.toLowerCase "Work" <> "Work".
Proof.
  eexists. split; [vm_compute; reflexivity|].
  split; [reflexivity|]. split; [reflexivity|]. discriminate.
Qed.


(** * Further properties *)

(** ** Sorted arrays *)

Section SortedFacts.
Context {A : Type} (cmp : A -> A -> Z) (key : A -> Z).
Hypothesis cmp_key : forall x y, cmp x y <= 0 <-> key x <= key y.

Let le (x y : A) : Prop := key x <= key y.

Lemma insert_sorted (x : A) (l : list A) :
  StronglySorted le l -> StronglySorted le (Js.insert cmp x l).
Proof.
  induction 1 as [|y l Hs IH Hall]; simpl.
  - repeat constructor.
  - destruct (cmp x y <=? 0) eqn:E.
    + apply Z.leb_le, cmp_key in E.
      constructor; [now constructor|].
      constructor; [exact E|].
      eapply Forall_impl; [|exact Hall]. unfold le. intros z Hz. lia.
    + apply Z.leb_gt in E.
      assert (Hyx : key y <= key x).
      { destruct (Z_le_gt_dec (key x) (key y)) as [H|H]; [|lia].
        apply cmp_key in H. lia. }
      constructor; [exact IH|].
      apply Forall_forall. intros z Hz.
      apply (Permutation_in _ (Permutation_sym (insert_perm cmp x l))) in Hz.
      destruct Hz as [<-|Hz]; [exact Hyx|].
      revert z Hz. now apply Forall_forall.
Qed.

(** A sort by a key leaves the array in the order of the key. *)
Lemma sort_sorted (l : list A) : StronglySorted le (Js.sort cmp l).
Proof.
  induction l as [|x l IH].
  - constructor.
  - change (Js.sort cmp (x :: l)) with (Js.insert cmp x (Js.sort cmp l)).
    now apply insert_sorted.
Qed.

(** The first of a sorted array has the least key. *)
Lemma sort_head_least (l rest : list A) (x y : A) :
  Js.sort cmp l = x :: rest -> In y l -> key x <= key y.
Proof.
  intros E Hy. pose proof (sort_sorted l) as Hs. rewrite E in Hs.
  apply (Permutation_in _ (sort_perm cmp l)) in Hy. rewrite E in Hy.
  inversion Hs as [|? ? _ Hall]; subst.
  destruct Hy as [<-|Hy]; [lia|].
  revert y Hy. now apply Forall_forall.
Qed.

End SortedFacts.

(** ** The batch as a whole *)

Section BatchFacts.
Import SurpriseEngine.
Variable invoke : Generator -> Exc (option Surprise.t).
Variable count : Z.

(** The loop takes the surprises the generators return, in order, until
    the batch holds [count] of them. *)
Lemma forOf_takes (shuffled : list Generator) :
  forall acc,
    forOf invoke count shuffled acc
    = Ok (acc ++ firstn (Z.to_nat count - List.length acc) (made invoke shuffled)).
Proof.
  induction shuffled as [|gen rest IH]; intro acc; simpl.
  - now rewrite firstn_nil, app_nil_r.
  - destruct (count <=? Z.of_nat (List.length acc)) eqn:Hbreak.
    + apply Z.leb_le in Hbreak.
      replace (Z.to_nat count - List.length acc)%nat with 0%nat by lia.
      now rewrite app_nil_r.
    + apply Z.leb_gt in Hbreak.
      unfold tryGenerator, made. simpl. fold (made invoke rest).
      destruct (Z.to_nat count - List.length acc)%nat as [|n] eqn:Hn; [lia|].
      destruct (invoke gen) as [[s|]|e]; simpl; rewrite IH.
      * rewrite length_app. simpl.
        replace (Z.to_nat count - (List.length acc + 1))%nat with n by lia.
        now rewrite <- app_assoc.
      * now rewrite Hn.
      * now rewrite Hn.
Qed.
End BatchFacts.

Lemma kindOf_injective (g1 g2 : Generator) : kindOf g1 = kindOf g2 -> g1 = g2.
Proof. destruct g1, g2; simpl; intro H; try reflexivity; discriminate H. Qed.

Lemma generators_NoDup (rt : Runtime) : NoDup (SurpriseEngine.generators rt).
Proof.
  unfold SurpriseEngine.generators.
  destruct (AIService.isConfigured rt); simpl;
    repeat (constructor; [simpl; intuition discriminate|]); constructor.
Qed.

Section MadeFacts.
Import SurpriseEngine.
Variable rt : Runtime.
Variable memories : list Memory.t.
Variable rooms : list Room.t.

Lemma made_by (gens : list Generator) (s : Surprise.t) :
  In s (made (runGenerator rt memories rooms) gens) ->
  exists g, In g gens /\ runGenerator rt memories rooms g = Ok (Some s).
Proof.
  unfold made. intro H. apply in_flat_map in H. destruct H as [g [Hg Hs]].
  exists g. split; [exact Hg|].
  destruct (runGenerator rt memories rooms g) as [[s'|]|e]; simpl in Hs;
    try contradiction.
  destruct Hs as [->|[]]. reflexivity.
Qed.

Lemma made_kinds (gens : list Generator) :
  NoDup gens -> NoDup (map Surprise.type (made (runGenerator rt memories rooms) gens)).
Proof.
  induction 1 as [|g gens Hnotin Hnd IH]; simpl; [constructor|].
  unfold made in *. simpl.
  destruct (runGenerator rt memories rooms g) as [[s|]|e] eqn:E; simpl; try exact IH.
  constructor; [|exact IH].
  intro Hin. apply in_map_iff in Hin. destruct Hin as [s' [Hk Hs']].
  apply made_by in Hs'. destruct Hs' as [g' [Hg' Hrun]].
  apply runGenerator_kind in Hrun. apply runGenerator_kind in E.
  rewrite Hrun, E in Hk. apply kindOf_injective in Hk. subst g'. contradiction.
Qed.

Lemma runGenerator_styled (gen : Generator) (s : Surprise.t) :
  runGenerator rt memories rooms gen = Ok (Some s) -> styled s.
Proof.
  destruct gen; simpl; intro H;
    [ unfold findOnThisDay in H | unfold findForgottenGem in H
    | unfold findPattern in H | unfold generateNudge in H
    | unfold generateMashup in H | unfold generateQuestion in H
    | unfold generateAIConnection in H | unfold generateAIIdeaSpark in H ];
    produced H; repeat split.
Qed.
End MadeFacts.

(** What [generateSurprises] returns for a non-empty collection. *)
Lemma generateSurprises_takes :
  forall (rt : Runtime) (memories : list Memory.t) (rooms : list Room.t) (count : Z),
    memories <> [] ->
    SurpriseEngine.generateSurprises rt memories rooms count
    = Ok (match firstn (Z.to_nat count)
                  (made (SurpriseEngine.runGenerator rt memories rooms)
                     (shuffleGenerators rt (SurpriseEngine.generators rt))) with
          | [] => [SurpriseEngine.generateRandomEncouragement rt memories]
          | batch => batch
          end).
Proof.
  intros rt memories rooms count Hne.
  unfold SurpriseEngine.generateSurprises, SurpriseEngine.generateSurprisesWith.
  destruct memories as [|m ms]; [congruence|].
  change (List.length (m :: ms) =? 0)%nat with false. cbv iota.
  rewrite forOf_takes. simpl List.length. rewrite Nat.sub_0_r. simpl app at 1.
  unfold bind.
  destruct (firstn (Z.to_nat count) _) as [|s batch]; reflexivity.
Qed.

(** X1. For a non-empty collection, the batch [generateSurprises] returns
    is made of the first [count] surprises that the shuffled generators
    return, in the order of the shuffle; it is the encouragement alone
    when there is none. *)
Theorem batch_is_first_made :
  forall (rt : Runtime) (memories : list Memory.t) (rooms : list Room.t) (count : Z),
    memories <> [] ->
    SurpriseEngine.generateSurprises rt memories rooms count
    = Ok (match firstn (Z.to_nat count)
                  (made (SurpriseEngine.runGenerator rt memories rooms)
                     (shuffleGenerators rt (SurpriseEngine.generators rt))) with
          | [] => [SurpriseEngine.generateRandomEncouragement rt memories]
          | batch => batch
          end).
Proof. exact generateSurprises_takes. Qed.

Lemma batch_is_first_made_witness :
  exists s1 s2,
    SurpriseEngine.generateSurprises (Sample.runtime "" Sample.offline)
      Sample.memories Sample.rooms 2 = Ok [s1; s2]
    /\ firstn 2 (made (SurpriseEngine.runGenerator (Sample.runtime "" Sample.offline)
                         Sample.memories Sample.rooms)
                   (rev (SurpriseEngine.generators (Sample.runtime "" Sample.offline))))
       = [s1; s2]
    /\ Surprise.type s1 = question /\ Surprise.type s2 = mashup.
Proof.
  do 2 eexists. split.
  - rewrite (batch_is_first_made (Sample.runtime "" Sample.offline)
               Sample.memories Sample.rooms 2); [|discriminate].
    vm_compute. reflexivity.
  - split; [vm_compute; reflexivity|]. split; reflexivity.
Defined.

(** X2. No two surprises of a batch have the same kind, so a batch holds
    at most eight: each generator is asked at most once and makes its own
    kind. *)
Theorem batch_kinds_differ :
  forall (rt : Runtime) (memories : list Memory.t) (rooms : list Room.t)
         (count : Z) (batch : list Surprise.t),
    RuntimeOK rt ->
    SurpriseEngine.generateSurprises rt memories rooms count = Ok batch ->
    NoDup (map Surprise.type batch) /\ (List.length batch <= 8)%nat.
Proof.
  intros rt memories rooms count batch OK Hrun.
  assert (Hnd : NoDup (map Surprise.type batch)).
  { destruct memories as [|m ms].
    - inversion Hrun; subst. simpl. repeat constructor. intros [].
    - rewrite generateSurprises_takes in Hrun by discriminate.
      inversion Hrun as [E]; clear Hrun.
      assert (Hall : NoDup (map Surprise.type
                (made (SurpriseEngine.runGenerator rt (m :: ms) rooms)
                   (shuffleGenerators rt (SurpriseEngine.generators rt))))).
      { apply made_kinds. eapply Permutation_NoDup;
          [apply (shuffleGenerators_perm rt OK) | apply generators_NoDup]. }
      pose proof (slice0_NoDup (Z.to_nat count) _ Hall) as Hcut.
      unfold Js.slice0 in Hcut. rewrite firstn_map in Hcut.
      destruct (firstn (Z.to_nat count) _) as [|s b].
      + simpl. repeat constructor. intros [].
      + exact Hcut. }
  split; [exact Hnd|].
  rewrite <- (length_map Surprise.type).
  change 8%nat with (List.length [on_this_day; connection; idea_spark; forgotten_gem;
                                   pattern; nudge; mashup; question]).
  apply NoDup_incl_length; [exact Hnd|].
  intros k _. destruct k; simpl; tauto.
Qed.

Lemma batch_kinds_differ_witness :
  exists batch,
    SurpriseEngine.generateSurprises
      (Sample.runtime "sk-ant" (Sample.replying {| text := "Both grow."; json := None |}))
      Sample.memories Sample.rooms 8 = Ok batch
    /\ NoDup (map Surprise.type batch) /\ List.length batch = 8%nat.
Proof.
  eexists. split; [vm_compute; reflexivity|].
  split; [|reflexivity].
  refine (proj1 (batch_kinds_differ
    (Sample.runtime "sk-ant" (Sample.replying {| text := "Both grow."; json := None |}))
    Sample.memories Sample.rooms 8 _ (sample_runtime_ok _ _) eq_refl)).
Defined.

(** X3. Every surprise [generateSurprises] returns carries the icon and
    the gradient that [SURPRISE_STYLES] gives its kind. *)
Theorem surprises_are_styled :
  forall (rt : Runtime) (memories : list Memory.t) (rooms : list Room.t)
         (count : Z) (batch : list Surprise.t) (s : Surprise.t),
    SurpriseEngine.generateSurprises rt memories rooms count = Ok batch ->
    In s batch ->
    styled s.
Proof.
  intros rt memories rooms count batch s Hrun Hs.
  destruct memories as [|m ms].
  - inversion Hrun; subst. destruct Hs as [<-|[]]. repeat split.
  - rewrite generateSurprises_takes in Hrun by discriminate.
    inversion Hrun as [E]; clear Hrun.
    destruct (firstn (Z.to_nat count) _) as [|s0 b] eqn:Hcut; subst batch.
    + destruct Hs as [<-|[]]. repeat split.
    + rewrite <- Hcut in Hs. apply (slice0_incl (Z.to_nat count)) in Hs.
      apply made_by in Hs. destruct Hs as [g [_ Hg]].
      now apply runGenerator_styled in Hg.
Qed.

Lemma surprises_are_styled_witness :
  exists s,
    SurpriseEngine.generateSurprises (Sample.runtime "" Sample.offline)
      Sample.memories Sample.rooms 1 = Ok [s]
    /\ Surprise.icon s = "help-circle"
    /\ styled s.
Proof.
  eexists. split; [vm_compute; reflexivity|]. split; [reflexivity|].
  eapply (surprises_are_styled (Sample.runtime "" Sample.offline)
            Sample.memories Sample.rooms 1).
  - vm_compute. reflexivity.
  - now left.
Defined.

(** ** Forgotten gems *)




(** ** Counting with a map *)

Section CountingFacts.

Lemma countGet_countSet_same (m : list (string * Z)) (k : string) (v : Z) :
  Js.countGet (Js.countSet m k v) k = Some v.
Proof.
  induction m as [|[k' v'] m IH]; simpl.
  - now rewrite String.eqb_refl.
  - destruct (String.eqb k k') eqn:E; simpl; rewrite E; [reflexivity | exact IH].
Qed.

Lemma countGet_countSet_other (m : list (string * Z)) (k k' : string) (v : Z) :
  k' <> k -> Js.countGet (Js.countSet m k v) k' = Js.countGet m k'.
Proof.
  intro Hne. induction m as [|[k0 v0] m IH]; simpl.
  - apply String.eqb_neq in Hne. now rewrite Hne.
  - destruct (String.eqb k k0) eqn:E; simpl.
    + apply String.eqb_eq in E. subst k0.
      apply String.eqb_neq in Hne. now rewrite Hne.
    + destruct (String.eqb k' k0); [reflexivity | exact IH].
Qed.

Lemma countOr0_countUp (m : list (string * Z)) (k k' : string) :
  countOr0 (Js.countUp m k) k'
  = countOr0 m k' + (if string_dec k k' then 1 else 0).
Proof.
  unfold countOr0, Js.countUp.
  destruct (string_dec k k') as [<-|Hne].
  - rewrite countGet_countSet_same. reflexivity.
  - rewrite countGet_countSet_other by congruence. lia.
Qed.

Lemma countOr0_fold (tags : list string) :
  forall m k,
    countOr0 (fold_left Js.countUp tags m) k
    = countOr0 m k + Z.of_nat (count_occ string_dec tags k).
Proof.
  induction tags as [|t tags IH]; intros m k; simpl; [lia|].
  rewrite IH, countOr0_countUp.
  destruct (string_dec t k); lia.
Qed.

Lemma countUp_fold_keys (tags : list string) :
  forall m, NoDup (map fst m) -> NoDup (map fst (fold_left Js.countUp tags m)).
Proof.
  induction tags as [|t tags IH]; intros m Hnd; simpl; [exact Hnd|].
  apply IH.
  apply (countUp_keys (fun _ => True) m t Hnd); [|exact I].
  apply Forall_forall. intros; exact I.
Qed.

(** The map [findPattern] fills holds, for each tag, the number of times
    it is written on the memories; its keys are distinct. *)
Lemma tagCounts_spec (memories : list Memory.t) :
  NoDup (map fst (SurpriseEngine.tagCounts memories))
  /\ forall k, countOr0 (SurpriseEngine.tagCounts memories) k = occurrences k memories.
Proof.
  unfold SurpriseEngine.tagCounts, occurrences.
  assert (G : forall (m : list (string * Z)),
             NoDup (map fst m) ->
             NoDup (map fst (fold_left
                      (fun counts x => fold_left Js.countUp (Memory.tags x) counts)
                      memories m))
             /\ forall k,
                  countOr0 (fold_left
                      (fun counts x => fold_left Js.countUp (Memory.tags x) counts)
                      memories m) k
                  = countOr0 m k
                    + Z.of_nat (count_occ string_dec (flat_map Memory.tags memories) k)).
  { induction memories as [|x l IH]; intros m Hnd; simpl.
    - split; [exact Hnd | intro; lia].
    - destruct (IH (fold_left Js.countUp (Memory.tags x) m)
                  (countUp_fold_keys _ _ Hnd)) as [H1 H2].
      split; [exact H1|]. intro k.
      rewrite H2, countOr0_fold, count_occ_app. lia. }
  destruct (G [] (NoDup_nil _)) as [H1 H2].
  split; [exact H1|]. intro k. rewrite H2. reflexivity.
Qed.

Lemma countGet_In (m : list (string * Z)) (k : string) (v : Z) :
  Js.countGet m k = Some v -> In (k, v) m.
Proof.
  induction m as [|[k' v'] m IH]; simpl; [discriminate|].
  destruct (String.eqb k k') eqn:E.
  - apply String.eqb_eq in E. intro H. inversion H; subst. now left.
  - intro H. right. now apply IH.
Qed.

Lemma In_countGet (m : list (string * Z)) (k : string) (v : Z) :
  NoDup (map fst m) -> In (k, v) m -> Js.countGet m k = Some v.
Proof.
  induction m as [|[k' v'] m IH]; simpl; intros Hnd Hin; [destruct Hin|].
  inversion Hnd as [|? ? Hnotin Hnd']; subst.
  destruct Hin as [Hin|Hin].
  - inversion Hin; subst. now rewrite String.eqb_refl.
  - destruct (String.eqb k k') eqn:E.
    + apply String.eqb_eq in E. subst k'. exfalso. apply Hnotin.
      change k with (fst (k, v)). now apply in_map.
    + now apply IH.
Qed.

Lemma countGet_positive (tags : list string) :
  forall m k v,
    (forall k' v', Js.countGet m k' = Some v' -> 1 <= v') ->
    Js.countGet (fold_left Js.countUp tags m) k = Some v -> 1 <= v.
Proof.
  induction tags as [|t tags IH]; intros m k v Hm H; simpl in H; [eauto|].
  apply (IH (Js.countUp m t) k v); [|exact H].
  intros k' v' H'. unfold Js.countUp in H'.
  destruct (string_dec k' t) as [->|Hne].
  - rewrite countGet_countSet_same in H'. inversion H'; subst.
    destruct (Js.countGet m t) as [v0|] eqn:E; [|lia].
    specialize (Hm t v0 E). lia.
  - rewrite countGet_countSet_other in H' by exact Hne. eauto.
Qed.
End CountingFacts.

(** An entry of the map is a tag with the number of times it is
    written. *)
Lemma tagCounts_entry (memories : list Memory.t) (k : string) (v : Z) :
  In (k, v) (SurpriseEngine.tagCounts memories) -> v = occurrences k memories.
Proof.
  intro Hin. destruct (tagCounts_spec memories) as [Hnd Hocc].
  rewrite <- Hocc. unfold countOr0. now rewrite (In_countGet _ _ _ Hnd Hin).
Qed.

Lemma tagCounts_has (memories : list Memory.t) (k : string) :
  1 <= occurrences k memories ->
  In (k, occurrences k memories) (SurpriseEngine.tagCounts memories).
Proof.
  intro H. destruct (tagCounts_spec memories) as [_ Hocc].
  specialize (Hocc k). unfold countOr0 in Hocc.
  destruct (Js.countGet (SurpriseEngine.tagCounts memories) k) as [v|] eqn:E; [|lia].
  subst v. now apply countGet_In.
Qed.

(** ** Patterns *)

(** X5. [findPattern] never throws; it returns nothing exactly when there
    are fewer than 3 memories or no tag is written 3 times on the 20 first
    memories; the tag it reports is written at least 3 times there, no tag
    more often, the number it reports is that count, and it relates at
    most 3 memories, the first of those 20 that carry the tag. *)
Theorem pattern_is_most_frequent :
  forall (rt : Runtime) (memories : list Memory.t),
    let recent := Js.slice0 20 memories in
    (exists r, SurpriseEngine.findPattern rt memories = Ok r
               /\ (r = None <->
                   (List.length memories < 3)%nat
                   \/ forall t, occurrences t recent < 3))
    /\ forall s,
         SurpriseEngine.findPattern rt memories = Ok (Some s) ->
         exists tag,
           3 <= occurrences tag recent
           /\ (forall t, occurrences t recent <= occurrences tag recent)
           /\ Surprise.content s
              = (Js.dq ++ tag ++ Js.dq ++ " keeps coming up in your thoughts ("
                 ++ Js.showZ (occurrences tag recent)
                 ++ " times recently). Seems like something important to you.")%string
           /\ Surprise.relatedMemoryIds s
              = map Memory.id
                  (Js.slice0 3
                     (filter (fun m => Js.inStrings tag (Memory.tags m)) recent))
           /\ (List.length (Surprise.relatedMemoryIds s) <= 3)%nat.
Proof.
  intros rt memories recent.
  unfold SurpriseEngine.findPattern. fold recent.
  set (entries := SurpriseEngine.tagCounts recent).
  set (frequent := filter (fun e : string * Z => 3 <=? snd e) entries).
  set (cmp := fun a b : string * Z => snd b - snd a).
  assert (Hperm : Permutation frequent (Js.sort cmp frequent)) by apply sort_perm.
  assert (Hfreq : forall t, 3 <= occurrences t recent ->
                            In (t, occurrences t recent) frequent).
  { intros t Ht. apply filter_In. split; [apply tagCounts_has; lia|].
    now apply Z.leb_le. }
  destruct (List.length memories <? 3)%nat eqn:Hfew.
  - apply Nat.ltb_lt in Hfew. split; [|discriminate].
    exists None. split; [reflexivity|]. split; auto.
  - apply Nat.ltb_ge in Hfew.
    destruct (Js.sort cmp frequent) as [|[tag count] rest] eqn:Hsort.
    + split; [|discriminate].
      exists None. split; [reflexivity|]. split; [|reflexivity].
      intros _. right. intro t.
      destruct (Z_lt_ge_dec (occurrences t recent) 3) as [H|H]; [exact H|exfalso].
      pose proof (Hfreq t ltac:(lia)) as Hin.
      apply (Permutation_in _ Hperm) in Hin. destruct Hin.
    + assert (Hhead : In (tag, count) frequent).
      { apply (Permutation_in _ (Permutation_sym Hperm)). now left. }
      unfold frequent in Hhead. apply filter_In in Hhead.
      destruct Hhead as [Hentry Hthree]. simpl in Hthree. apply Z.leb_le in Hthree.
      apply tagCounts_entry in Hentry. subst count.
      split.
      * eexists. split; [reflexivity|]. split; [discriminate|].
        intros [H|H]; [lia|]. specialize (H tag). lia.
      * intros s Hs. inversion Hs; subst s; clear Hs. simpl.
        exists tag. split; [exact Hthree|]. split; [|split; [reflexivity|split]].
        -- intro t.
           destruct (Z_lt_ge_dec (occurrences t recent) 3) as [H|H]; [lia|].
           assert (Hle := sort_head_least cmp (fun e => - snd e)
                            (fun x y => ltac:(unfold cmp; lia))
                            frequent rest _ _ Hsort (Hfreq t ltac:(lia))).
           simpl in Hle. lia.
        -- reflexivity.
        -- rewrite length_map. apply firstn_le_length.
Qed.

Lemma pattern_is_most_frequent_witness :
  exists s tag,
    SurpriseEngine.findPattern (Sample.runtime "" Sample.offline) Sample.memories
    = Ok (Some s)
    /\ 3 <= occurrences tag (Js.slice0 20 Sample.memories)
    /\ Surprise.relatedMemoryIds s
       = map Memory.id
           (Js.slice0 3
              (filter (fun m => Js.inStrings tag (Memory.tags m))
                 (Js.slice0 20 Sample.memories))).
Proof.
  destruct (pattern_is_most_frequent (Sample.runtime "" Sample.offline)
              Sample.memories) as [_ Hshown].
  destruct (SurpriseEngine.findPattern (Sample.runtime "" Sample.offline)
              Sample.memories) as [[s|]|e] eqn:E;
    [|vm_compute in E; discriminate E|vm_compute in E; discriminate E].
  destruct (Hshown s eq_refl) as [tag [H3 [_ [_ [Hrel _]]]]].
  exists s, tag. auto.
Defined.

(** ** Nudges *)

Lemma fold_max_spec (ts : list Z) :
  forall t,
    (forall x, In x (t :: ts) -> x <= fold_left Z.max ts t)
    /\ In (fold_left Z.max ts t) (t :: ts).
Proof.
  induction ts as [|u ts IH]; intro t; simpl.
  - split; [intros x [<-|[]]; lia | now left].
  - destruct (IH (Z.max t u)) as [H1 H2]. split.
    + intros x [<-|[<-|Hx]].
      * specialize (H1 (Z.max t u) (or_introl eq_refl)). lia.
      * specialize (H1 (Z.max t u) (or_introl eq_refl)). lia.
      * apply H1. now right.
    + destruct H2 as [H2|H2]; [|tauto].
      rewrite <- H2. destruct (Z.max_spec t u) as [[_ ->]|[_ ->]]; tauto.
Qed.

(** What [generateNudge] knows of a room: the number of its memories and
    the time of the latest. *)
Lemma roomActivity_spec (memories : list Memory.t) (r : Room.t) :
  let activity := SurpriseEngine.roomActivity memories r in
  SurpriseEngine.room activity = r
  /\ SurpriseEngine.memoryCount activity = List.length (roomMemories memories r)
  /\ (forall m, In m (roomMemories memories r) ->
                Memory.createdAt m <= SurpriseEngine.lastActivity activity)
  /\ (roomMemories memories r <> [] ->
      exists m, In m (roomMemories memories r)
                /\ Memory.createdAt m = SurpriseEngine.lastActivity activity).
Proof.
  unfold SurpriseEngine.roomActivity. fold (roomMemories memories r). simpl.
  split; [reflexivity|]. split; [reflexivity|].
  destruct (roomMemories memories r) as [|m0 ms]; simpl.
  - split; [intros m []|congruence].
  - destruct (fold_max_spec (map Memory.createdAt ms) (Memory.createdAt m0)) as [H1 H2].
    split.
    + intros m Hm. apply H1.
      change (In (Memory.createdAt m) (map Memory.createdAt (m0 :: ms))).
      now apply in_map.
    + intros _.
      change (In (fold_left Z.max (map Memory.createdAt ms) (Memory.createdAt m0))
                (map Memory.createdAt (m0 :: ms))) in H2.
      apply in_map_iff in H2. destruct H2 as [m [E Hm]]. now exists m.
Qed.

Lemma roomMemories_In (memories : list Memory.t) (r : Room.t) (m : Memory.t) :
  In m (roomMemories memories r)
  <-> In m memories /\ Memory.roomId m = Some (Room.id r).
Proof.
  unfold roomMemories. rewrite filter_In.
  destruct (Memory.roomId m) as [i|].
  - rewrite String.eqb_eq. split; intros [H1 H2]; (split; [exact H1|]); congruence.
  - split; intros [_ H]; discriminate.
Qed.

Lemma latest_unique (memories : list Memory.t) (r : Room.t) (t u : Z) :
  latest memories r t -> latest memories r u -> t = u.
Proof.
  intros [[m [H1 [H2 H3]]] Ht] [[m' [H1' [H2' H3']]] Hu].
  specialize (Ht m' H1' H2'). specialize (Hu m H1 H2). lia.
Qed.

(** What [generateNudge] keeps of a room with memories: the time of its
    latest memory. *)
Lemma roomActivity_latest (memories : list Memory.t) (r : Room.t) :
  let activity := SurpriseEngine.roomActivity memories r in
  ((0 < SurpriseEngine.memoryCount activity)%nat ->
   latest memories r (SurpriseEngine.lastActivity activity))
  /\ forall t, latest memories r t ->
               (0 < SurpriseEngine.memoryCount activity)%nat
               /\ SurpriseEngine.lastActivity activity = t.
Proof.
  destruct (roomActivity_spec memories r) as [_ [Hc [Hmax Hlast]]].
  cbv zeta.
  assert (Hl : (0 < SurpriseEngine.memoryCount (SurpriseEngine.roomActivity memories r))%nat ->
               latest memories r
                 (SurpriseEngine.lastActivity (SurpriseEngine.roomActivity memories r))).
  { intro Hpos. rewrite Hc in Hpos.
    destruct Hlast as [m [Hm E]].
    { destruct (roomMemories memories r); [simpl in Hpos; lia | discriminate]. }
    apply roomMemories_In in Hm. split.
    - exists m. tauto.
    - intros x H1 H2. apply Hmax. apply roomMemories_In. tauto. }
  split; [exact Hl|].
  intros t Ht.
  assert (Hpos : (0 < SurpriseEngine.memoryCount (SurpriseEngine.roomActivity memories r))%nat).
  { rewrite Hc. destruct Ht as [[m [H1 [H2 _]]] _].
    assert (Hm : In m (roomMemories memories r)) by (apply roomMemories_In; tauto).
    destruct (roomMemories memories r); [destruct Hm | simpl; lia]. }
  split; [exact Hpos|]. exact (latest_unique _ _ _ _ (Hl Hpos) Ht).
Qed.

(** X6. [generateNudge] never throws.  It returns nothing exactly when no
    room is neglected, that is, has memories in the collection the latest
    of which was created 8 times 24 hours or more from now.  The room it
    names is neglected, and no neglected room has an earlier latest
    memory.  The days its text counts are the whole days of 24 hours
    between that latest memory and now, the count of memories is the number
    of memories of the room in the collection (the [memoryCount] field of
    the room is not read), and it relates no memory. *)
Theorem nudge_is_most_neglected :
  forall (rt : Runtime) (memories : list Memory.t) (rooms : list Room.t),
    (exists r, SurpriseEngine.generateNudge rt memories rooms = Ok r
               /\ (r = None <->
                   forall room t, In room rooms -> ~ neglected rt memories room t))
    /\ forall s,
         SurpriseEngine.generateNudge rt memories rooms = Ok (Some s) ->
         exists room t days,
           In room rooms
           /\ neglected rt memories room t
           /\ (forall other u, In other rooms -> neglected rt memories other u -> t <= u)
           /\ days * Utc.msPerDay <= Z.abs (now rt - t) < (days + 1) * Utc.msPerDay
           /\ Surprise.content s
              = ("Your " ++ Js.dq ++ Room.name room ++ Js.dq ++ " room has "
                 ++ Js.showZ (Z.of_nat (List.length (roomMemories memories room)))
                 ++ " memories but hasn't seen you in " ++ Js.showZ days
                 ++ " days. Any new thoughts?")%string
           /\ Surprise.relatedMemoryIds s = [].
Proof.
  intros rt memories rooms.
  unfold SurpriseEngine.generateNudge.
  set (keep := fun r : SurpriseEngine.Activity =>
                 (0 <? SurpriseEngine.memoryCount r)%nat
                 && (7 <? SurpriseEngine.daysBetween (SurpriseEngine.lastActivity r) (now rt))).
  set (cmp := fun a b : SurpriseEngine.Activity =>
                SurpriseEngine.lastActivity a - SurpriseEngine.lastActivity b).
  set (candidates := filter keep (map (SurpriseEngine.roomActivity memories) rooms)).
  assert (Hperm : Permutation candidates (Js.sort cmp candidates)) by apply sort_perm.
  assert (Hdays : forall t, 7 < SurpriseEngine.daysBetween t (now rt)
                            <-> 8 * Utc.msPerDay <= Z.abs (now rt - t)).
  { intro t. rewrite <- (daysBetween_le t (now rt) 8). lia. }
  assert (Hcand : forall room t, In room rooms -> neglected rt memories room t ->
                    In (SurpriseEngine.roomActivity memories room) candidates
                    /\ SurpriseEngine.lastActivity
                         (SurpriseEngine.roomActivity memories room) = t).
  { intros room t Hin [Hl Hd].
    destruct (proj2 (roomActivity_latest memories room) t Hl) as [Hpos Ht].
    split; [|exact Ht]. apply filter_In. split; [now apply in_map|].
    unfold keep. apply andb_true_iff. split; [now apply Nat.ltb_lt|].
    apply Z.ltb_lt. rewrite Ht. now apply Hdays. }
  assert (Hback : forall a, In a candidates ->
                    exists room, In room rooms
                                 /\ a = SurpriseEngine.roomActivity memories room
                                 /\ neglected rt memories room
                                      (SurpriseEngine.lastActivity a)).
  { intros a Ha. apply filter_In in Ha. destruct Ha as [Ha Hk].
    apply in_map_iff in Ha. destruct Ha as [room [<- Hin]].
    exists room. split; [exact Hin|]. split; [reflexivity|].
    unfold keep in Hk. apply andb_true_iff in Hk. destruct Hk as [Hc Hd].
    apply Nat.ltb_lt in Hc. apply Z.ltb_lt in Hd.
    split; [now apply (proj1 (roomActivity_latest memories room)) | now apply Hdays]. }
  destruct (List.length rooms =? 0)%nat eqn:Hnone.
  - apply Nat.eqb_eq, length_zero_iff_nil in Hnone. subst rooms.
    split; [|discriminate]. exists None. split; [reflexivity|].
    split; [intros _ room t []|reflexivity].
  - destruct (Js.sort cmp candidates) as [|first rest] eqn:Hsort.
    + split; [|discriminate]. exists None. split; [reflexivity|].
      split; [|reflexivity]. intros _ room t Hin Hneg.
      destruct (Hcand room t Hin Hneg) as [H _].
      apply (Permutation_in _ Hperm) in H. destruct H.
    + assert (Hfirst : In first candidates)
        by (apply (Permutation_in _ (Permutation_sym Hperm)); now left).
      destruct (Hback first Hfirst) as [room [Hin [-> Hneg]]].
      split.
      * eexists. split; [reflexivity|]. split; [discriminate|].
        intro H. exfalso. exact (H room _ Hin Hneg).
      * intros s Hs. inversion Hs; subst s; clear Hs. simpl.
        destruct (roomActivity_spec memories room) as [Hr [Hc _]].
        set (t := SurpriseEngine.lastActivity (SurpriseEngine.roomActivity memories room))
          in *.
        exists room, t, (SurpriseEngine.daysBetween t (now rt)).
        split; [exact Hin|]. split; [exact Hneg|].
        split; [|split; [|split; [|reflexivity]]].
        -- intros other u Hother Hneg'.
           destruct (Hcand other u Hother Hneg') as [Hc' <-].
           exact (sort_head_least cmp SurpriseEngine.lastActivity
                    (fun x y => ltac:(unfold cmp; lia))
                    candidates rest _ _ Hsort Hc').
        -- pose proof (proj1 (daysBetween_le t (now rt) _) (Z.le_refl _)) as Hlo.
           split; [exact Hlo|].
           destruct (Z.lt_ge_cases (Z.abs (now rt - t))
                       ((SurpriseEngine.daysBetween t (now rt) + 1) * Utc.msPerDay))
             as [H|H]; [exact H|].
           apply (daysBetween_le t (now rt)) in H. lia.
        -- reflexivity.
Qed.

Lemma nudge_is_most_neglected_witness :
  exists s room t,
    SurpriseEngine.generateNudge (Sample.runtime "" Sample.offline)
      Sample.memories Sample.rooms = Ok (Some s)
    /\ In room Sample.rooms
    /\ neglected (Sample.runtime "" Sample.offline) Sample.memories room t
    /\ Surprise.content s
       = ("Your " ++ Js.dq ++ "Work & Projects" ++ Js.dq
          ++ " room has 2 memories but hasn't seen you in 39 days. Any new thoughts?")%string
    /\ Surprise.relatedMemoryIds s = [].
Proof.
  destruct (nudge_is_most_neglected (Sample.runtime "" Sample.offline)
              Sample.memories Sample.rooms) as [_ Hshown].
  destruct (SurpriseEngine.generateNudge (Sample.runtime "" Sample.offline)
              Sample.memories Sample.rooms) as [[s|]|e] eqn:E;
    [|vm_compute in E; discriminate E|vm_compute in E; discriminate E].
  destruct (Hshown s eq_refl) as [room [t [days [Hin [Hneg [_ [_ [_ Hrel]]]]]]]].
  exists s, room, t. split; [reflexivity|]. split; [exact Hin|].
  split; [exact Hneg|]. split; [|exact Hrel].
  vm_compute in E. inversion E. reflexivity.
Defined.

(** ** The texts of the surprises *)

Lemma substring0_length (n : nat) (s : string) :
  (String.length (Js.substring0 n s) <= n)%nat.
Proof.
  unfold Js.substring0. revert s.
  induction n as [|n IH]; intros [|c s]; simpl; try lia.
  specialize (IH s). lia.
Qed.

Lemma nth_random_In (rt : Runtime) (d : Draw) (l : list string) :
  RuntimeOK rt -> l <> [] ->
  In (nth (Js.floorTimes (random rt d) (List.length l)) l "") l.
Proof.
  intros OK Hne. apply nth_In.
  destruct (random_range rt OK d) as [H0 H1].
  apply floorTimes_lt; [exact H0 | exact H1 |].
  destruct l; [congruence | simpl; lia].
Qed.

(** X7. The text of a question is one of the seven questions of
    [generateQuestion], and the text of the encouragement one of its
    three messages: the random index never leaves the array.  A question
    is made for every non-empty collection and relates its first two
    memories at most. *)
Theorem texts_are_templates :
  forall (rt : Runtime) (memories : list Memory.t),
    RuntimeOK rt ->
    memories <> [] ->
    (exists s,
        SurpriseEngine.generateQuestion rt memories = Ok (Some s)
        /\ In (Surprise.content s) (SurpriseEngine.questions rt memories)
        /\ List.length (SurpriseEngine.questions rt memories) = 7%nat
        /\ Surprise.relatedMemoryIds s = map Memory.id (Js.slice0 2 memories)
        /\ (1 <= List.length (Surprise.relatedMemoryIds s) <= 2)%nat)
    /\ In (Surprise.content (SurpriseEngine.generateRandomEncouragement rt memories))
          (SurpriseEngine.encouragements memories).
Proof.
  intros rt memories OK Hne. split.
  - unfold SurpriseEngine.generateQuestion.
    destruct memories as [|m ms]; [congruence|].
    change (List.length (m :: ms) =? 0)%nat with false. cbv iota.
    eexists. split; [reflexivity|]. cbn [Surprise.content SurpriseEngine.makeSurprise
                                         Surprise.relatedMemoryIds].
    split; [apply nth_random_In; [exact OK | discriminate]|].
    split; [reflexivity|]. split; [reflexivity|].
    rewrite length_map. unfold Js.slice0. destruct ms; simpl; lia.
  - unfold SurpriseEngine.generateRandomEncouragement.
    cbn [Surprise.content SurpriseEngine.makeSurprise].
    apply nth_random_In; [exact OK | discriminate].
Qed.

Lemma texts_are_templates_witness :
  exists s,
    SurpriseEngine.generateQuestion (Sample.runtime "" Sample.offline) Sample.memories
    = Ok (Some s)
    /\ In (Surprise.content s)
          (SurpriseEngine.questions (Sample.runtime "" Sample.offline) Sample.memories).
Proof.
  destruct (texts_are_templates (Sample.runtime "" Sample.offline) Sample.memories
              (sample_runtime_ok _ _)) as [[s [Hs [Hin _]]] _]; [discriminate|].
  exists s. auto.
Defined.

Lemma chat_answers (rt : Runtime) (msgs : list Message.t) (prompt : option string)
    (reply : Reply) :
  AIService.chat rt msgs prompt = Ok reply ->
  AIService.isConfigured rt = true
  /\ exists body, fetchCompletion rt body = Ok reply.
Proof.
  unfold AIService.chat.
  destruct (AIService.isConfigured rt); simpl; [|discriminate].
  intro H. split; [reflexivity|]. eauto.
Qed.

(** X8. A surprise of [generateAIConnection] or [generateAIIdeaSpark]
    exists only when the gateway is configured and answered, and its text
    is the first 200 characters of the answer at most.  And with no tag on
    the 10 first memories [generateAIIdeaSpark] returns nothing, whatever
    the gateway. *)
Theorem ai_texts_are_cut :
  forall (rt : Runtime) (memories : list Memory.t),
    (forall s,
        SurpriseEngine.generateAIConnection rt memories = Ok (Some s)
        \/ SurpriseEngine.generateAIIdeaSpark rt memories = Ok (Some s) ->
        AIService.isConfigured rt = true
        /\ (exists body reply,
               fetchCompletion rt body = Ok reply
               /\ Surprise.content s = Js.substring0 200 (text reply))
        /\ (String.length (Surprise.content s) <= 200)%nat)
    /\ (flat_map Memory.tags (Js.slice0 10 memories) = [] ->
        SurpriseEngine.generateAIIdeaSpark rt memories = Ok None).
Proof.
  intros rt memories. split.
  - intros s [H|H].
    + unfold SurpriseEngine.generateAIConnection in H.
      destruct (List.length memories <? 3)%nat; [discriminate|].
      destruct (shuffleMemories rt GenerateAIConnection memories) as [|m1 rest];
        [discriminate|].
      match type of H with match ?c with _ => _ end = _ => destruct c as [m2|] end;
        [|discriminate].
      match type of H with bind ?c _ = _ => destruct c as [reply|e] eqn:Hchat end;
        [|discriminate].
      apply chat_answers in Hchat. destruct Hchat as [Hconf [body Hbody]].
      simpl in H. inversion H; subst s; clear H. simpl.
      split; [exact Hconf|]. split; [eauto|apply substring0_length].
    + unfold SurpriseEngine.generateAIIdeaSpark in H.
      destruct (List.length memories <? 2)%nat; [discriminate|].
      match type of H with (if ?c then _ else _) = _ => destruct c end;
        [discriminate|].
      match type of H with bind ?c _ = _ => destruct c as [reply|e] eqn:Hchat end;
        [|discriminate].
      apply chat_answers in Hchat. destruct Hchat as [Hconf [body Hbody]].
      simpl in H. inversion H; subst s; clear H. simpl.
      split; [exact Hconf|]. split; [eauto|apply substring0_length].
  - intro Hnone. unfold SurpriseEngine.generateAIIdeaSpark. rewrite Hnone.
    destruct (List.length memories <? 2)%nat; reflexivity.
Qed.

Lemma ai_texts_are_cut_witness :
  let rt := Sample.runtime "sk-ant"
              (Sample.replying {| text := "Both grow."; json := None |}) in
  exists s,
    SurpriseEngine.generateAIIdeaSpark rt Sample.memories = Ok (Some s)
    /\ (String.length (Surprise.content s) <= 200)%nat.
Proof.
  intro rt.
  destruct (SurpriseEngine.generateAIIdeaSpark rt Sample.memories) as [[s|]|e] eqn:E;
    [|vm_compute in E; discriminate E|vm_compute in E; discriminate E].
  exists s. split; [reflexivity|].
  exact (proj2 (proj2 (proj1 (ai_texts_are_cut rt Sample.memories) s (or_intror E)))).
Defined.

Lemma roundDiv_at_least_one (n d : Z) : 0 < d -> d <= n -> 1 <= Js.roundDiv n d.
Proof.
  intros Hd Hn. unfold Js.roundDiv.
  apply Z.div_le_lower_bound; lia.
Qed.

(** X9. The label of an "On This Day" surprise counts at least one week,
    and counts months, at least one, from 4 weeks on: the title never
    reads "0 weeks ago". *)
Theorem on_this_day_label :
  forall (rt : Runtime) (memories : list Memory.t) (s : Surprise.t),
    SurpriseEngine.findOnThisDay rt memories = Ok (Some s) ->
    exists n unit,
      1 <= n
      /\ ((unit = " week" /\ n < 4) \/ unit = " month")
      /\ Surprise.title s
         = ("On This Day (" ++ (Js.showZ n ++ unit ++ SurpriseEngine.plural n ++ " ago")
            ++ ")")%string.
Proof.
  intros rt memories s H. unfold SurpriseEngine.findOnThisDay in H.
  destruct (List.length (filter (SurpriseEngine.onThisDayMatch rt) memories) =? 0)%nat;
    [discriminate|].
  destruct (SurpriseEngine.randomItem rt OnThisDayPick _) as [m|] eqn:Hm;
    [|discriminate].
  apply randomItem_In, filter_In in Hm. destruct Hm as [_ Hmatch].
  unfold SurpriseEngine.onThisDayMatch in Hmatch.
  apply andb_true_iff in Hmatch. destruct Hmatch as [_ Hage]. apply Z.leb_le in Hage.
  inversion H; subst s; clear H. cbn [Surprise.title SurpriseEngine.makeSurprise].
  set (weeks := Js.roundDiv (SurpriseEngine.daysBetween (Memory.createdAt m) (now rt)) 7).
  assert (Hweeks : 1 <= weeks) by (apply roundDiv_at_least_one; lia).
  destruct (4 <=? weeks) eqn:Hfour.
  - apply Z.leb_le in Hfour.
    exists (Js.roundDiv weeks 4), " month".
    split; [apply roundDiv_at_least_one; lia|]. split; [now right | reflexivity].
  - apply Z.leb_gt in Hfour.
    exists weeks, " week". split; [exact Hweeks|]. split; [left; auto | reflexivity].
Qed.

Lemma on_this_day_label_witness :
  exists s n unit,
    SurpriseEngine.findOnThisDay (Sample.runtime "" Sample.offline) Sample.memories
    = Ok (Some s)
    /\ 1 <= n
    /\ Surprise.title s
       = ("On This Day (" ++ (Js.showZ n ++ unit ++ SurpriseEngine.plural n ++ " ago")
          ++ ")")%string.
Proof.
  destruct (SurpriseEngine.findOnThisDay (Sample.runtime "" Sample.offline)
              Sample.memories) as [[s|]|e] eqn:E;
    [|vm_compute in E; discriminate E|vm_compute in E; discriminate E].
  destruct (on_this_day_label _ _ s E) as [n [unit [Hn [_ Htitle]]]].
  exists s, n, unit. auto.
Defined.

(** ** The store *)

Arguments roomMemories : simpl never.

Section StoreFacts.
Import Store.

Lemma withMemoryCount_same (r : Room.t) : withMemoryCount r (Room.memoryCount r) = r.
Proof. now destruct r. Qed.

Lemma roomMemories_withMemoryCount (ms : list Memory.t) (r : Room.t) (c : Z) :
  roomMemories ms (withMemoryCount r c) = roomMemories ms r.
Proof. reflexivity. Qed.

Lemma roomMemories_cons (m : Memory.t) (ms : list Memory.t) (r : Room.t) :
  roomMemories (m :: ms) r
  = if isRoom (Memory.roomId m) r then m :: roomMemories ms r else roomMemories ms r.
Proof.
  unfold roomMemories, isRoom. simpl.
  destruct (Memory.roomId m) as [i|]; [|reflexivity].
  now rewrite String.eqb_sym.
Qed.

Lemma untruthy_is_no_room (i : option string) (r : Room.t) :
  i <> Some "" -> truthyId i = false -> isRoom i r = false.
Proof.
  destruct i as [x|]; simpl; [|reflexivity].
  intros Hne H. apply negb_false_iff, String.eqb_eq in H. congruence.
Qed.

Lemma filter_all {A} (f : A -> bool) (l : list A) :
  (forall x, In x l -> f x = true) -> filter f l = l.
Proof.
  induction l as [|x l IH]; simpl; intro H; [reflexivity|].
  rewrite (H x (or_introl eq_refl)), IH; auto.
Qed.

(** Deleting by an id that one memory has takes that memory away and
    leaves the others, in any selection of them. *)
Lemma delete_one (p : Memory.t -> bool) (id : string) (ms : list Memory.t)
    (m0 : Memory.t) :
  NoDup (idsOf ms) -> In m0 ms -> Memory.id m0 = id ->
  find (fun m => String.eqb (Memory.id m) id) ms = Some m0
  /\ List.length (filter p ms)
     = (List.length (filter p (filter (fun m => negb (String.eqb (Memory.id m) id)) ms))
        + (if p m0 then 1 else 0))%nat.
Proof.
  induction ms as [|m ms IH]; intros Hnd Hin Hid; [destruct Hin|].
  unfold idsOf in Hnd. simpl in Hnd. inversion Hnd as [|? ? Hnotin Hnd']; subst.
  simpl. destruct Hin as [->|Hin].
  - rewrite String.eqb_refl. simpl. split; [reflexivity|].
    rewrite (filter_all (fun m => negb (String.eqb (Memory.id m) (Memory.id m0))) ms).
    + destruct (p m0); simpl; lia.
    + intros x Hx. apply negb_true_iff, String.eqb_neq. intro E.
      apply Hnotin. rewrite <- E. now apply in_map.
  - assert (Hne : String.eqb (Memory.id m) (Memory.id m0) = false).
    { apply String.eqb_neq. intro E. apply Hnotin. rewrite E. now apply in_map. }
    rewrite Hne. simpl.
    destruct (IH Hnd' Hin eq_refl) as [Hfind Hlen].
    split; [exact Hfind|].
    destruct (p m); simpl; lia.
Qed.

Lemma delete_none (id : string) (ms : list Memory.t) :
  find (fun m => String.eqb (Memory.id m) id) ms = None ->
  filter (fun m => negb (String.eqb (Memory.id m) id)) ms = ms.
Proof.
  intro H. apply filter_all. intros x Hx.
  apply negb_true_iff. exact (find_none _ _ H x Hx).
Qed.

Lemma filter_ids_NoDup (f : Memory.t -> bool) (ms : list Memory.t) :
  NoDup (idsOf ms) -> NoDup (idsOf (filter f ms)).
Proof.
  unfold idsOf. induction ms as [|m ms IH]; simpl; intro H; [constructor|].
  inversion H as [|? ? Hnotin Hnd]; subst.
  destruct (f m); simpl; [|auto].
  constructor; [|auto]. intro Hin. apply Hnotin.
  apply in_map_iff in Hin. destruct Hin as [x [E Hx]].
  apply filter_In in Hx. rewrite <- E. apply in_map. tauto.
Qed.
End StoreFacts.

(** X10. The counters of the rooms stay the numbers of their memories
    (with distinct memory ids and no empty room id) under every action but
    the four that write memories or rooms wholesale: adding a memory with
    a fresh id, deleting a memory, adding a room that is counted, deleting
    a room and all the actions on the rest of the state keep them.  Then
    the count a nudge reports is the counter of the room. *)
Theorem counters_are_kept :
  forall (now : Z) (state : Store.AppState) (action : Store.AppAction),
    tidy state ->
    keepsCount state action ->
    tidy (Store.appReducer now state action)
    /\ forall r, In r (Store.rooms state) ->
         Z.of_nat (SurpriseEngine.memoryCount
                     (SurpriseEngine.roomActivity (Store.memories state) r))
         = Room.memoryCount r.
Proof.
  intros now state action [Hnd [Hroom Hcount]] Hkeeps.
  split; [|intros r Hr; now rewrite (Hcount r Hr)].
  destruct action; simpl in Hkeeps; try contradiction;
    try (split; [exact Hnd | split; [exact Hroom | exact Hcount]]).
  - (* ADD_MEMORY *)
    destruct Hkeeps as [Hfresh Hrid].
    split; [|split].
    + unfold idsOf. simpl. constructor; assumption.
    + simpl. intros m [<-|Hm]; auto.
    + intros r Hr. simpl in Hr |- *.
      destruct (Store.truthyId (Memory.roomId payload)) eqn:Htruthy.
      * apply in_map_iff in Hr. destruct Hr as [r0 [<- Hr0]].
        rewrite roomMemories_cons.
        destruct (Store.isRoom (Memory.roomId payload) r0) eqn:Hisroom.
        -- rewrite roomMemories_withMemoryCount.
           change (Store.isRoom (Memory.roomId payload)
                     (Store.withMemoryCount r0 (Room.memoryCount r0 + 1)))
             with (Store.isRoom (Memory.roomId payload) r0).
           rewrite Hisroom. simpl. rewrite (Hcount r0 Hr0). lia.
        -- rewrite Hisroom. now apply Hcount.
      * rewrite roomMemories_cons.
        rewrite (untruthy_is_no_room _ r Hrid Htruthy). now apply Hcount.
  - (* DELETE_MEMORY *)
    split; [|split].
    + simpl. now apply filter_ids_NoDup.
    + simpl. intros m Hm. apply filter_In in Hm. now apply Hroom.
    + intros r Hr. simpl in Hr |- *.
      destruct (find (fun m => String.eqb (Memory.id m) payload) (Store.memories state))
        as [m0|] eqn:Hfind.
      * pose proof (find_some _ _ Hfind) as [Hin0 Hid0]. apply String.eqb_eq in Hid0.
        assert (Hlen : forall room,
                   List.length (roomMemories (Store.memories state) room)
                   = (List.length
                        (roomMemories
                           (filter (fun m => negb (String.eqb (Memory.id m) payload))
                              (Store.memories state)) room)
                      + (if Store.isRoom (Memory.roomId m0) room then 1 else 0))%nat).
        { intro room.
          destruct (delete_one
                      (fun m => match Memory.roomId m with
                                | Some i => String.eqb i (Room.id room)
                                | None => false
                                end) payload _ m0 Hnd Hin0 Hid0) as [_ Hl].
          unfold roomMemories. rewrite Hl. f_equal.
          unfold Store.isRoom. destruct (Memory.roomId m0); [|reflexivity].
          now rewrite String.eqb_sym. }
        destruct (Store.truthyId (Memory.roomId m0)) eqn:Htruthy.
        -- apply in_map_iff in Hr. destruct Hr as [r0 [<- Hr0]].
           specialize (Hlen r0).
           destruct (Store.isRoom (Memory.roomId m0) r0) eqn:Hisroom.
           ++ rewrite roomMemories_withMemoryCount. simpl.
              rewrite (Hcount r0 Hr0). lia.
           ++ rewrite (Hcount r0 Hr0). lia.
        -- specialize (Hlen r).
           rewrite (untruthy_is_no_room _ r (Hroom m0 Hin0) Htruthy) in Hlen.
           rewrite (Hcount r Hr). lia.
      * simpl in Hr. rewrite (delete_none _ _ Hfind). now apply Hcount.
  - (* ADD_ROOM *)
    split; [exact Hnd | split; [exact Hroom|]].
    intros r Hr. simpl in Hr |- *. apply in_app_or in Hr.
    destruct Hr as [Hr|[<-|[]]]; [now apply Hcount | exact Hkeeps].
  - (* DELETE_ROOM *)
    split; [exact Hnd | split; [exact Hroom|]].
    intros r Hr. simpl in Hr |- *. apply filter_In in Hr. now apply Hcount.
  - (* RESET_STATE *)
    split; [constructor | split; [intros m [] | intros r []]].
Qed.

Lemma sample_state_tidy : tidy Sample.state.
Proof.
  split; [exact sample_ids_distinct|]. split.
  - intros m Hm. simpl in Hm.
    repeat (destruct Hm as [<-|Hm]; [discriminate|]). destruct Hm.
  - intros r Hr. simpl in Hr.
    repeat (destruct Hr as [<-|Hr]; [reflexivity|]). destruct Hr.
Qed.

Lemma counters_are_kept_witness :
  tidy (Store.appReducer 0 Sample.state (Store.DELETE_MEMORY "m1"))
  /\ map Room.memoryCount
       (Store.rooms (Store.appReducer 0 Sample.state (Store.DELETE_MEMORY "m1")))
     = [1; 2].
Proof.
  split; [|reflexivity].
  exact (proj1 (counters_are_kept 0 Sample.state (Store.DELETE_MEMORY "m1")
                  sample_state_tidy I)).
Defined.

(** X11. Adding a memory whose id is new and then deleting it by that id
    gives the state back, rooms and counters included, when no counter is
    negative. *)
Theorem add_then_delete :
  forall (now : Z) (state : Store.AppState) (m : Memory.t),
    ~ In (Memory.id m) (idsOf (Store.memories state)) ->
    (forall r, In r (Store.rooms state) -> 0 <= Room.memoryCount r) ->
    Store.appReducer now (Store.appReducer now state (Store.ADD_MEMORY m))
      (Store.DELETE_MEMORY (Memory.id m))
    = state.
Proof.
  intros now state m Hfresh Hpos.
  unfold Store.appReducer, Store.withMemoriesAndRooms.
  cbn [Store.memories Store.rooms Store.conversations Store.currentConversation
       Store.recordingState Store.settings Store.userId Store.isLoading Store.error
       find filter].
  rewrite String.eqb_refl. cbn [negb].
  assert (Hms : filter (fun memory => negb (String.eqb (Memory.id memory) (Memory.id m)))
                  (Store.memories state) = Store.memories state).
  { apply filter_all. intros x Hx. apply negb_true_iff, String.eqb_neq.
    intro E. apply Hfresh. rewrite <- E. now apply in_map. }
  rewrite Hms.
  assert (Hrs : (if Store.truthyId (Memory.roomId m)
                 then map (fun room =>
                             if Store.isRoom (Memory.roomId m) room
                             then Store.withMemoryCount room
                                    (Z.max 0 (Room.memoryCount room - 1))
                             else room)
                        (if Store.truthyId (Memory.roomId m)
                         then map (fun room =>
                                     if Store.isRoom (Memory.roomId m) room
                                     then Store.withMemoryCount room
                                            (Room.memoryCount room + 1)
                                     else room) (Store.rooms state)
                         else Store.rooms state)
                 else (if Store.truthyId (Memory.roomId m)
                       then map (fun room =>
                                   if Store.isRoom (Memory.roomId m) room
                                   then Store.withMemoryCount room
                                          (Room.memoryCount room + 1)
                                   else room) (Store.rooms state)
                       else Store.rooms state))
                = Store.rooms state).
  { destruct (Store.truthyId (Memory.roomId m)); [|reflexivity].
    rewrite map_map. rewrite <- (map_id (Store.rooms state)) at 2.
    apply map_ext_in. intros r Hr.
    destruct (Store.isRoom (Memory.roomId m) r) eqn:E.
    - change (Store.isRoom (Memory.roomId m)
                (Store.withMemoryCount r (Room.memoryCount r + 1)))
        with (Store.isRoom (Memory.roomId m) r).
      rewrite E. specialize (Hpos r Hr). destruct r; simpl in *.
      unfold Store.withMemoryCount; simpl. f_equal. lia.
    - now rewrite E. }
  rewrite Hrs. now destruct state.
Qed.

Lemma add_then_delete_witness :
  let m := Sample.memory "m9" ["tea"] (Some "r1") (Utc.midnight 2026 2 9) in
  Store.rooms (Store.appReducer 0 Sample.state (Store.ADD_MEMORY m))
  <> Store.rooms Sample.state
  /\ Store.appReducer 0 (Store.appReducer 0 Sample.state (Store.ADD_MEMORY m))
       (Store.DELETE_MEMORY "m9")
     = Sample.state.
Proof.
  intro m. split; [discriminate|].
  apply (add_then_delete 0 Sample.state m).
  - simpl. intuition discriminate.
  - intros r Hr. simpl in Hr.
    repeat (destruct Hr as [<-|Hr]; [simpl; lia|]). destruct Hr.
Defined.

(** X12. When the current conversation is the one the list holds under
    its id, it still is after any message is added to any conversation;
    and starting a conversation under a new id (adding it, then making it
    current) makes it so. *)
Theorem conversations_stay_synced :
  forall (now : Z) (state : Store.AppState),
    (forall conversationId message,
        synced state ->
        synced (Store.appReducer now state (Store.ADD_MESSAGE conversationId message)))
    /\ (forall c,
          ~ In (Conversation.id c) (map Conversation.id (Store.conversations state)) ->
          synced (Store.appReducer now
                    (Store.appReducer now state (Store.ADD_CONVERSATION c))
                    (Store.SET_CURRENT_CONVERSATION (Some c)))).
Proof.
  intros now state. split.
  - intros cid message Hsync. unfold synced in *. simpl.
    destruct (Store.currentConversation state) as [current|]; [|exact I].
    destruct (String.eqb (Conversation.id current) cid) eqn:Hcur.
    + intros c Hc Hid. apply in_map_iff in Hc. destruct Hc as [c0 [<- Hc0]].
      destruct (String.eqb (Conversation.id c0) cid) eqn:Hc0id.
      * f_equal. apply Hsync; [exact Hc0|].
        apply String.eqb_eq in Hcur, Hc0id. congruence.
      * exfalso. simpl in Hid. apply String.eqb_eq in Hcur.
        apply String.eqb_neq in Hc0id. congruence.
    + intros c Hc Hid. apply in_map_iff in Hc. destruct Hc as [c0 [<- Hc0]].
      destruct (String.eqb (Conversation.id c0) cid) eqn:Hc0id.
      * exfalso. simpl in Hid. apply String.eqb_eq in Hc0id.
        apply String.eqb_neq in Hcur. congruence.
      * now apply Hsync.
  - intros c Hfresh. unfold synced. simpl.
    intros c' [<-|Hc'] Hid; [reflexivity|].
    exfalso. apply Hfresh. rewrite <- Hid. now apply in_map.
Qed.

Lemma conversations_stay_synced_witness :
  let message := {| Posted.message := {| Message.id := "u1"; Message.role := Message.user;
                                         Message.content := "Hello";
                                         Message.timestamp := 0 |};
                    Posted.isVoice := Some false |} in
  synced Sample.state
  /\ synced (Store.appReducer 0 Sample.state (Store.ADD_MESSAGE "c1" message))
  /\ option_map (fun c => List.length (Conversation.messages c))
       (Store.currentConversation
          (Store.appReducer 0 Sample.state (Store.ADD_MESSAGE "c1" message)))
     = Some 1%nat.
Proof.
  intro message.
  assert (Hsync : synced Sample.state).
  { unfold synced. simpl. intros c [<-|[]] _. reflexivity. }
  split; [exact Hsync|]. split; [|reflexivity].
  exact (proj1 (conversations_stay_synced 0 Sample.state) "c1" message Hsync).
Defined.

(** ** The gateway *)

Lemma slice0_slice0 {A} (n : nat) (l : list A) :
  Js.slice0 n (Js.slice0 n l) = Js.slice0 n l.
Proof. unfold Js.slice0. rewrite firstn_firstn. now rewrite Nat.min_id. Qed.

Lemma prefix_append (s t : string) : String.prefix s (s ++ t) = true.
Proof.
  induction s as [|c s IH]; simpl.
  - now destruct t.
  - destruct (ascii_dec c c); [exact IH | congruence].
Qed.

(** X13. [findConnections] reads the 20 first memories only; given no
    memory it returns the empty array without asking the gateway; it
    throws only when the gateway is not configured or its call throws; and
    what it returns is the empty array or what the reply parses to. *)
Theorem connections_read_twenty :
  forall (rt : Runtime) (newMemory : string) (existing : list Memory.t),
    AIService.findConnections rt newMemory existing
    = AIService.findConnections rt newMemory (Js.slice0 20 existing)
    /\ AIService.findConnections rt newMemory [] = Ok (Js.Arr [])
    /\ (forall e,
          AIService.findConnections rt newMemory existing = Throw e ->
          existing <> []
          /\ (AIService.isConfigured rt = false
              \/ exists body, fetchCompletion rt body = Throw e))
    /\ (forall v,
          AIService.findConnections rt newMemory existing = Ok v ->
          v = Js.Arr []
          \/ exists body reply, fetchCompletion rt body = Ok reply
                                /\ json reply = Some v).
Proof.
  intros rt newMemory existing.
  split; [|split; [reflexivity|split]].
  - unfold AIService.findConnections. rewrite slice0_slice0.
    destruct existing as [|m ms]; reflexivity.
  - intros e H. unfold AIService.findConnections, AIService.chat in H.
    destruct existing as [|m ms]; [discriminate|]. split; [discriminate|].
    change (List.length (m :: ms) =? 0)%nat with false in H. cbv iota in H.
    destruct (AIService.isConfigured rt); [right|now left].
    cbn [negb] in H. cbv iota in H.
    match type of H with bind ?c _ = _ => destruct c as [reply|e'] eqn:Hnet end.
    + simpl in H. destruct (json reply); discriminate.
    + simpl in H. inversion H; subst. eauto.
  - intros v H. unfold AIService.findConnections, AIService.chat in H.
    destruct existing as [|m ms]; [inversion H; now left|].
    change (List.length (m :: ms) =? 0)%nat with false in H. cbv iota in H.
    destruct (AIService.isConfigured rt); [|discriminate].
    cbn [negb] in H. cbv iota in H.
    match type of H with bind ?c _ = _ => destruct c as [reply|e'] eqn:Hnet end;
      [|discriminate].
    simpl in H. destruct (json reply) as [v'|] eqn:Hjson; simpl in H;
      inversion H; subst; [right; eauto | now left].
Qed.

(** X14. The thinking partner prompt reads the 8 first memories only; it
    is the fixed text when no memory is given, and begins with the fixed
    text whatever the memories. *)
Theorem prompt_reads_eight :
  forall (recent : list (string * list string)),
    AIService.getThinkingPartnerPrompt (Some recent)
    = AIService.getThinkingPartnerPrompt (Some (Js.slice0 8 recent))
    /\ AIService.getThinkingPartnerPrompt None = AIService.thinkingPartnerBase
    /\ AIService.getThinkingPartnerPrompt (Some []) = AIService.thinkingPartnerBase
    /\ String.prefix AIService.thinkingPartnerBase
         (AIService.getThinkingPartnerPrompt (Some recent)) = true.
Proof.
  intro recent. unfold AIService.getThinkingPartnerPrompt.
  assert (Hnil : forall s : string, (s ++ "")%string = s).
  { induction s as [|c s IH]; simpl; [reflexivity | now rewrite IH]. }
  split; [|split; [apply Hnil | split; [apply Hnil | apply prefix_append]]].
  destruct recent as [|m ms]; [reflexivity|].
  change (Js.slice0 8 (m :: ms)) with (m :: Js.slice0 7 ms) at 2.
  cbv iota beta.
  change (m :: Js.slice0 7 ms) with (Js.slice0 8 (m :: ms)).
  now rewrite slice0_slice0.
Qed.

Lemma connections_read_twenty_witness :
  AIService.findConnections (Sample.runtime "" Sample.offline) "Tea with milk"
    Sample.memories
  = Throw "Anthropic API key not configured. Please add EXPO_PUBLIC_ANTHROPIC_API_KEY to your .env file."
  /\ Sample.memories <> [].
Proof.
  split; [reflexivity|].
  exact (proj1 (proj1 (proj2 (proj2
    (connections_read_twenty (Sample.runtime "" Sample.offline) "Tea with milk"
       Sample.memories))) _ eq_refl)).
Defined.

Section StringFacts.

Lemma append_length (s t : string) :
  String.length (s ++ t) = (String.length s + String.length t)%nat.
Proof. induction s as [|c s IH]; simpl; [reflexivity | now rewrite IH]. Qed.

Lemma substring0_short (n : nat) (s : string) :
  (String.length s <= n)%nat -> Js.substring0 n s = s.
Proof.
  unfold Js.substring0. revert s.
  induction n as [|n IH]; intros [|c s] H; simpl in *; try reflexivity; try lia.
  now rewrite IH by lia.
Qed.

Lemma substring0_long (n : nat) (s : string) :
  (n <= String.length s)%nat -> String.length (Js.substring0 n s) = n.
Proof.
  unfold Js.substring0. revert s.
  induction n as [|n IH]; intros [|c s] H; simpl in *; try reflexivity; try lia.
  now rewrite IH by lia.
Qed.

Lemma dropSpaces_empty (s : string) :
  Js.dropSpaces s = "" <-> Js.allChars Js.isSpace s = true.
Proof.
  induction s as [|c s IH]; simpl; [tauto|].
  destruct (Js.isSpace c); simpl; [exact IH|]. split; discriminate.
Qed.

Lemma dropSpaces_spaces (s : string) :
  Js.allChars Js.isSpace (Js.dropSpaces s) = Js.allChars Js.isSpace s.
Proof.
  induction s as [|c s IH]; simpl; [reflexivity|].
  destruct (Js.isSpace c) eqn:E; simpl; [exact IH | now rewrite E].
Qed.

Lemma rev_string_spaces (s acc : string) :
  Js.allChars Js.isSpace (Js.rev_string s acc)
  = Js.allChars Js.isSpace s && Js.allChars Js.isSpace acc.
Proof.
  revert acc. induction s as [|c s IH]; intro acc; simpl; [reflexivity|].
  rewrite IH. simpl. destruct (Js.isSpace c), (Js.allChars Js.isSpace s); reflexivity.
Qed.

Lemma rev_string_empty (s acc : string) :
  Js.rev_string s acc = "" <-> s = "" /\ acc = "".
Proof.
  revert acc. induction s as [|c s IH]; intro acc; simpl.
  - tauto.
  - rewrite IH. split; [intros [_ H]; discriminate | intros [H _]; discriminate].
Qed.

(** Trimming leaves nothing exactly of text made of white space. *)
Lemma trim_empty (s : string) :
  Js.trim s = "" <-> Js.allChars Js.isSpace s = true.
Proof.
  unfold Js.trim. rewrite rev_string_empty, dropSpaces_empty, rev_string_spaces.
  rewrite dropSpaces_spaces. simpl. rewrite andb_true_r. tauto.
Qed.

(** Whether the trimmed text is empty, decided on the text. *)
Lemma trim_eqb_empty (s : string) :
  String.eqb (Js.trim s) "" = Js.allChars Js.isSpace s.
Proof.
  destruct (Js.allChars Js.isSpace s) eqn:E.
  - apply trim_empty in E. now rewrite E.
  - apply String.eqb_neq. intro H. apply trim_empty in H. congruence.
Qed.

End StringFacts.

(** X15. [analyzeMemory] throws exactly when the gateway is not configured
    or its call throws: a reply that is not JSON never makes it throw.
    The summary it falls back to is the text itself up to 100 characters,
    and the first 100 characters followed by "..." beyond, 103 characters
    in all. *)
Theorem analyzeMemory_failures :
  forall (rt : Runtime) (content : string),
    (forall e,
        AIService.analyzeMemory rt content = Throw e <->
        (AIService.isConfigured rt = false
         /\ e = "Anthropic API key not configured. Please add EXPO_PUBLIC_ANTHROPIC_API_KEY to your .env file.")
        \/ (AIService.isConfigured rt = true
            /\ fetchCompletion rt (analysisRequest content) = Throw e))
    /\ ((String.length content <= 100)%nat -> AIService.truncated content = content)
    /\ ((100 < String.length content)%nat ->
        AIService.truncated content = (Js.substring0 100 content ++ "...")%string
        /\ String.length (AIService.truncated content) = 103%nat).
Proof.
  intros rt content. split; [|split].
  - intro e. destruct (AIService.isConfigured rt) eqn:Hconf.
    + rewrite (analyzeMemory_configured rt content Hconf).
      destruct (fetchCompletion rt (analysisRequest content)) as [reply|e'].
      * split; [discriminate|]. intros [[H _]|[_ H]]; discriminate.
      * split; [intro H; inversion H; subst; right; auto|].
        intros [[H _]|[_ H]]; [discriminate | inversion H; reflexivity].
    + unfold AIService.analyzeMemory, AIService.chat. rewrite Hconf. simpl.
      split; [intro H; inversion H; left; auto|].
      intros [[_ ->]|[H _]]; [reflexivity | discriminate].
  - intro H. unfold AIService.truncated.
    rewrite substring0_short by exact H.
    apply Nat.leb_le in H. rewrite Nat.ltb_antisym, H. simpl.
    clear. induction content as [|c s IH]; simpl; [reflexivity | now rewrite IH].
  - intro H. unfold AIService.truncated.
    apply Nat.ltb_lt in H. rewrite H. apply Nat.ltb_lt in H.
    split; [reflexivity|].
    rewrite append_length, substring0_long by lia. reflexivity.
Qed.

Lemma analyzeMemory_failures_witness :
  AIService.analyzeMemory (Sample.runtime "sk-ant" Sample.offline) Sample.hiking
  = Throw "TypeError: Network request failed"
  /\ AIService.truncated Sample.hiking = Sample.hiking.
Proof.
  split.
  - apply (proj1 (analyzeMemory_failures (Sample.runtime "sk-ant" Sample.offline)
                    Sample.hiking)).
    right. split; reflexivity.
  - apply (proj1 (proj2 (analyzeMemory_failures (Sample.runtime "sk-ant" Sample.offline)
                           Sample.hiking))).
    simpl. lia.
Defined.

(** X16. The gateway counts as configured exactly when its key holds a
    character that is not white space: an empty key and a key of blanks
    are both not configured, and then [chat] throws without posting. *)
Theorem configured_needs_ink :
  forall (rt : Runtime),
    AIService.isConfigured rt = negb (Js.allChars Js.isSpace (apiKey rt))
    /\ (Js.allChars Js.isSpace (apiKey rt) = true ->
        forall msgs prompt, exists e, AIService.chat rt msgs prompt = Throw e).
Proof.
  intro rt.
  assert (E : AIService.isConfigured rt = negb (Js.allChars Js.isSpace (apiKey rt))).
  { unfold AIService.isConfigured.
    destruct (Js.allChars Js.isSpace (apiKey rt)) eqn:Hs.
    - apply trim_empty in Hs. rewrite Hs. simpl. apply andb_false_r.
    - assert (Htrim : Js.trim (apiKey rt) <> "")
        by (intro H; apply trim_empty in H; congruence).
      assert (Hkey : apiKey rt <> "") by (intro H; rewrite H in Hs; discriminate).
      apply String.eqb_neq in Htrim, Hkey. now rewrite Htrim, Hkey. }
  split; [exact E|].
  intros Hblank msgs prompt. unfold AIService.chat.
  rewrite E, Hblank. simpl. eauto.
Qed.

Lemma configured_needs_ink_witness :
  AIService.isConfigured (Sample.runtime "   " (Sample.replying Sample.twiceWork)) = false
  /\ exists e,
       AIService.chat (Sample.runtime "   " (Sample.replying Sample.twiceWork)) [] None
       = Throw e.
Proof.
  split; [reflexivity|].
  apply (proj2 (configured_needs_ink
                  (Sample.runtime "   " (Sample.replying Sample.twiceWork)))).
  reflexivity.
Defined.

(** ** The basic tags, by frequency *)

Lemma sorted_app_le {A} (R : A -> A -> Prop) (l1 l2 : list A) (x y : A) :
  StronglySorted R (l1 ++ l2) -> In x l1 -> In y l2 -> R x y.
Proof.
  induction l1 as [|a l1 IH]; simpl; intros Hs Hx Hy; [destruct Hx|].
  inversion Hs as [|? ? Hs' Hall]; subst.
  destruct Hx as [<-|Hx]; [|now apply IH].
  apply (proj1 (Forall_forall _ _) Hall). apply in_or_app. now right.
Qed.

Lemma wordCounts_fold (text : string) :
  TalkScreen.wordCounts text = fold_left Js.countUp (keptWords text) [].
Proof.
  unfold TalkScreen.wordCounts, keptWords.
  set (ok := fun w : string =>
               (3 <? String.length w)%nat
               && negb (Js.inStrings w TalkScreen.stopWords)).
  generalize (Js.split_ws (Js.toLowerCase text)). intro words.
  generalize (@nil (string * Z)).
  induction words as [|w words IH]; intro m; [reflexivity|].
  cbn [fold_left map filter]. rewrite IH.
  destruct (ok (TalkScreen.clean w)) eqn:E; unfold ok in E; cbv beta in E;
    unfold TalkScreen.countWord; cbv zeta; rewrite E; reflexivity.
Qed.

Lemma wordCounts_entry (text k : string) (v : Z) :
  In (k, v) (TalkScreen.wordCounts text) -> v = frequency k text /\ 1 <= v.
Proof.
  intro Hin. destruct (wordCounts_keys text) as [Hnd _].
  pose proof (In_countGet _ _ _ Hnd Hin) as Hget.
  pose proof (countOr0_fold (keptWords text) [] k) as Hocc.
  rewrite <- wordCounts_fold in Hocc. unfold countOr0 in Hocc.
  rewrite Hget in Hocc. simpl in Hocc.
  split; [exact Hocc|].
  rewrite wordCounts_fold in Hget.
  apply (countGet_positive (keptWords text) [] k v); [|exact Hget].
  intros k' v' H. discriminate H.
Qed.

Lemma wordCounts_has (text k : string) :
  In k (keptWords text) -> In (k, frequency k text) (TalkScreen.wordCounts text).
Proof.
  intro Hin.
  pose proof (countOr0_fold (keptWords text) [] k) as Hocc.
  rewrite <- wordCounts_fold in Hocc. unfold countOr0 in Hocc. simpl in Hocc.
  apply (count_occ_In string_dec) in Hin.
  destruct (Js.countGet (TalkScreen.wordCounts text) k) as [v|] eqn:E.
  - apply countGet_In in E. unfold frequency. now rewrite <- Hocc.
  - lia.
Qed.

(** X17. Every basic tag is a word of the text that is counted (lower
    case, stripped to its letters, longer than 3 letters, no stop-word);
    no counted word that is left out occurs more often than a tag; and a
    counted word is left out only when there are four tags. *)
Theorem basic_tags_are_most_frequent :
  forall (text : string),
    let tags := TalkScreen.extractBasicTags text in
    (forall t, In t tags ->
               In t (keptWords text)
               /\ (4 <= String.length t)%nat
               /\ ~ In t TalkScreen.stopWords
               /\ exists w, In w (Js.split_ws (Js.toLowerCase text))
                            /\ t = TalkScreen.clean w)
    /\ (forall t u, In t tags -> In u (keptWords text) -> ~ In u tags ->
                    frequency u text <= frequency t text)
    /\ (List.length tags = 4%nat \/ forall u, In u (keptWords text) -> In u tags).
Proof.
  intros text tags.
  set (cmp := fun a b : string * Z => snd b - snd a).
  set (sorted := Js.sort cmp (TalkScreen.wordCounts text)).
  assert (Hperm : Permutation (TalkScreen.wordCounts text) sorted) by apply sort_perm.
  assert (Hsorted : StronglySorted (fun x y : string * Z => - snd x <= - snd y) sorted).
  { apply (sort_sorted cmp (fun e => - snd e)). intros x y. unfold cmp. lia. }
  assert (Htags : tags = map fst (Js.slice0 4 sorted)) by reflexivity.
  assert (Hentry : forall t, In t tags ->
                     exists n, In (t, n) (Js.slice0 4 sorted)).
  { intros t Ht. rewrite Htags in Ht. apply in_map_iff in Ht.
    destruct Ht as [[t' n] [E Hin]]. simpl in E. subst t'. eauto. }
  assert (Hkept : forall t n, In (t, n) sorted ->
                    n = frequency t text /\ In t (keptWords text)).
  { intros t n Hin. apply (Permutation_in _ (Permutation_sym Hperm)) in Hin.
    destruct (wordCounts_entry _ _ _ Hin) as [Hn Hpos]. split; [exact Hn|].
    apply (count_occ_In string_dec). unfold frequency in Hn. lia. }
  split; [|split].
  - intros t Ht. destruct (Hentry t Ht) as [n Hn].
    apply slice0_incl in Hn. destruct (Hkept t n Hn) as [_ Hk].
    split; [exact Hk|]. unfold keptWords in Hk. apply filter_In in Hk.
    destruct Hk as [Hw Hok]. apply andb_true_iff in Hok. destruct Hok as [Hlen Hstop].
    apply Nat.ltb_lt in Hlen. split; [lia|]. split.
    + apply inStrings_false. now apply negb_true_iff.
    + apply in_map_iff in Hw. destruct Hw as [w [E Hw]]. exists w. auto.
  - intros t u Ht Hu Hout.
    destruct (Hentry t Ht) as [n Hn].
    pose proof (wordCounts_has text u Hu) as Hue.
    apply (Permutation_in _ Hperm) in Hue.
    rewrite <- (firstn_skipn 4 sorted) in Hue, Hsorted.
    apply in_app_or in Hue. destruct Hue as [Hue|Hue].
    + exfalso. apply Hout. rewrite Htags.
      change u with (fst (u, frequency u text)). now apply in_map.
    + pose proof (sorted_app_le _ _ _ _ _ Hsorted Hn Hue) as Hle. simpl in Hle.
      destruct (Hkept t n (slice0_incl _ _ _ Hn)) as [-> _]. lia.
  - destruct (Nat.le_gt_cases 4 (List.length sorted)) as [Hmany|Hfew].
    + left. rewrite Htags, length_map. unfold Js.slice0.
      rewrite length_firstn. lia.
    + right. intros u Hu. pose proof (wordCounts_has text u Hu) as Hue.
      apply (Permutation_in _ Hperm) in Hue.
      rewrite Htags. unfold Js.slice0. rewrite firstn_all2 by lia.
      change u with (fst (u, frequency u text)). now apply in_map.
Qed.

Lemma basic_tags_are_most_frequent_witness :
  In "lake" (TalkScreen.extractBasicTags "Lake lake LAKE! Hiking near the lake")
  /\ frequency "hiking" "Lake lake LAKE! Hiking near the lake"
     <= frequency "lake" "Lake lake LAKE! Hiking near the lake"
  /\ forall u, In u (keptWords "Lake lake LAKE! Hiking near the lake") ->
               In u (TalkScreen.extractBasicTags "Lake lake LAKE! Hiking near the lake").
Proof.
  split; [vm_compute; tauto|]. split; [vm_compute; discriminate|].
  destruct (proj2 (proj2 (basic_tags_are_most_frequent
                            "Lake lake LAKE! Hiking near the lake"))) as [H|H].
  - vm_compute in H. discriminate H.
  - exact H.
Defined.

(** ** The room of a saved memory *)

Lemma findRoom_string (rooms : list Room.t) (name : string) :
  TalkScreen.findRoom rooms (Js.Str name)
  = Ok (find (fun r => Js.includes (Js.toLowerCase (Room.name r)) (Js.toLowerCase name))
          rooms).
Proof.
  induction rooms as [|r rooms IH]; simpl; [reflexivity|].
  destruct (Js.includes (Js.toLowerCase (Room.name r)) (Js.toLowerCase name));
    [reflexivity | exact IH].
Qed.

Lemma findRoom_other (rooms : list Room.t) (v : Js.Value) :
  rooms <> [] -> (forall name, v <> Js.Str name) ->
  exists e, TalkScreen.findRoom rooms v = Throw e.
Proof.
  intros Hne Hv. destruct rooms as [|r rooms]; [congruence|].
  destruct v; simpl; eauto. exfalso. now apply (Hv s).
Qed.

(** X18. [saveAsMemory] saves nothing exactly when the analysis suggests a
    room that is not text (and not falsy) while there are rooms.  A memory
    it saves holds the text, the tags and the summary of the analysis and
    no connection; its room id is the id of the first room whose name,
    lower-cased, includes the lower-cased suggestion, and is not set when
    there is no suggestion or no such room: it never names a room that is
    not there. *)
Theorem saved_memory_room :
  forall (rt : Runtime) (rooms : list Room.t) (stateUserId : option string)
         (text : string) (isVoice : bool) (vars : TalkScreen.Analysis),
    TalkScreen.classify rt text = Ok vars ->
    let suggestion := TalkScreen.suggestedRoom vars in
    (TalkScreen.saveAsMemory rt rooms stateUserId text isVoice = Ok None <->
     Js.truthy suggestion = true /\ rooms <> []
     /\ forall name, suggestion <> Js.Str name)
    /\ forall memory,
         TalkScreen.saveAsMemory rt rooms stateUserId text isVoice = Ok (Some memory) ->
         TalkScreen.content memory = text
         /\ TalkScreen.newTags memory = TalkScreen.tags vars
         /\ TalkScreen.newSummary memory = TalkScreen.summary vars
         /\ TalkScreen.connections memory = []
         /\ TalkScreen.type memory = (if isVoice then Memory.voice else Memory.conversation)
         /\ TalkScreen.roomId memory
            = match suggestion with
              | Js.Str name =>
                  if String.eqb name "" then None
                  else option_map Room.id
                         (find (fun r => Js.includes (Js.toLowerCase (Room.name r))
                                           (Js.toLowerCase name)) rooms)
              | _ => None
              end
         /\ forall i, TalkScreen.roomId memory = Some i ->
                      exists r, In r rooms /\ Room.id r = i.
Proof.
  intros rt rooms uid text isVoice vars Hclassify suggestion.
  unfold TalkScreen.saveAsMemory, TalkScreen.buildMemory.
  rewrite Hclassify. cbn [bind]. fold suggestion.
  destruct suggestion as [| |b|z|name|items|fields] eqn:Hs; cbn [Js.truthy].
  1,2: (split; [split; [discriminate | intros [H _]; discriminate]|];
        intros memory H; simpl in H; inversion H; subst memory; simpl;
        repeat split; intros i Hi; discriminate).
  - (* a boolean *)
    destruct b.
    + destruct rooms as [|r rooms].
      * simpl. split; [split; [discriminate | intros [_ [H _]]; congruence]|].
        intros memory H. inversion H; subst memory; simpl.
        repeat split; intros i Hi; discriminate.
      * simpl. split; [split; [intros _; repeat split; discriminate | reflexivity]|].
        intros memory H. discriminate H.
    + split; [split; [discriminate | intros [H _]; discriminate]|].
      intros memory H; simpl in H; inversion H; subst memory; simpl.
      repeat split; intros i Hi; discriminate.
  - (* a number *)
    destruct (z =? 0) eqn:Hz; cbn [negb].
    + split; [split; [discriminate | intros [H _]; discriminate]|].
      intros memory H; simpl in H; inversion H; subst memory; simpl.
      repeat split; intros i Hi; discriminate.
    + destruct rooms as [|r rooms].
      * simpl. split; [split; [discriminate | intros [_ [H _]]; congruence]|].
        intros memory H. inversion H; subst memory; simpl.
        repeat split; intros i Hi; discriminate.
      * simpl. split; [split; [intros _; repeat split; discriminate | reflexivity]|].
        intros memory H. discriminate H.
  - (* text *)
    rewrite findRoom_string.
    destruct (String.eqb name "") eqn:Hname; cbn [negb bind].
    + split; [split; [discriminate | intros [H _]; discriminate]|].
      intros memory H; simpl in H; inversion H; subst memory; simpl.
      repeat split; intros i Hi; discriminate.
    + split; [split; [discriminate | intros [_ [_ H]]; now destruct (H name)]|].
      intros memory H. simpl in H. inversion H; subst memory; simpl.
      repeat split. intros i Hi.
      destruct (find _ rooms) as [r|] eqn:Hfind; [|discriminate].
      simpl in Hi. inversion Hi; subst i. exists r.
      split; [|reflexivity]. now apply find_some in Hfind.
  - (* an array *)
    destruct rooms as [|r rooms].
    + simpl. split; [split; [discriminate | intros [_ [H _]]; congruence]|].
      intros memory H. inversion H; subst memory; simpl.
      repeat split; intros i Hi; discriminate.
    + simpl. split; [split; [intros _; repeat split; discriminate | reflexivity]|].
      intros memory H. discriminate H.
  - (* an object *)
    destruct rooms as [|r rooms].
    + simpl. split; [split; [discriminate | intros [_ [H _]]; congruence]|].
      intros memory H. inversion H; subst memory; simpl.
      repeat split; intros i Hi; discriminate.
    + simpl. split; [split; [intros _; repeat split; discriminate | reflexivity]|].
      intros memory H. discriminate H.
Qed.

Lemma saved_memory_room_witness :
  let rt := Sample.runtime "sk-ant" (Sample.replying Sample.suggestsIdeas) in
  exists memory,
    TalkScreen.saveAsMemory rt Sample.rooms None "Tea with milk" false = Ok (Some memory)
    /\ TalkScreen.roomId memory = Some "r2"
    /\ exists r, In r Sample.rooms /\ Room.id r = "r2".
Proof.
  intro rt.
  destruct (TalkScreen.saveAsMemory rt Sample.rooms None "Tea with milk" false)
    as [[memory|]|e] eqn:E;
    [|vm_compute in E; discriminate E|vm_compute in E; discriminate E].
  exists memory. split; [reflexivity|].
  assert (Hroom : TalkScreen.roomId memory = Some "r2").
  { vm_compute in E. inversion E. reflexivity. }
  split; [exact Hroom|].
  exact (proj2 (proj2 (proj2 (proj2 (proj2 (proj2
    (proj2 (saved_memory_room rt Sample.rooms None "Tea with milk" false _ eq_refl)
       memory E)))))) "r2" Hroom).
Defined.

(** ** Transcription *)

Section TranscriptionFacts.
Import TranscriptionService.

Lemma isClientError_4xx (k : nat) (tail : string) :
  (k < 100)%nat ->
  isClientError ("OpenAI API error (" ++ Js.showZ (400 + Z.of_nat k) ++ "): " ++ tail)
  = true.
Proof.
  intro H.
  do 100 (destruct k as [|k]; [reflexivity|]).
  lia.
Qed.

Lemma isFinal_missing (uri : string) :
  isFinal ("Audio file not found at " ++ uri) = true.
Proof.
  unfold isFinal.
  assert (H : Js.includes ("Audio file not found at " ++ uri) "not found" = true).
  { cbn -[String.prefix]. reflexivity. }
  rewrite H, orb_true_r. reflexivity.
Qed.
End TranscriptionFacts.

Section RetryFacts.
Import TranscriptionService.

(** An attempt that succeeds got an [ok] response whose JSON holds a
    non-empty text, and returns that text trimmed. *)
Lemma attemptOnce_ok (audioUri : string) (a : Attempt) (t : string) :
  attemptOnce audioUri a = Ok t ->
  fileExists a = true
  /\ exists response result s,
       fetched a = Responded response
       /\ ok response = true
       /\ bodyJson response = Ok result
       /\ Js.prop result "text" = Ok (Js.Str s)
       /\ s <> ""
       /\ t = Js.trim s.
Proof.
  unfold attemptOnce. intro H.
  destruct (fileExists a); [|discriminate]. split; [reflexivity|].
  destruct (fetched a) as [m|response]; [discriminate|].
  destruct (ok response) eqn:Hok; [|discriminate].
  destruct (bodyJson response) as [result|m] eqn:Hjson; [|discriminate].
  cbn [negb] in H. cbv iota in H.
  destruct (Js.prop result "text") as [v|m] eqn:Hprop; [|discriminate].
  destruct v as [| |b|z|s|items|fields]; simpl in H; try discriminate;
    try (destruct b; discriminate); try (destruct (z =? 0); discriminate).
  destruct (String.eqb s "") eqn:Hs; simpl in H; [discriminate|].
  apply String.eqb_neq in Hs. inversion H; subst t.
  exists response, result, s. repeat split; assumption.
Qed.

Lemma validateApiKey_blank (env : Env) :
  Js.allChars Js.isSpace (apiKey env) = true ->
  validateApiKey env
  = Throw "OpenAI API key not configured. Please add EXPO_PUBLIC_OPENAI_API_KEY to your .env file.".
Proof.
  intro H. unfold validateApiKey. apply trim_empty in H. rewrite H.
  simpl. now rewrite orb_true_r.
Qed.
End RetryFacts.

(** X19. [transcribe] tries at most three times and sleeps 1000 ms, then
    2000 ms, between the tries: what it tries and sleeps is always a
    beginning of that schedule, that ends with a try unless nothing was
    tried.  With a key that is empty or blank it throws before any try.
    A text it returns comes from its last try: the audio file was there,
    the response was [ok], its body parsed to a JSON value whose [text] is
    a non-empty string, and what is returned is that string, trimmed.  And
    when the first try meets such a response, that is returned at once. *)
Theorem transcribe_schedule :
  forall (env : TranscriptionService.Env) (audioUri : string),
    let result := fst (TranscriptionService.transcribe env audioUri) in
    let log := snd (TranscriptionService.transcribe env audioUri) in
    (exists rest, log ++ rest = schedule)
    /\ (log = [] \/ exists before k, log = before ++ [TranscriptionService.Tried k])
    /\ (Js.allChars Js.isSpace (TranscriptionService.apiKey env) = true ->
        log = [] /\ exists e, result = Throw e)
    /\ (forall t,
          result = Ok t ->
          exists before k response json s,
            log = before ++ [TranscriptionService.Tried k]
            /\ TranscriptionService.fileExists (TranscriptionService.attempts env k) = true
            /\ TranscriptionService.fetched (TranscriptionService.attempts env k)
               = TranscriptionService.Responded response
            /\ TranscriptionService.ok response = true
            /\ TranscriptionService.bodyJson response = Ok json
            /\ Js.prop json "text" = Ok (Js.Str s)
            /\ s <> ""
            /\ t = Js.trim s)
    /\ forall response json s,
         Js.allChars Js.isSpace (TranscriptionService.apiKey env) = false ->
         TranscriptionService.fileExists (TranscriptionService.attempts env 1) = true ->
         TranscriptionService.fetched (TranscriptionService.attempts env 1)
         = TranscriptionService.Responded response ->
         TranscriptionService.ok response = true ->
         TranscriptionService.bodyJson response = Ok json ->
         Js.prop json "text" = Ok (Js.Str s) ->
         s <> "" ->
         TranscriptionService.transcribe env audioUri
         = (Ok (Js.trim s), [TranscriptionService.Tried 1]).
Proof.
  intros env audioUri result log. subst result log.
  unfold TranscriptionService.transcribe.
  destruct (TranscriptionService.validateApiKey env) as [[]|e] eqn:Hkey.
  - assert (Hblank : Js.allChars Js.isSpace (TranscriptionService.apiKey env) = true ->
                     False).
    { intro H. rewrite (validateApiKey_blank env H) in Hkey. discriminate. }
    unfold TranscriptionService.maxRetries.
    cbn [TranscriptionService.retry app].
    change (1 <? TranscriptionService.maxRetries)%nat with true.
    change (2 <? TranscriptionService.maxRetries)%nat with true.
    change (3 <? TranscriptionService.maxRetries)%nat with false.
    cbv iota.
    assert (Hok : forall k t before,
               TranscriptionService.attemptOnce audioUri
                 (TranscriptionService.attempts env k) = Ok t ->
               exists before' k' response json s,
                 before ++ [TranscriptionService.Tried k]
                 = before' ++ [TranscriptionService.Tried k']
                 /\ TranscriptionService.fileExists (TranscriptionService.attempts env k')
                    = true
                 /\ TranscriptionService.fetched (TranscriptionService.attempts env k')
                    = TranscriptionService.Responded response
                 /\ TranscriptionService.ok response = true
                 /\ TranscriptionService.bodyJson response = Ok json
                 /\ Js.prop json "text" = Ok (Js.Str s)
                 /\ s <> ""
                 /\ t = Js.trim s).
    { intros k t before H. apply attemptOnce_ok in H.
      destruct H as [Hfile [response [json [s H]]]].
      exists before, k, response, json, s. tauto. }
    assert (Hfirst : forall response json s,
               TranscriptionService.fileExists (TranscriptionService.attempts env 1) = true ->
               TranscriptionService.fetched (TranscriptionService.attempts env 1)
               = TranscriptionService.Responded response ->
               TranscriptionService.ok response = true ->
               TranscriptionService.bodyJson response = Ok json ->
               Js.prop json "text" = Ok (Js.Str s) ->
               s <> "" ->
               TranscriptionService.attemptOnce audioUri
                 (TranscriptionService.attempts env 1) = Ok (Js.trim s)).
    { intros response json s Hfile Hfetched Hgood Hjson Hprop Hs.
      unfold TranscriptionService.attemptOnce.
      rewrite Hfile, Hfetched, Hgood, Hjson, Hprop. cbn [negb Js.truthy].
      apply String.eqb_neq in Hs. rewrite Hs. reflexivity. }
    destruct (TranscriptionService.attemptOnce audioUri
                (TranscriptionService.attempts env 1)) as [t1|m1] eqn:E1.
    { cbn [fst snd]. split; [eexists; reflexivity|].
      split; [right; exists [], 1%nat; reflexivity|].
      split; [intro H; destruct (Hblank H)|].
      split.
      - intros t Ht. inversion Ht; subst t. exact (Hok 1%nat t1 [] E1).
      - intros response json s _ H1 H2 H3 H4 H5 H6.
        pose proof (Hfirst response json s H1 H2 H3 H4 H5 H6) as Heq.
        inversion Heq. reflexivity. }
    assert (Hnot : forall response json s,
               Js.allChars Js.isSpace (TranscriptionService.apiKey env) = false ->
               TranscriptionService.fileExists (TranscriptionService.attempts env 1) = true ->
               TranscriptionService.fetched (TranscriptionService.attempts env 1)
               = TranscriptionService.Responded response ->
               TranscriptionService.ok response = true ->
               TranscriptionService.bodyJson response = Ok json ->
               Js.prop json "text" = Ok (Js.Str s) ->
               s <> "" -> False).
    { intros response json s _ H1 H2 H3 H4 H5 H6.
      pose proof (Hfirst response json s H1 H2 H3 H4 H5 H6) as Heq.
      discriminate Heq. }
    destruct (TranscriptionService.isFinal m1).
    { cbn [fst snd]. split; [eexists; reflexivity|].
      split; [right; exists [], 1%nat; reflexivity|].
      split; [intro H; destruct (Hblank H)|].
      split; [discriminate|]. intros; exfalso; eauto. }
    destruct (TranscriptionService.attemptOnce audioUri
                (TranscriptionService.attempts env 2)) as [t2|m2] eqn:E2.
    { cbn [fst snd]. split; [eexists; reflexivity|].
      split; [right; eexists [_; _], 2%nat; reflexivity|].
      split; [intro H; destruct (Hblank H)|].
      split; [|intros; exfalso; eauto].
      intros t Ht. inversion Ht; subst t. exact (Hok 2%nat t2 [_; _] E2). }
    destruct (TranscriptionService.isFinal m2).
    { cbn [fst snd]. split; [eexists; reflexivity|].
      split; [right; eexists [_; _], 2%nat; reflexivity|].
      split; [intro H; destruct (Hblank H)|].
      split; [discriminate|]. intros; exfalso; eauto. }
    destruct (TranscriptionService.attemptOnce audioUri
                (TranscriptionService.attempts env 3)) as [t3|m3] eqn:E3.
    { cbn [fst snd]. split; [exists []; reflexivity|].
      split; [right; eexists [_; _; _; _], 3%nat; reflexivity|].
      split; [intro H; destruct (Hblank H)|].
      split; [|intros; exfalso; eauto].
      intros t Ht. inversion Ht; subst t. exact (Hok 3%nat t3 [_; _; _; _] E3). }
    destruct (TranscriptionService.isFinal m3);
      (cbn [fst snd]; split; [exists []; reflexivity|];
       split; [right; eexists [_; _; _; _], 3%nat; reflexivity|];
       split; [intro H; destruct (Hblank H)|];
       split; [discriminate|]; intros; exfalso; eauto).
  - cbn [fst snd]. split; [eexists; reflexivity|]. split; [now left|].
    split; [intros _; split; [reflexivity | eauto]|].
    split; [discriminate|].
    intros response json s Hkey'. exfalso.
    unfold TranscriptionService.validateApiKey in Hkey.
    rewrite !trim_eqb_empty in Hkey.
    destruct (String.eqb (TranscriptionService.apiKey env) "") eqn:Hempty.
    + apply String.eqb_eq in Hempty. rewrite Hempty in Hkey'. discriminate Hkey'.
    + rewrite Hkey' in Hkey. discriminate Hkey.
Qed.

(** The third try of [Sample.flaky] meets the text, after a failure of the
    network and a 503. *)
Lemma transcribe_schedule_witness :
  TranscriptionService.transcribe Sample.flaky "file:///rec.m4a"
  = (Ok "Buy oat milk.", schedule)
  /\ exists before k response json s,
       schedule = before ++ [TranscriptionService.Tried k]
       /\ TranscriptionService.fileExists (TranscriptionService.attempts Sample.flaky k)
          = true
       /\ TranscriptionService.fetched (TranscriptionService.attempts Sample.flaky k)
          = TranscriptionService.Responded response
       /\ TranscriptionService.ok response = true
       /\ TranscriptionService.bodyJson response = Ok json
       /\ Js.prop json "text" = Ok (Js.Str s)
       /\ s <> ""
       /\ "Buy oat milk." = Js.trim s.
Proof.
  split; [reflexivity|].
  exact (proj1 (proj2 (proj2 (proj2
           (transcribe_schedule Sample.flaky "file:///rec.m4a"))))
           "Buy oat milk." eq_refl).
Defined.

(** X20. With a key, [transcribe] does not try again after a missing audio
    file or a response with a status from 400 to 499: it throws that error
    after one try and no sleep.  After a failure that is not final it
    sleeps 1000 ms and tries again; and after three such failures it
    throws "Transcription failed after 3 attempts" with the last
    message. *)
Theorem final_errors_end_the_loop :
  forall (env : TranscriptionService.Env) (audioUri : string),
    TranscriptionService.validateApiKey env = Ok tt ->
    let first := TranscriptionService.attempts env 1 in
    let outcome k :=
      TranscriptionService.attemptOnce audioUri (TranscriptionService.attempts env k) in
    (TranscriptionService.fileExists first = false ->
     TranscriptionService.transcribe env audioUri
     = (Throw ("Audio file not found at " ++ audioUri)%string,
        [TranscriptionService.Tried 1]))
    /\ (forall response,
          TranscriptionService.fileExists first = true ->
          TranscriptionService.fetched first = TranscriptionService.Responded response ->
          TranscriptionService.ok response = false ->
          400 <= TranscriptionService.status response <= 499 ->
          TranscriptionService.transcribe env audioUri
          = (Throw ("OpenAI API error ("
                    ++ Js.showZ (TranscriptionService.status response) ++ "): "
                    ++ TranscriptionService.errorMessageOf response)%string,
             [TranscriptionService.Tried 1]))
    /\ (forall m1,
          outcome 1%nat = Throw m1 -> TranscriptionService.isFinal m1 = false ->
          exists rest,
            snd (TranscriptionService.transcribe env audioUri)
            = [TranscriptionService.Tried 1; TranscriptionService.Slept 1000;
               TranscriptionService.Tried 2] ++ rest)
    /\ (forall m1 m2 m3,
          outcome 1%nat = Throw m1 -> TranscriptionService.isFinal m1 = false ->
          outcome 2%nat = Throw m2 -> TranscriptionService.isFinal m2 = false ->
          outcome 3%nat = Throw m3 -> TranscriptionService.isFinal m3 = false ->
          TranscriptionService.transcribe env audioUri
          = (Throw ("Transcription failed after 3 attempts: "
                    ++ Js.orElse (Some m3) "Unknown error")%string,
             schedule)).
Proof.
  intros env audioUri Hkey first outcome. subst first outcome.
  unfold TranscriptionService.transcribe. rewrite Hkey.
  unfold TranscriptionService.maxRetries.
  cbn [TranscriptionService.retry app].
  change (1 <? TranscriptionService.maxRetries)%nat with true.
  change (2 <? TranscriptionService.maxRetries)%nat with true.
  change (3 <? TranscriptionService.maxRetries)%nat with false.
  cbv iota.
  split; [|split; [|split]].
  - intro Hfile. unfold TranscriptionService.attemptOnce at 1. rewrite Hfile.
    cbn [negb]. cbv iota. now rewrite isFinal_missing.
  - intros response Hfile Hfetched Hok Hstatus.
    unfold TranscriptionService.attemptOnce at 1.
    rewrite Hfile, Hfetched, Hok. cbn [negb]. cbv iota.
    assert (Hfinal : TranscriptionService.isFinal
                       ("OpenAI API error ("
                        ++ Js.showZ (TranscriptionService.status response) ++ "): "
                        ++ TranscriptionService.errorMessageOf response) = true).
    { unfold TranscriptionService.isFinal.
      replace (TranscriptionService.status response)
        with (400 + Z.of_nat (Z.to_nat (TranscriptionService.status response - 400)))
        by lia.
      rewrite isClientError_4xx by lia. apply orb_true_r. }
    now rewrite Hfinal.
  - intros m1 H1 Hf1. rewrite H1, Hf1.
    destruct (TranscriptionService.attemptOnce audioUri
                (TranscriptionService.attempts env 2)) as [t2|m2].
    + exists []. reflexivity.
    + destruct (TranscriptionService.isFinal m2); [exists []; reflexivity|].
      destruct (TranscriptionService.attemptOnce audioUri
                  (TranscriptionService.attempts env 3)) as [t3|m3].
      * eexists. reflexivity.
      * destruct (TranscriptionService.isFinal m3); eexists; reflexivity.
  - intros m1 m2 m3 H1 Hf1 H2 Hf2 H3 Hf3.
    rewrite H1, Hf1, H2, Hf2, H3, Hf3. reflexivity.
Qed.

Lemma final_errors_end_the_loop_witness :
  TranscriptionService.validateApiKey Sample.revoked = Ok tt
  /\ TranscriptionService.transcribe Sample.revoked "file:///rec.m4a"
     = (Throw "OpenAI API error (401): Incorrect API key",
        [TranscriptionService.Tried 1]).
Proof.
  split; [reflexivity|].
  pose proof (proj1 (proj2 (final_errors_end_the_loop Sample.revoked "file:///rec.m4a"
                              eq_refl))) as H.
  specialize (H Sample.unauthorized eq_refl eq_refl eq_refl).
  rewrite H; [reflexivity|]. simpl. lia.
Defined.

(** ** Search *)

Section CaseFacts.

Lemma lowerChar_idem (c : ascii) : Js.lowerChar (Js.lowerChar c) = Js.lowerChar c.
Proof. destruct c as [[] [] [] [] [] [] [] []]; reflexivity. Qed.

Lemma isSpace_lowerChar (c : ascii) : Js.isSpace (Js.lowerChar c) = Js.isSpace c.
Proof. destruct c as [[] [] [] [] [] [] [] []]; reflexivity. Qed.

Lemma toLowerCase_idem (s : string) :
  Js.toLowerCase (Js.toLowerCase s) = Js.toLowerCase s.
Proof.
  induction s as [|c s IH]; simpl; [reflexivity|].
  now rewrite lowerChar_idem, IH.
Qed.

Lemma toLowerCase_spaces (s : string) :
  Js.allChars Js.isSpace (Js.toLowerCase s) = Js.allChars Js.isSpace s.
Proof.
  induction s as [|c s IH]; simpl; [reflexivity|].
  now rewrite isSpace_lowerChar, IH.
Qed.

Lemma includes_self (s : string) : Js.includes s s = true.
Proof.
  destruct s as [|c s]; [reflexivity|].
  cbn [Js.includes].
  assert (H : String.prefix (String c s) (String c s) = true).
  { generalize (String c s). intro t. induction t as [|d t IH]; simpl; [reflexivity|].
    destruct (ascii_dec d d); [exact IH | congruence]. }
  now rewrite H.
Qed.
End CaseFacts.

(** X21. The search takes no account of the case of the query; a blank
    query with every type selected shows all the memories; what it shows
    are memories of the collection; and asking for a tag of a memory, in
    any case, shows that memory when every type is selected. *)
Theorem search_ignores_case :
  forall (memories : list Memory.t) (query : string)
         (selectedType : option Memory.Kind),
    SearchScreen.filteredMemories memories query selectedType
    = SearchScreen.filteredMemories memories (Js.toLowerCase query) selectedType
    /\ (Js.allChars Js.isSpace query = true ->
        SearchScreen.filteredMemories memories query None = memories)
    /\ (forall m, In m (SearchScreen.filteredMemories memories query selectedType) ->
                  In m memories)
    /\ (forall m tag,
          In m memories -> In tag (Memory.tags m) ->
          Js.toLowerCase tag = Js.toLowerCase query ->
          In m (SearchScreen.filteredMemories memories query None)).
Proof.
  intros memories query selectedType.
  unfold SearchScreen.filteredMemories.
  rewrite !trim_eqb_empty, toLowerCase_spaces, toLowerCase_idem.
  split; [reflexivity|]. split; [|split].
  - intro H. now rewrite H.
  - intros m Hm.
    destruct (negb (Js.allChars Js.isSpace query));
      [apply filter_In in Hm; destruct Hm as [Hm _]|];
      (destruct selectedType; [apply filter_In in Hm; tauto | exact Hm]).
  - intros m tag Hm Htag Hsame.
    destruct (negb (Js.allChars Js.isSpace query)); [|exact Hm].
    apply filter_In. split; [exact Hm|].
    unfold SearchScreen.matchesQuery.
    assert (H : existsb (fun t => Js.includes (Js.toLowerCase t) (Js.toLowerCase query))
                  (Memory.tags m) = true).
    { apply existsb_exists. exists tag. split; [exact Htag|].
      rewrite Hsame. apply includes_self. }
    rewrite H. apply orb_true_r.
Qed.

Lemma search_ignores_case_witness :
  map Memory.id (SearchScreen.filteredMemories Sample.memories "STARTUP" None)
  = ["m1"; "m2"; "m4"]
  /\ In (Sample.memory "m4" ["startup"] None (Utc.midnight 2026 1 20))
        (SearchScreen.filteredMemories Sample.memories "STARTUP" None).
Proof.
  split; [reflexivity|].
  apply (proj2 (proj2 (proj2 (search_ignores_case Sample.memories "STARTUP" None)))
           _ "startup").
  - simpl. tauto.
  - now left.
  - reflexivity.
Defined.

(** ** Sending a message *)



(** With a key and a reply, the answer reaches the store before the memory
    when the chat completes first, and after it otherwise. *)
Example sendMessage_orders :
  let rt := Sample.runtime "sk-ant" (Sample.replying Sample.suggestsIdeas) in
  let run := TalkScreen.sendMessage rt Sample.state "u1" "a1" "Tea with milk" false in
  exists user memory answer,
    run false = Ok [TalkScreen.AddMessage "c1" user; TalkScreen.AddMessage "c1" answer;
                    TalkScreen.AddMemory memory]
    /\ run true = Ok [TalkScreen.AddMessage "c1" user; TalkScreen.AddMemory memory;
                      TalkScreen.AddMessage "c1" answer].
Proof.
  do 3 eexists. split; vm_compute; reflexivity.
Qed.

(** ** The partner of a mashup *)

Lemma inStrings_In (x : string) (l : list string) :
  Js.inStrings x l = true <-> In x l.
Proof.
  unfold Js.inStrings. rewrite existsb_exists. split.
  - intros [y [Hy E]]. apply String.eqb_eq in E. now subst y.
  - intro H. exists x. split; [exact H | apply String.eqb_refl].
Qed.

Lemma sharesTag_false (m m1 : Memory.t) :
  SurpriseEngine.sharesTag m m1 = false <-> noCommonTag m1 m.
Proof.
  unfold SurpriseEngine.sharesTag, noCommonTag. split.
  - intros H t Ht Ht1.
    assert (E : existsb (fun t => Js.inStrings t (Memory.tags m1)) (Memory.tags m) = true).
    { apply existsb_exists. exists t. split; [exact Ht | now apply inStrings_In]. }
    congruence.
  - intro H.
    destruct (existsb (fun t => Js.inStrings t (Memory.tags m1)) (Memory.tags m)) eqn:E;
      [|reflexivity].
    apply existsb_exists in E. destruct E as [t [Ht Ht1]].
    apply inStrings_In in Ht1. destruct (H t Ht Ht1).
Qed.

Lemma sameRoomId_false (a b : option string) :
  SurpriseEngine.sameRoomId a b = false <-> a <> b.
Proof.
  destruct a as [x|], b as [y|]; simpl.
  - rewrite String.eqb_neq. split; intro H; congruence.
  - split; [discriminate | reflexivity].
  - split; [discriminate | reflexivity].
  - split; [discriminate | congruence].
Qed.

(** The test of [generateMashup]'s [find], and that of
    [generateAIConnection]'s. *)
Lemma mashup_test (m1 m : Memory.t) :
  negb (String.eqb (Memory.id m) (Memory.id m1))
  && negb (SurpriseEngine.sameRoomId (Memory.roomId m) (Memory.roomId m1))
  && negb (SurpriseEngine.sharesTag m m1) = true
  <-> mashupDiffers m1 m.
Proof.
  unfold mashupDiffers.
  rewrite !andb_true_iff, !negb_true_iff, String.eqb_neq, sameRoomId_false,
    sharesTag_false. tauto.
Qed.

Lemma connection_test (m1 m : Memory.t) :
  negb (String.eqb (Memory.id m) (Memory.id m1))
  && negb (SurpriseEngine.sharesTag m m1) = true
  <-> connectionDiffers m1 m.
Proof.
  unfold connectionDiffers.
  rewrite !andb_true_iff, !negb_true_iff, String.eqb_neq, sharesTag_false. tauto.
Qed.

(** [find] returns the first element that passes the test. *)
Lemma find_first {A} (f : A -> bool) (l : list A) (x : A) :
  find f l = Some x ->
  exists before after,
    l = before ++ x :: after /\ (forall y, In y before -> f y = false) /\ f x = true.
Proof.
  induction l as [|a l IH]; simpl; [discriminate|].
  destruct (f a) eqn:E.
  - intro H. inversion H; subst a. exists [], l. split; [reflexivity|].
    split; [intros y []|exact E].
  - intro H. destruct (IH H) as [before [after [Hl [Hb Hx]]]].
    exists (a :: before), after. split; [simpl; now rewrite Hl|].
    split; [|exact Hx]. intros y [<-|Hy]; [exact E | now apply Hb].
Qed.

Lemma partner_paired (test : Memory.t -> bool) (differs : Memory.t -> Memory.t -> Prop)
    (m1 m2 : Memory.t) (rest : list Memory.t) :
  (forall m, test m = true <-> differs m1 m) ->
  match find test (m1 :: rest) with
  | Some m => Some m
  | None => nth_error (m1 :: rest) 1
  end = Some m2 ->
  pairedFrom differs (m1 :: rest) m1 m2.
Proof.
  intros Htest H. split; [reflexivity|].
  destruct (find test (m1 :: rest)) as [m|] eqn:Hfind.
  - inversion H; subst m. left.
    destruct (find_first _ _ _ Hfind) as [before [after [Hl [Hb Hx]]]].
    exists before, after. split; [exact Hl|]. split; [|now apply Htest].
    intros y Hy Hd. apply Htest in Hd. rewrite (Hb y Hy) in Hd. discriminate.
  - right. split; [|exact H].
    intros m Hm Hd. apply Htest in Hd.
    rewrite (find_none _ _ Hfind m Hm) in Hd. discriminate.
Qed.

(** X23. The two memories of a mashup are the first of the shuffled
    memories and the first of the shuffled memories that has another id,
    another room and no tag in common with it: no memory before the partner
    in the shuffled order is such.  Only when no memory is such is the
    partner the second of the shuffled memories.  The same holds of an AI
    connection, which does not look at the rooms. *)
Theorem partner_is_unrelated :
  forall (rt : Runtime) (memories : list Memory.t) (s : Surprise.t),
    (SurpriseEngine.generateMashup rt memories = Ok (Some s) ->
     exists m1 m2,
       pairedFrom mashupDiffers (shuffleMemories rt GenerateMashup memories) m1 m2
       /\ Surprise.relatedMemoryIds s = [Memory.id m1; Memory.id m2])
    /\ (SurpriseEngine.generateAIConnection rt memories = Ok (Some s) ->
        exists m1 m2,
          pairedFrom connectionDiffers
            (shuffleMemories rt GenerateAIConnection memories) m1 m2
          /\ Surprise.relatedMemoryIds s = [Memory.id m1; Memory.id m2]).
Proof.
  intros rt memories s. split; intro H.
  - unfold SurpriseEngine.generateMashup in H.
    destruct (List.length memories <? 4)%nat; [discriminate|].
    destruct (shuffleMemories rt GenerateMashup memories) as [|m1 rest];
      [discriminate|].
    match type of H with match ?c with _ => _ end = _ => destruct c as [m2|] eqn:Hm2 end;
      [|discriminate].
    inversion H; subst s; clear H. exists m1, m2.
    split; [|reflexivity].
    exact (partner_paired _ mashupDiffers m1 m2 rest (mashup_test m1) Hm2).
  - unfold SurpriseEngine.generateAIConnection in H.
    destruct (List.length memories <? 3)%nat; [discriminate|].
    destruct (shuffleMemories rt GenerateAIConnection memories) as [|m1 rest];
      [discriminate|].
    match type of H with match ?c with _ => _ end = _ => destruct c as [m2|] eqn:Hm2 end;
      [|discriminate].
    match type of H with bind ?c _ = _ => destruct c as [response|e] end;
      [|discriminate].
    simpl in H. inversion H; subst s; clear H. exists m1, m2.
    split; [|reflexivity].
    exact (partner_paired _ connectionDiffers m1 m2 rest (connection_test m1) Hm2).
Qed.

(** The sample shuffle puts [m5] first; [m4], next to it, has another id,
    no room and no tag of [m5]. *)
Lemma partner_is_unrelated_witness :
  exists s m1 m2,
    SurpriseEngine.generateMashup (Sample.runtime "" Sample.offline) Sample.memories
    = Ok (Some s)
    /\ Surprise.relatedMemoryIds s = [Memory.id m1; Memory.id m2]
    /\ Surprise.relatedMemoryIds s = ["m5"; "m4"]
    /\ mashupDiffers m1 m2.
Proof.
  destruct (SurpriseEngine.generateMashup (Sample.runtime "" Sample.offline)
              Sample.memories) as [[s|]|e] eqn:E;
    [|vm_compute in E; discriminate E|vm_compute in E; discriminate E].
  destruct (proj1 (partner_is_unrelated (Sample.runtime "" Sample.offline)
                     Sample.memories s) E) as [m1 [m2 [[Hhd Hd] Hrel]]].
  exists s, m1, m2. split; [reflexivity|]. split; [exact Hrel|].
  split; [vm_compute in E; inversion E; reflexivity|].
  destruct Hd as [[before [after [_ [_ Hd]]]]|[Hnone _]]; [exact Hd|exfalso].
  simpl in Hhd. inversion Hhd; subst m1.
  apply (Hnone (Sample.memory "m4" ["startup"] None (Utc.midnight 2026 1 20)));
    [simpl; tauto|].
  split; [discriminate|]. split; [discriminate|].
  intros t [<-|[]] [H|[]]. discriminate H.
Defined.

(** ** Ids that nothing has *)

Lemma map_unchanged {A} (f : A -> A) (l : list A) :
  (forall x, In x l -> f x = x) -> map f l = l.
Proof.
  intro H. rewrite <- (map_id l) at 2. now apply map_ext_in.
Qed.

(** X24. An action on an id that nothing has leaves the state as it is:
    updating or deleting a memory or a room under an id no memory or room
    has, and adding a message to a conversation that is neither listed nor
    current. *)
Theorem unknown_ids_change_nothing :
  forall (now : Z) (state : Store.AppState) (id : string),
    (~ In id (idsOf (Store.memories state)) ->
     (forall updates,
         Store.appReducer now state (Store.UPDATE_MEMORY id updates) = state)
     /\ Store.appReducer now state (Store.DELETE_MEMORY id) = state)
    /\ (~ In id (map Room.id (Store.rooms state)) ->
        (forall updates,
            Store.appReducer now state (Store.UPDATE_ROOM id updates) = state)
        /\ Store.appReducer now state (Store.DELETE_ROOM id) = state)
    /\ (~ In id (map Conversation.id (Store.conversations state)) ->
        (forall current, Store.currentConversation state = Some current ->
                         Conversation.id current <> id) ->
        forall message,
          Store.appReducer now state (Store.ADD_MESSAGE id message) = state).
Proof.
  intros now state id. split; [|split].
  - intro Hnone.
    assert (Hne : forall m, In m (Store.memories state) ->
                            String.eqb (Memory.id m) id = false).
    { intros m Hm. apply String.eqb_neq. intro E. apply Hnone.
      rewrite <- E. now apply in_map. }
    split.
    + intro updates. simpl. rewrite map_unchanged; [now destruct state|].
      intros m Hm. now rewrite (Hne m Hm).
    + simpl.
      assert (Hfind : find (fun m => String.eqb (Memory.id m) id) (Store.memories state)
                      = None).
      { destruct (find _ (Store.memories state)) as [m|] eqn:E; [|reflexivity].
        apply find_some in E. destruct E as [Hm E]. rewrite (Hne m Hm) in E.
        discriminate E. }
      rewrite Hfind, (delete_none _ _ Hfind). simpl. now destruct state.
  - intro Hnone.
    assert (Hne : forall r, In r (Store.rooms state) ->
                            String.eqb (Room.id r) id = false).
    { intros r Hr. apply String.eqb_neq. intro E. apply Hnone.
      rewrite <- E. now apply in_map. }
    split.
    + intro updates. simpl. rewrite map_unchanged; [now destruct state|].
      intros r Hr. now rewrite (Hne r Hr).
    + simpl. rewrite filter_all; [now destruct state|].
      intros r Hr. now rewrite (Hne r Hr).
  - intros Hnone Hcurrent message. simpl.
    rewrite map_unchanged.
    + destruct (Store.currentConversation state) as [current|] eqn:Hc.
      * assert (E : String.eqb (Conversation.id current) id = false)
          by (apply String.eqb_neq; now apply Hcurrent).
        rewrite E. destruct state; simpl in *. now rewrite Hc.
      * destruct state; simpl in *. now rewrite Hc.
    + intros c Hin.
      assert (E : String.eqb (Conversation.id c) id = false).
      { apply String.eqb_neq. intro E. apply Hnone. rewrite <- E. now apply in_map. }
      now rewrite E.
Qed.

Lemma unknown_ids_change_nothing_witness :
  Store.appReducer 0 Sample.state (Store.DELETE_MEMORY "m0") = Sample.state
  /\ Store.appReducer 0 Sample.state (Store.DELETE_ROOM "r0") = Sample.state.
Proof.
  split.
  - apply (proj1 (unknown_ids_change_nothing 0 Sample.state "m0")).
    simpl. intuition discriminate.
  - apply (proj1 (proj2 (unknown_ids_change_nothing 0 Sample.state "r0"))).
    simpl. intuition discriminate.
Defined.
